(** * Attendance reconciliation: a shallow embedding of [process_attendance.py]

    The development follows the source file top to bottom:
    - the Python string operations the program relies on ([str.strip],
      [str.lower], [in], [split], [int]);
    - the worksheet calls of gspread as the nodes of a small program type
      ([prog]), run against the answers the remote sheet gives to each read;
    - [get_or_create_attendee], [create_session], [log_attendance] and the
      store phase of [main];
    - [validate_names_with_llm], [parse_quiz_date] and [extract_emails];
    - [extract_participant_data] and [extract_quiz_date], and what a run of
      [main] counts and writes.

    Text is modelled as [string], each character standing for one code point
    in the range U+0000..U+00FF; the functions below are Python's on that
    range.  Calls to the worksheet are assumed to return (a failing network
    call is not modelled); the exceptions that the program's own expressions
    raise ([int] of a non-number, indexing an empty list) are. *)

From Stdlib Require Import ZArith NArith Ascii String DecimalString Lia.
From stdpp Require Import base option list strings gmap.

Local Open Scope Z_scope.

(** ** Python strings *)

Module Py.

Definition code (c : ascii) : N := N_of_ascii c.

(** [str.isspace] on one character: TAB..CR, FS..US, SPACE, NEL, NBSP. *)
Definition isspace (c : ascii) : bool :=
  let n := code c in
  (((9 <=? n) && (n <=? 13)) || ((28 <=? n) && (n <=? 32))
   || (n =? 133) || (n =? 160))%N.

(** [str.lower] on one character: A..Z and the upper-case letters of the
    Latin-1 block (U+00C0..U+00DE but the multiplication sign). *)
Definition lower_char (c : ascii) : ascii :=
  let n := code c in
  if (((65 <=? n) && (n <=? 90))
      || ((192 <=? n) && (n <=? 222) && negb (n =? 215)))%N
  then ascii_of_N (n + 32) else c.

Fixpoint lower (s : string) : string :=
  match s with
  | EmptyString => EmptyString
  | String c s' => String (lower_char c) (lower s')
  end.

Fixpoint lstrip (s : string) : string :=
  match s with
  | EmptyString => EmptyString
  | String c s' => if isspace c then lstrip s' else s
  end.

Fixpoint rstrip (s : string) : string :=
  match s with
  | EmptyString => EmptyString
  | String c s' =>
      match rstrip s' with
      | EmptyString => if isspace c then EmptyString else String c EmptyString
      | r => String c r
      end
  end.

(** [s.strip()] *)
Definition strip (s : string) : string := rstrip (lstrip s).

(** Truth value of a string: [if s:] *)
Definition truthy (s : string) : bool :=
  match s with EmptyString => false | _ => true end.

(** [s.startswith(p)] *)
Fixpoint startswith (p s : string) : bool :=
  match p, s with
  | EmptyString, _ => true
  | String a p', String b s' => if ascii_dec a b then startswith p' s' else false
  | String _ _, EmptyString => false
  end.

(** [sub in s] *)
Fixpoint contains (sub s : string) : bool :=
  startswith sub s ||
  match s with
  | EmptyString => false
  | String _ s' => contains sub s'
  end.

(** [s[n:]] *)
Fixpoint drop (n : nat) (s : string) : string :=
  match n, s with
  | O, _ => s
  | S n', String _ s' => drop n' s'
  | S _, EmptyString => EmptyString
  end.

(** [s.split(sep)] for a non-empty [sep]: the pieces between the
    occurrences of [sep], found left to right without overlap.  [skip]
    counts the characters of an occurrence still to pass over, [cur] is the
    piece being read, last character first. *)
Fixpoint rev_string (acc s : string) : string :=
  match s with
  | EmptyString => acc
  | String c s' => rev_string (String c acc) s'
  end.

Fixpoint split_go (sep : string) (skip : nat) (cur : string) (s : string)
  : list string :=
  match s with
  | EmptyString => [rev_string EmptyString cur]
  | String c s' =>
      match skip with
      | S k => split_go sep k cur s'
      | O =>
          if startswith sep s
          then rev_string EmptyString cur
                 :: split_go sep (String.length sep - 1) EmptyString s'
          else split_go sep O (String c cur) s'
      end
  end.

Definition split (sep s : string) : list string := split_go sep 0 EmptyString s.

(** [int(s)] for a string without surrounding white space, which is what
    every call site passes ([.strip()] comes first): an optional sign, then
    decimal digits, single underscores allowed between digits.  [None]
    stands for [ValueError].  (The interpreter's configurable cap on the
    number of digits is left out.) *)
Definition digit (c : ascii) : option Z :=
  let n := code c in
  if ((48 <=? n) && (n <=? 57))%N then Some (Z.of_N n - 48) else None.

Definition underscore : ascii := "_"%char.

(** [digits_go acc s]: [s] continues a numeral whose value so far is [acc];
    the character before [s] was a digit. *)
Fixpoint digits_go (acc : Z) (s : string) : option Z :=
  match s with
  | EmptyString => Some acc
  | String c s' =>
      match digit c with
      | Some d => digits_go (10 * acc + d) s'
      | None =>
          if ascii_dec c underscore then
            match s' with
            | String c' s'' =>
                match digit c' with
                | Some d => digits_go (10 * acc + d) s''
                | None => None
                end
            | EmptyString => None
            end
          else None
      end
  end.

Definition unsigned (s : string) : option Z :=
  match s with
  | String c s' =>
      match digit c with
      | Some d => digits_go d s'
      | None => None
      end
  | EmptyString => None
  end.

Definition int (s : string) : option Z :=
  match s with
  | String "+" s' => unsigned s'
  | String "-" s' => Z.opp <$> unsigned s'
  | _ => unsigned s
  end.

End Py.

(** ** The worksheet and the calls made on it *)

(** What [get_all_values] returns: the rows of the sheet, top to bottom, each
    a list of cell texts; the first row is the header. *)
Definition table : Type := list (list string).

Inductive sheet_id : Type := Attendees | Sessions | AttendanceLog.

#[global] Instance sheet_id_eq_dec : EqDecision sheet_id.
Proof. solve_decision. Defined.

(** A value handed to [append_row] or [update_cell]. *)
Inductive value : Type :=
| VStr (s : string)
| VInt (z : Z).

Inductive exn : Type := ValueError | IndexError.

Inductive outcome (A : Type) : Type :=
| Returned (a : A)
| Raised (e : exn).
Arguments Returned {A} a.
Arguments Raised {A} e.

(** A program over the worksheets: each node is one call, in the order the
    source makes them. *)
Inductive prog (A : Type) : Type :=
| Done (o : outcome A)
| GetAllValues (sheet : sheet_id) (k : table -> prog A)
| UpdateCell (sheet : sheet_id) (row col : nat) (v : value) (k : prog A)
| AppendRow (sheet : sheet_id) (values : list value) (k : prog A)
| Sleep (millis : N) (k : prog A).
Arguments Done {A} o.
Arguments GetAllValues {A} sheet k.
Arguments UpdateCell {A} sheet row col v k.
Arguments AppendRow {A} sheet values k.
Arguments Sleep {A} millis k.

Definition ret {A} (a : A) : prog A := Done (Returned a).
Definition raise {A} (e : exn) : prog A := Done (Raised e).

Fixpoint bind {A B} (p : prog A) (f : A -> prog B) : prog B :=
  match p with
  | Done (Returned a) => f a
  | Done (Raised e) => Done (Raised e)
  | GetAllValues sh k => GetAllValues sh (fun t => bind (k t) f)
  | UpdateCell sh r c v k => UpdateCell sh r c v (bind k f)
  | AppendRow sh vs k => AppendRow sh vs (bind k f)
  | Sleep d k => Sleep d (bind k f)
  end.

(** [try: p except Exception as e: h e] *)
Fixpoint try_except {A} (p : prog A) (h : exn -> prog A) : prog A :=
  match p with
  | Done (Returned a) => Done (Returned a)
  | Done (Raised e) => h e
  | GetAllValues sh k => GetAllValues sh (fun t => try_except (k t) h)
  | UpdateCell sh r c v k => UpdateCell sh r c v (try_except k h)
  | AppendRow sh vs k => AppendRow sh vs (try_except k h)
  | Sleep d k => Sleep d (try_except k h)
  end.

Notation "'let*' x := p 'in' q" := (bind p (fun x => q))
  (at level 10, x name, p at level 100, q at level 200).

(** What a run leaves behind: the calls made, with the answer of each read. *)
Inductive event : Type :=
| EvGetAll (sheet : sheet_id) (answer : table)
| EvUpdate (sheet : sheet_id) (row col : nat) (v : value)
| EvAppend (sheet : sheet_id) (values : list value)
| EvSleep (millis : N).

(** [exec p reads] runs [p]; the n-th call of [get_all_values] is answered by
    the n-th table of [reads] (an empty sheet once [reads] is used up), so
    that quantifying over [reads] covers every behaviour of the remote sheet.
    The result is the trace, the outcome and the answers not consumed. *)
Fixpoint exec {A} (p : prog A) (reads : list table)
  : list event * outcome A * list table :=
  match p with
  | Done o => ([], o, reads)
  | GetAllValues sh k =>
      let t := hd [] reads in
      let '(tr, o, rest) := exec (k t) (tl reads) in
      (EvGetAll sh t :: tr, o, rest)
  | UpdateCell sh r c v k =>
      let '(tr, o, rest) := exec k reads in (EvUpdate sh r c v :: tr, o, rest)
  | AppendRow sh vs k =>
      let '(tr, o, rest) := exec k reads in (EvAppend sh vs :: tr, o, rest)
  | Sleep d k =>
      let '(tr, o, rest) := exec k reads in (EvSleep d :: tr, o, rest)
  end.

Definition trace_of {A} (r : list event * outcome A * list table) : list event := r.1.1.
Definition outcome_of {A} (r : list event * outcome A * list table) : outcome A := r.1.2.

Definition is_write (e : event) : bool :=
  match e with
  | EvUpdate _ _ _ _ | EvAppend _ _ => true
  | _ => false
  end.

Definition is_append (e : event) : bool :=
  match e with EvAppend _ _ => true | _ => false end.

(** The writes of a trace, in order. *)
Definition writes (tr : list event) : list event := List.filter is_write tr.

(** ** [get_or_create_attendee] *)

(** A record: the dict built from the header row and one data row. *)
Abbreviation record := (gmap string string).

(** [for i, header in enumerate(headers): record[header] = row[i] if i < len(row) else ""] *)
Fixpoint fill_record (i : nat) (headers row : list string) (rec : record) : record :=
  match headers with
  | [] => rec
  | header :: headers' =>
      fill_record (S i) headers' row (<[header := default EmptyString (row !! i)]> rec)
  end.

Definition make_record (headers row : list string) : record :=
  fill_record 0 headers row ∅.

(** [record.get(key, "")] *)
Definition get (rec : record) (key : string) : string :=
  default EmptyString (rec !! key).

(** Lines 200-209. *)
Definition read_records (all_values : table) : list record :=
  match all_values with
  | headers :: ((_ :: _) as rows) => make_record headers <$> rows
  | _ => []
  end.

(** [return int(attendee_id) if attendee_id else None] *)
Definition id_result (attendee_id : string) : outcome (option Z) :=
  if Py.truthy attendee_id then
    match Py.int attendee_id with
    | Some n => Returned (Some n)
    | None => Raised ValueError
    end
  else Returned None.

Definition record_id (rec : record) : outcome (option Z) :=
  id_result (Py.strip (get rec "id")).

(** The three tests of the search loops (lines 213-214, 220-222, 232-233). *)
Definition email_matches (email : string) (rec : record) : Prop :=
  Py.lower (Py.strip (get rec "email")) = Py.lower email.

Definition name_matches (name : string) (rec : record) : Prop :=
  Py.lower (Py.strip (get rec "name")) = Py.strip (Py.lower name).

Definition backfill_matches (name : string) (rec : record) : Prop :=
  name_matches name rec /\ Py.truthy (Py.strip (get rec "email")) = false.

#[global] Instance email_matches_dec email rec : Decision (email_matches email rec).
Proof. unfold email_matches. apply _. Defined.
#[global] Instance name_matches_dec name rec : Decision (name_matches name rec).
Proof. unfold name_matches. apply _. Defined.
#[global] Instance backfill_matches_dec name rec : Decision (backfill_matches name rec).
Proof. unfold backfill_matches. apply _. Defined.

(** Lines 237-262: append the new row, then read the id the sheet gave it
    from the last row, once more after two seconds if it is still blank. *)
Definition create_attendee (sheet : sheet_id) (name email : string)
  : prog (option Z) :=
  AppendRow sheet
    [VStr EmptyString; VStr name; VStr (if Py.truthy email then email else EmptyString)]
  (Sleep 2000
  (GetAllValues sheet (fun all_values =>
    match all_values with
    | headers :: _ :: _ =>
        let last_row := List.last all_values [] in
        let last_record := make_record headers last_row in
        let attendee_id := Py.strip (get last_record "id") in
        if Py.truthy attendee_id then Done (id_result attendee_id)
        else
          Sleep 2000
          (GetAllValues sheet (fun all_values =>
            match all_values with
            | [] => raise IndexError
            | _ :: _ =>
                let last_row := List.last all_values [] in
                let last_record := fill_record 0 headers last_row last_record in
                Done (id_result (Py.strip (get last_record "id")))
            end))
    | _ => ret None
    end))).

Definition get_or_create_attendee (sheet : sheet_id) (name email : string)
  : prog (option Z) :=
  GetAllValues sheet (fun all_values =>
    let records := read_records all_values in
    if Py.truthy email then
      match list_find (email_matches email) records with
      | Some (_, rec) => Done (record_id rec)
      | None =>
          match list_find (backfill_matches name) records with
          | Some (idx, rec) =>
              let row_num := (idx + 2)%nat in
              UpdateCell sheet row_num 3 (VStr email)
              (Sleep 500 (Done (record_id rec)))
          | None => create_attendee sheet name email
          end
      end
    else
      match list_find (name_matches name) records with
      | Some (_, rec) => Done (record_id rec)
      | None => create_attendee sheet name email
      end).

(** ** [create_session], [log_attendance] *)

(** [last_row[0].strip() if last_row and last_row[0] else None] *)
Definition first_cell_id (last_row : list string) : option string :=
  match last_row with
  | cell :: _ => if Py.truthy cell then Some (Py.strip cell) else None
  | [] => None
  end.

(** [not session_id] for the optional string above. *)
Definition no_id (session_id : option string) : bool :=
  match session_id with
  | Some s => negb (Py.truthy s)
  | None => true
  end.

(** [return int(session_id) if session_id else None] *)
Definition session_result (session_id : option string) : outcome (option Z) :=
  match session_id with
  | Some s => id_result s
  | None => Returned None
  end.

Definition create_session (sheet : sheet_id) (url title date : string)
  : prog (option Z) :=
  AppendRow sheet [VStr EmptyString; VStr url; VStr title; VStr date]
  (Sleep 2000
  (GetAllValues sheet (fun all_values =>
    match all_values with
    | _ :: _ :: _ =>
        let last_row := List.last all_values [] in
        let session_id := first_cell_id last_row in
        if no_id session_id then
          Sleep 2000
          (GetAllValues sheet (fun all_values =>
            match all_values with
            | [] => raise IndexError
            | _ :: _ =>
                let last_row := List.last all_values [] in
                Done (session_result (first_cell_id last_row))
            end))
        else Done (session_result session_id)
    | _ => ret None
    end))).

Definition log_attendance (sheet : sheet_id) (member_id session_id : Z)
  : prog unit :=
  AppendRow sheet [VInt member_id; VInt session_id] (ret tt).

(** ** The store phase of [main] (lines 381-442)

    What [main] does once the operator has confirmed: the session is created,
    then each participant is resolved and logged.  Console output is left out
    but for the three counters of the completion summary, which are the
    result. *)

Record tally : Type := Tally {
  attendance_count : nat;
  blank_email_count : nat;
  skipped_count : nat
}.

Definition logged_with_email (t : tally) : tally :=
  Tally (S (attendance_count t)) (blank_email_count t) (skipped_count t).
Definition logged_blank (t : tally) : tally :=
  Tally (attendance_count t) (S (blank_email_count t)) (skipped_count t).
Definition skipped (t : tally) : tally :=
  Tally (attendance_count t) (blank_email_count t) (S (skipped_count t)).

(** [not member_id], [not session_id] for an optional integer: [None] and [0]. *)
Definition falsy_id (id : option Z) : bool :=
  match id with
  | Some n => n =? 0
  | None => true
  end.

(** The body of the loop of lines 408-441 for one participant. *)
Definition process_participant (email_mapping : gmap string string)
    (session_id : Z) (participant_name : string) (t : tally) : prog tally :=
  let email := default EmptyString (email_mapping !! participant_name) in
  try_except
    (let* member_id := get_or_create_attendee Attendees participant_name email in
     if falsy_id member_id then ret (skipped t)
     else
       let* _ := log_attendance AttendanceLog (default 0 member_id) session_id in
       ret (if Py.truthy email then logged_with_email t else logged_blank t))
    (fun _ => ret (skipped t)).

Fixpoint process_participants (email_mapping : gmap string string)
    (session_id : Z) (participants : list string) (t : tally) : prog tally :=
  match participants with
  | [] => ret t
  | participant_name :: rest =>
      let* t' := process_participant email_mapping session_id participant_name t in
      process_participants email_mapping session_id rest t'
  end.

(** How the store phase ends: at the session ("Failed to create session",
    "Error creating session") or with the completion summary. *)
Inductive run_end : Type :=
| SessionFailed
| SessionError (e : exn)
| Completed (t : tally).

Definition main_store_phase (session_url session_title quiz_date : string)
    (participants : list string) (email_mapping : gmap string string)
  : prog run_end :=
  let* created :=
    try_except
      (let* session_id := create_session Sessions session_url session_title quiz_date in
       ret (inl session_id))
      (fun e => ret (inr e)) in
  match created with
  | inr e => ret (SessionError e)
  | inl session_id =>
      if falsy_id session_id then ret SessionFailed
      else
        let* t := process_participants email_mapping (default 0 session_id)
                    participants (Tally 0 0 0) in
        ret (Completed t)
  end.

(** ** The attendee sheet as the writes leave it

    The sheet stores the text it is given.  [update_cell] is 1-based; a row
    or a line of cells too short for the position is filled with empty
    cells up to it.  An appended row receives its id from the sheet itself:
    [assigned] is the text the sheet puts into the first cell. *)

Definition value_text (v : value) : string :=
  match v with
  | VStr s => s
  | VInt z => NilZero.string_of_int (Z.to_int z)
  end.

Fixpoint set_nth {A} (d : A) (i : nat) (x : A) (l : list A) : list A :=
  match i, l with
  | O, [] => [x]
  | O, _ :: l' => x :: l'
  | S i', [] => d :: set_nth d i' x []
  | S i', y :: l' => y :: set_nth d i' x l'
  end.

Definition update_cell (t : table) (row col : nat) (text : string) : table :=
  set_nth [] (row - 1) (set_nth EmptyString (col - 1) text (nth (row - 1) t [])) t.

Definition append_row (t : table) (texts : list string) (assigned : string) : table :=
  t ++ [match texts with
        | _ :: cells => assigned :: cells
        | [] => [assigned]
        end].

Definition apply_event (sheet : sheet_id) (assigned : string) (t : table) (e : event)
  : table :=
  match e with
  | EvUpdate sh row col v =>
      if decide (sh = sheet) then update_cell t row col (value_text v) else t
  | EvAppend sh values =>
      if decide (sh = sheet) then append_row t (value_text <$> values) assigned else t
  | _ => t
  end.

(** The sheet once the writes of a trace have landed. *)
Definition sheet_after (sheet : sheet_id) (assigned : string) (t : table)
    (tr : list event) : table :=
  foldl (apply_event sheet assigned) t tr.

(** The cell at a 1-based position; empty when the sheet has none there. *)
Definition cell (t : table) (row col : nat) : string :=
  nth (col - 1) (nth (row - 1) t []) EmptyString.

(** The layout of the attendee sheet (columns id, name, email). *)
Definition attendee_headers : list string := ["id"; "name"; "email"].

(** The row the search loops of a call stop at, and the loop that found it. *)
Inductive found (name email : string) (records : list record)
    (idx : nat) (rec : record) : Prop :=
| found_by_email :
    Py.truthy email = true ->
    list_find (email_matches email) records = Some (idx, rec) ->
    found name email records idx rec
| found_for_backfill :
    Py.truthy email = true ->
    list_find (email_matches email) records = None ->
    list_find (backfill_matches name) records = Some (idx, rec) ->
    found name email records idx rec
| found_by_name :
    Py.truthy email = false ->
    list_find (name_matches name) records = Some (idx, rec) ->
    found name email records idx rec.

(** No loop stops: the call goes on to append a row. *)
Definition not_found (name email : string) (records : list record) : Prop :=
  if Py.truthy email
  then list_find (email_matches email) records = None
       /\ list_find (backfill_matches name) records = None
  else list_find (name_matches name) records = None.

(** A text is blank: empty once trimmed, which is how the program tests a
    cell for being empty. *)
Definition blank (text : string) : Prop := Py.truthy (Py.strip text) = false.

#[global] Instance blank_dec text : Decision (blank text).
Proof. unfold blank. apply _. Defined.

(** The id of the last row of a re-read sheet is still missing, the row
    being read under [headers]. *)
Definition id_pending (headers : list string) (t : table) : Prop :=
  blank (get (make_record headers (List.last t [])) "id").

(** The first cell of the last row of the session sheet is still missing. *)
Definition session_id_pending (t : table) : Prop :=
  no_id (first_cell_id (List.last t [])) = true.

(** A sequence of calls on the attendee sheet, each reading the sheet as the
    calls before it left it; [later_reads] answers the reads after the first
    one, [assigned] is the id text the sheet gives to a row the call appends. *)
Record call : Type := Call {
  call_name : string;
  call_email : string;
  later_reads : list table;
  assigned : string
}.

Definition sheet_after_call (t : table) (c : call) : table :=
  sheet_after Attendees (assigned c) t
    (trace_of (exec (get_or_create_attendee Attendees (call_name c) (call_email c))
                 (t :: later_reads c))).

Definition sheet_after_calls (t : table) (calls : list call) : table :=
  foldl sheet_after_call t calls.

(** The sheet an event is about. *)
Definition event_sheet (e : event) : option sheet_id :=
  match e with
  | EvGetAll sh _ | EvUpdate sh _ _ _ | EvAppend sh _ => Some sh
  | EvSleep _ => None
  end.

(** Every call of a trace is made on [sheet]. *)
Definition only_on (sheet : sheet_id) (tr : list event) : Prop :=
  Forall (fun e => forall sh, event_sheet e = Some sh -> sh = sheet) tr.

Definition rest_of {A} (r : list event * outcome A * list table) : list table := r.2.

(** ** [validate_names_with_llm] *)

(** What [response.json()] and [json.loads] produce. *)
#[local] Unset Elimination Schemes.
Inductive json : Type :=
| JNull
| JBool (b : bool)
| JInt (z : Z)
| JFloat (literal : string)
| JStr (s : string)
| JArr (items : list json)
| JObj (fields : list (string * json)).
#[local] Set Elimination Schemes.

(** The answer to [requests.post]: the call raises, or a response comes back
    with its status code and what [response.json()] gives ([None]: the body
    does not parse and the call raises). *)
Inductive post_result : Type :=
| PostRaises
| Response (status_code : Z) (body : option json).

(** What the attempt to read the [.env] file finds. *)
Inductive env_file : Type :=
| NoFile
| FileContent (text : string)
| ReadRaises.

(** The surroundings of one call: the environment variable, the file, the
    service (its answer may depend on the key and on the names sent in the
    prompt) and [json.loads] ([None]: it raises). *)
Record llm_env : Type := LlmEnv {
  getenv_key : option string;
  dotenv_file : env_file;
  post : string -> list string -> post_result;
  json_loads : string -> option json
}.

(** [v[key]] for a string key; [None] stands for the exception raised
    ([KeyError], [TypeError]). *)
Fixpoint assoc (key : string) (fields : list (string * json)) : option json :=
  match fields with
  | [] => None
  | (k, v) :: fields' => if decide (k = key) then Some v else assoc key fields'
  end.

Definition subscript (v : json) (key : string) : option json :=
  match v with
  | JObj fields => assoc key fields
  | _ => None
  end.

(** [v[0]]: the first item of a list, the first character of a string. *)
Definition subscript0 (v : json) : option json :=
  match v with
  | JArr (item :: _) => Some item
  | JStr (String c _) => Some (JStr (String c EmptyString))
  | _ => None
  end.

(** [v.strip()]: strings only. *)
Definition strip_method (v : json) : option string :=
  match v with
  | JStr s => Some (Py.strip s)
  | _ => None
  end.

Definition fence : string := "```".

(** Lines 91-95. *)
Definition unfence (content : string) : string :=
  let content :=
    if Py.contains fence content then
      let content := nth 1 (Py.split fence content) EmptyString in
      if Py.startswith "json" content then Py.drop 4 content else content
    else content in
  Py.strip content.

(** The list of names as the value the function returns. *)
Definition names_value (names : list string) : json := JArr (JStr <$> names).

(** Lines 88-98 on a response with status 200; [None] when any step raises. *)
Definition read_valid_names (env : llm_env) (body : option json) : option json :=
  result ← body;
  choices ← subscript result "choices";
  choice ← subscript0 choices;
  message ← subscript choice "message";
  content ← subscript message "content";
  content ← strip_method content;
  json_loads env (unfence content).

(** [api_key] after lines 60-65; [None] when reading the file raises. *)
Definition find_api_key (env : llm_env) : option string :=
  let api_key := default EmptyString (getenv_key env) in
  if Py.truthy api_key then Some api_key
  else
    match dotenv_file env with
    | NoFile => Some api_key
    | FileContent text => Some (Py.strip text)
    | ReadRaises => None
    end.

Definition validate_names_with_llm (env : llm_env) (names : list string) : json :=
  match names with
  | [] => JArr []
  | _ :: _ =>
      match find_api_key env with
      | None => names_value names
      | Some api_key =>
          if Py.truthy api_key then
            match post env api_key names with
            | PostRaises => names_value names
            | Response status_code body =>
                if status_code =? 200 then
                  match read_valid_names env body with
                  | Some valid_names => valid_names
                  | None => names_value names
                  end
                else names_value names
            end
          else names_value names
      end
  end.

(** The value is a list of names, each of which is one of [names]. *)
Definition is_name_subset (v : json) (names : list string) : Prop :=
  exists valid : list string, v = names_value valid /\ valid ⊆ names.

(** The quotation mark. *)
Definition quote : string := String (ascii_of_nat 34) EmptyString.

(** A service that answers with one name of its own: the reply is the JSON
    text [reply_text], a list holding the one name Mallory, which is what
    [json.loads] makes of it. *)
Definition reply_text : string := "[" +:+ quote +:+ "Mallory" +:+ quote +:+ "]".

Definition reply_body : json :=
  JObj [("choices", JArr [JObj [("message", JObj [("content", JStr reply_text)])]])].

Definition inventive_service : llm_env :=
  LlmEnv (Some "key") NoFile
    (fun _ _ => Response 200 (Some reply_body))
    (fun text => if decide (text = reply_text) then Some (JArr [JStr "Mallory"]) else None).

(** ** [parse_quiz_date] *)

(** [datetime.strptime(s, "%a %d %b %Y")] in the English locale, as the
    regular expression the library builds from the format reads [s] (letter
    case ignored, a blank of the format standing for one or more white-space
    characters):
    [(mon|tue|...)\s+(3[0-1]|[1-2]\d|0[1-9]|[1-9]| [1-9])\s+(jan|...)\s+(\d\d\d\d)],
    all of [s] being consumed, and the date having to exist. *)
Module Strptime.

Definition a_weekday : list string :=
  ["mon"; "tue"; "wed"; "thu"; "fri"; "sat"; "sun"].

Definition a_month : list string :=
  ["jan"; "feb"; "mar"; "apr"; "may"; "jun";
   "jul"; "aug"; "sep"; "oct"; "nov"; "dec"].

(** Position of [x] in [names], counted from [i]. *)
Fixpoint index_from (i : Z) (x : string) (names : list string) : option Z :=
  match names with
  | [] => None
  | n :: names' => if decide (n = x) then Some i else index_from (i + 1) x names'
  end.

(** A three-letter name from [names], any letter case: its position and
    the rest of the text. *)
Definition abbreviation (names : list string) (s : string) : option (Z * string) :=
  match s with
  | String a (String b (String c rest)) =>
      i ← index_from 0 (Py.lower (String a (String b (String c EmptyString)))) names;
      Some (i, rest)
  | _ => None
  end.

(** [\s+] *)
Definition blanks (s : string) : option string :=
  match s with
  | String c rest => if Py.isspace c then Some (Py.lstrip rest) else None
  | EmptyString => None
  end.

(** [3[0-1]|[1-2]\d|0[1-9]|[1-9]] (the alternative with a leading blank
    can only read what the fourth reads, the blank going to [\s+]). *)
Definition day_of_month (s : string) : option (Z * string) :=
  let one :=
    match s with
    | String a rest =>
        d ← Py.digit a; if 1 <=? d then Some (d, rest) else None
    | EmptyString => None
    end in
  match s with
  | String a (String b rest) =>
      match Py.digit a, Py.digit b with
      | Some x, Some y =>
          if ((x =? 3) && (y <=? 1)) || ((1 <=? x) && (x <=? 2))
             || ((x =? 0) && (1 <=? y))
          then Some (10 * x + y, rest)
          else one
      | _, _ => one
      end
  | _ => one
  end.

(** [\d\d\d\d] *)
Definition four_digits (s : string) : option (Z * string) :=
  match s with
  | String a (String b (String c (String d rest))) =>
      x3 ← Py.digit a; x2 ← Py.digit b; x1 ← Py.digit c; x0 ← Py.digit d;
      Some (1000 * x3 + 100 * x2 + 10 * x1 + x0, rest)
  | _ => None
  end.

Definition is_leap (year : Z) : bool :=
  ((year mod 4 =? 0) && negb (year mod 100 =? 0)) || (year mod 400 =? 0).

Definition days_in_month (year month : Z) : Z :=
  if month =? 2 then (if is_leap year then 29 else 28)
  else if (month =? 4) || (month =? 6) || (month =? 9) || (month =? 11) then 30
  else 31.

(** The date read, as (year, month, day); [None] stands for [ValueError]. *)
Definition strptime (s : string) : option (Z * Z * Z) :=
  '(_, s) ← abbreviation a_weekday s;
  s ← blanks s;
  '(day, s) ← day_of_month s;
  s ← blanks s;
  '(m, s) ← abbreviation a_month s;
  s ← blanks s;
  '(year, s) ← four_digits s;
  if Py.truthy s then None
  else if (1 <=? year) && (day <=? days_in_month year (m + 1))
  then Some (year, m + 1, day) else None.

Definition digit_char (d : Z) : ascii := ascii_of_N (Z.to_N (48 + d)).

(** A number below 100 on two digits, a number below 10 000 on four. *)
Definition pad2 (n : Z) : string :=
  String (digit_char (n / 10 mod 10)) (String (digit_char (n mod 10)) EmptyString).

Definition pad4 (n : Z) : string :=
  String (digit_char (n / 1000 mod 10)) (String (digit_char (n / 100 mod 10)) (pad2 n)).

(** [%Y] as the C library prints it for [strftime]: the decimal digits of
    the year, without padding (glibc; a library that pads to four digits
    differs for the years below 1000). *)
Definition year_digits (year : Z) : string :=
  if year <? 10 then String (digit_char (year mod 10)) EmptyString
  else if year <? 100 then pad2 year
  else if year <? 1000 then String (digit_char (year / 100 mod 10)) (pad2 year)
  else pad4 year.

(** [d.strftime("%Y-%m-%d")] *)
Definition strftime (date : Z * Z * Z) : string :=
  let '(year, month, day) := date in
  year_digits year +:+ "-" +:+ pad2 month +:+ "-" +:+ pad2 day.

End Strptime.

(** Lines 108-111. *)
Definition parse_quiz_date (date_string : string) : outcome string :=
  let date_part := Py.strip (hd EmptyString (Py.split "," date_string)) in
  match Strptime.strptime date_part with
  | Some parsed_date => Returned (Strptime.strftime parsed_date)
  | None => Raised ValueError
  end.

(** ** [extract_emails] *)

(** The Overview sheet as pandas reads it: the column labels and the rows,
    each cell given by its [str()] (so an empty cell is ["nan"]). *)
Record dataframe : Type := DataFrame {
  columns : list string;
  rows : list (list string)
}.

(** Position of a column label. *)
Fixpoint column_index (label : string) (labels : list string) : option nat :=
  match labels with
  | [] => None
  | l :: labels' =>
      if decide (l = label) then Some O else S <$> column_index label labels'
  end.

(** [str(row.get("Question", ""))] *)
Definition question_of (df : dataframe) (row : list string) : string :=
  match column_index "Question" (columns df) with
  | Some i => nth i row "nan"
  | None => EmptyString
  end.

(** [re.compile(r'e[-\s]?mail?', re.IGNORECASE).search]: an e, at most one
    hyphen or white-space character, then m, a, i. *)
Definition startswith_nocase (p s : string) : bool :=
  Py.startswith p (Py.lower (String.substring 0 (String.length p) s)).

Definition email_pattern_at (s : string) : bool :=
  match s with
  | String e rest =>
      bool_decide (Py.lower_char e = "e"%char) &&
      (startswith_nocase "mai" rest ||
       match rest with
       | String c rest' =>
           (bool_decide (c = "-"%char) || Py.isspace c) && startswith_nocase "mai" rest'
       | EmptyString => false
       end)
  | EmptyString => false
  end.

Fixpoint email_pattern_search (s : string) : bool :=
  email_pattern_at s ||
  match s with
  | String _ s' => email_pattern_search s'
  | EmptyString => false
  end.

(** [re.match(r"^(.+?)\s+\(", col)]: the first group, which is the shortest
    non-empty start of [col], free of line feeds, that white space and an
    opening parenthesis follow. *)
Definition line_feed : ascii := ascii_of_nat 10.

Definition blanks_then_paren (s : string) : bool :=
  match s with
  | String c rest => Py.isspace c && Py.startswith "(" (Py.lstrip rest)
  | EmptyString => false
  end.

Fixpoint name_group (taken : string) (s : string) : option string :=
  if blanks_then_paren s then Some (Py.rev_string EmptyString taken)
  else
    match s with
    | String c s' =>
        if decide (c = line_feed) then None else name_group (String c taken) s'
    | EmptyString => None
    end.

Definition column_name (col : string) : option string :=
  match col with
  | String c rest =>
      if decide (c = line_feed) then None
      else Py.strip <$> name_group (String c EmptyString) rest
  | EmptyString => None
  end.

(** Lines 176-179: the candidate address of a cell. *)
Definition email_candidate (email_raw : string) : string :=
  if Py.contains "<br>" email_raw
  then Py.strip (hd EmptyString (Py.split "<br>" email_raw))
  else Py.strip email_raw.

(** Lines 181-185. *)
Definition acceptable (email : string) : bool :=
  Py.truthy email
  && negb (bool_decide (email = "nan"))
  && Py.contains "@" email
  && negb (Py.contains " " email)
  && (3 <? String.length email)%nat.

(** The loop of lines 166-186 over the columns, each with the cell of the
    email row below it. *)
Fixpoint collect_emails (cols : list string) (email_row : list string)
    (email_mapping : gmap string string) : gmap string string :=
  match cols with
  | [] => email_mapping
  | col :: cols' =>
      let email_raw := hd "nan" email_row in
      let email_mapping :=
        if decide (col = "Question") then email_mapping
        else
          match column_name col with
          | Some full_name =>
              let email := email_candidate email_raw in
              if acceptable email then <[full_name := email]> email_mapping
              else email_mapping
          | None => email_mapping
          end in
      collect_emails cols' (tl email_row) email_mapping
  end.

Definition extract_emails (df : dataframe) : outcome (gmap string string) :=
  match list_find (fun row => email_pattern_search (question_of df row) = true) (rows df) with
  | Some (_, email_row) => Returned (collect_emails (columns df) email_row ∅)
  | None => Raised ValueError
  end.

(** Three letters of a..z: the shape of every abbreviated day and month
    name. *)
Definition lower_letters (x : string) : Prop :=
  exists a b c,
    x = String a (String b (String c EmptyString))
    /\ Forall (fun l => ((97 <=? Py.code l) && (Py.code l <=? 122))%N = true) [a; b; c].

(** ** Counting what a run of [main] did *)

(** The participants resolved so far, and those of them that were logged. *)
Definition total_count (t : tally) : nat :=
  (attendance_count t + blank_email_count t + skipped_count t)%nat.

Definition logged_count (t : tally) : nat :=
  (attendance_count t + blank_email_count t)%nat.

(** [email_mapping.get(participant_name, "")] is a non-empty text. *)
Definition has_email (email_mapping : gmap string string) (participant_name : string)
  : bool :=
  Py.truthy (default EmptyString (email_mapping !! participant_name)).

(** The writes of a trace that go to [sheet]. *)
Definition is_write_on (sheet : sheet_id) (e : event) : bool :=
  is_write e && bool_decide (event_sheet e = Some sheet).

Definition writes_on (sheet : sheet_id) (tr : list event) : list event :=
  List.filter (is_write_on sheet) tr.

(** A row of the attendance log: a member id other than 0, then the id of
    the session. *)
Definition is_log_row (session_id : Z) (e : event) : Prop :=
  exists member_id,
    member_id <> 0 /\ e = EvAppend AttendanceLog [VInt member_id; VInt session_id].

(** The participants that have an email in the mapping, and those that have
    none. *)
Definition with_email (email_mapping : gmap string string) (participants : list string)
  : list string :=
  List.filter (has_email email_mapping) participants.

Definition without_email (email_mapping : gmap string string)
    (participants : list string) : list string :=
  List.filter (fun participant_name => negb (has_email email_mapping participant_name))
    participants.

(** A run of the store phase used below: the session sheet gives the id 7;
    Ana Lee is in the attendee sheet with her email, Bo Li is not and has no
    email. *)
Definition sample_sessions : table :=
  [["id"; "url"; "title"; "date"]; ["7"; "u"; "t"; "2025-03-03"]].

Definition sample_attendees : table :=
  [attendee_headers; ["1"; "Ana Lee"; "ana@x.com"]].

Definition sample_reads : list table :=
  [sample_sessions; sample_attendees; sample_attendees;
   sample_attendees ++ [["2"; "Bo Li"; EmptyString]]].

Definition sample_mapping : gmap string string := {["Ana Lee" := "ana@x.com"]}.

(** ** Dates as they may be written *)

(** A run of white space, as [\s+] reads it. *)
Fixpoint all_space (s : string) : bool :=
  match s with
  | EmptyString => true
  | String c s' => Py.isspace c && all_space s'
  end.

Definition gap (s : string) : bool := Py.truthy s && all_space s.

(** The day of the month on two digits, or on one when it is below 10. *)
Definition day_text (day : Z) (text : string) : Prop :=
  text = Strptime.pad2 day
  \/ (day <= 9 /\ text = String (Strptime.digit_char day) EmptyString).

(** A date of the calendar [datetime] can hold. *)
Definition date_exists (date : Z * Z * Z) : Prop :=
  let '(year, month, day) := date in
  1 <= year <= 9999 /\ 1 <= month <= 12
  /\ 1 <= day <= Strptime.days_in_month year month.

(** ** [extract_participant_data] *)

(** [str(row.get(label, ""))] on a row of a sheet read by pandas: the cell
    under the label (["nan"] when it is empty), the empty text when the
    sheet has no such column. *)
Definition row_get (df : dataframe) (row : list string) (label : string) : string :=
  match column_index label (columns df) with
  | Some i => nth i row "nan"
  | None => EmptyString
  end.

(** Lines 124-128: the name made of the two trimmed fields, if there is a
    first name. *)
Definition full_name_of (first_name last_name : string) : option string :=
  if Py.truthy first_name && negb (bool_decide (first_name = "nan")) then
    Some (if Py.truthy last_name && negb (bool_decide (last_name = "nan"))
          then first_name +:+ " " +:+ last_name
          else first_name)
  else None.

(** Lines 121-128 for one row. *)
Definition participant_name (df : dataframe) (row : list string) : option string :=
  let first_name := Py.strip (row_get df row "First Name") in
  let last_name := Py.strip (row_get df row "Last Name") in
  full_name_of first_name last_name.

(** The loop of lines 120-132, with its list and its set. *)
Fixpoint collect_participants (df : dataframe) (rows : list (list string))
    (participants : list string) (seen_names : gset string) : list string :=
  match rows with
  | [] => participants
  | row :: rows' =>
      match participant_name df row with
      | Some full_name =>
          if decide (full_name ∈ seen_names)
          then collect_participants df rows' participants seen_names
          else collect_participants df rows' (participants ++ [full_name])
                 ({[full_name]} ∪ seen_names)
      | None => collect_participants df rows' participants seen_names
      end
  end.

Definition extract_participant_data (df : dataframe) : list string :=
  collect_participants df (rows df) [] ∅.

(** ** [extract_quiz_date] *)

(** A cell of the Quiz Details sheet as pandas holds it: a text, or a value
    of another kind (a number, a date, a missing value). *)
Inductive xl_value : Type :=
| XText (text : string)
| XOther.

#[global] Instance xl_value_eq_dec : EqDecision xl_value.
Proof. solve_decision. Defined.

(** The sheet: its columns, each with its label and its cells from top to
    bottom. *)
Definition xl_frame : Type := list (string * list xl_value).

(** [df[label]]; [None] stands for [KeyError]. *)
Fixpoint xl_column (label : string) (df : xl_frame) : option (list xl_value) :=
  match df with
  | [] => None
  | (l, cells) :: df' => if decide (l = label) then Some cells else xl_column label df'
  end.

(** What reading the date can raise: an exception of the program's own, or
    one of the two that the look-ups raise. *)
Inductive read_exn : Type :=
| OfProgram (e : exn)
| KeyError
| AttributeError.

Inductive read_outcome : Type :=
| DateRead (iso : string)
| ReadRaised (e : read_exn).

(** Lines 137-147. *)
Definition extract_quiz_date (df : xl_frame) : read_outcome :=
  match xl_column "Name" df with
  | None => ReadRaised KeyError
  | Some names =>
      match list_find (fun v => v = XText "Game Started On") names with
      | None => ReadRaised (OfProgram ValueError)
      | Some (i, _) =>
          match xl_column "Value" df with
          | None => ReadRaised KeyError
          | Some values =>
              match nth i values XOther with
              | XText date_value =>
                  match parse_quiz_date date_value with
                  | Returned iso => DateRead iso
                  | Raised e => ReadRaised (OfProgram e)
                  end
              | XOther => ReadRaised AttributeError
              end
          end
      end
  end.

(** * Properties *)

(** ** Strings *)

Lemma isspace_lower_char c : Py.isspace (Py.lower_char c) = Py.isspace c.
Proof. by destruct c as [[] [] [] [] [] [] [] []]. Qed.

Lemma lower_lstrip s : Py.lower (Py.lstrip s) = Py.lstrip (Py.lower s).
Proof.
  induction s as [|c s IH]; [done|]. simpl.
  rewrite isspace_lower_char. by destruct (Py.isspace c).
Qed.

Lemma lower_rstrip s : Py.lower (Py.rstrip s) = Py.rstrip (Py.lower s).
Proof.
  induction s as [|c s IH]; [done|]. simpl.
  rewrite <- IH, isspace_lower_char.
  destruct (Py.rstrip s); simpl; [by destruct (Py.isspace c)|done].
Qed.

(** [s.strip().lower()] and [s.lower().strip()] are the same text. *)
Lemma lower_strip s : Py.lower (Py.strip s) = Py.strip (Py.lower s).
Proof. unfold Py.strip. by rewrite lower_rstrip, lower_lstrip. Qed.

Lemma truthy_lower s : Py.truthy (Py.lower s) = Py.truthy s.
Proof. by destruct s. Qed.

Lemma truthy_false s : Py.truthy s = false <-> s = EmptyString.
Proof. by destruct s. Qed.

(** ** Runs *)

Lemma exec_bind {A B} (p : prog A) (f : A -> prog B) reads :
  exec (bind p f) reads =
    match exec p reads with
    | (tr, Returned a, rest) =>
        let '(tr', o, rest') := exec (f a) rest in (tr ++ tr', o, rest')
    | (tr, Raised e, rest) => (tr, Raised e, rest)
    end.
Proof.
  revert reads. induction p as [[a|e]|sh k IH|sh r c v k IH|sh vs k IH|d k IH];
    intros reads; simpl.
  - by destruct (exec (f a) reads) as [[tr o] rest].
  - done.
  - rewrite IH. destruct (exec (k (hd [] reads)) (tl reads)) as [[tr [a|e]] rest]; [|done].
    by destruct (exec (f a) rest) as [[tr' o] rest'].
  - rewrite IH. destruct (exec k reads) as [[tr [a|e]] rest]; [|done].
    by destruct (exec (f a) rest) as [[tr' o] rest'].
  - rewrite IH. destruct (exec k reads) as [[tr [a|e]] rest]; [|done].
    by destruct (exec (f a) rest) as [[tr' o] rest'].
  - rewrite IH. destruct (exec k reads) as [[tr [a|e]] rest]; [|done].
    by destruct (exec (f a) rest) as [[tr' o] rest'].
Qed.

Lemma exec_try_except {A} (p : prog A) (h : exn -> prog A) reads :
  exec (try_except p h) reads =
    match exec p reads with
    | (tr, Returned a, rest) => (tr, Returned a, rest)
    | (tr, Raised e, rest) =>
        let '(tr', o, rest') := exec (h e) rest in (tr ++ tr', o, rest')
    end.
Proof.
  revert reads. induction p as [[a|e]|sh k IH|sh r c v k IH|sh vs k IH|d k IH];
    intros reads; simpl.
  - done.
  - by destruct (exec (h e) reads) as [[tr o] rest].
  - rewrite IH. destruct (exec (k (hd [] reads)) (tl reads)) as [[tr [a|e]] rest]; [done|].
    by destruct (exec (h e) rest) as [[tr' o] rest'].
  - rewrite IH. destruct (exec k reads) as [[tr [a|e]] rest]; [done|].
    by destruct (exec (h e) rest) as [[tr' o] rest'].
  - rewrite IH. destruct (exec k reads) as [[tr [a|e]] rest]; [done|].
    by destruct (exec (h e) rest) as [[tr' o] rest'].
  - rewrite IH. destruct (exec k reads) as [[tr [a|e]] rest]; [done|].
    by destruct (exec (h e) rest) as [[tr' o] rest'].
Qed.

(** ** [get_or_create_attendee]: the branches of one call *)

Section one_call.
Context (sheet : sheet_id) (name email : string) (snap : table) (reads : list table).

Let records := read_records snap.

Lemma run_email_found idx rec :
  Py.truthy email = true ->
  list_find (email_matches email) records = Some (idx, rec) ->
  exec (get_or_create_attendee sheet name email) (snap :: reads)
  = ([EvGetAll sheet snap], record_id rec, reads).
Proof. intros He Hf. subst records. simpl. by rewrite He, Hf. Qed.

Lemma run_backfill idx rec :
  Py.truthy email = true ->
  list_find (email_matches email) records = None ->
  list_find (backfill_matches name) records = Some (idx, rec) ->
  exec (get_or_create_attendee sheet name email) (snap :: reads)
  = ([EvGetAll sheet snap; EvUpdate sheet (idx + 2) 3 (VStr email); EvSleep 500],
     record_id rec, reads).
Proof. intros He Hf Hb. subst records. simpl. by rewrite He, Hf, Hb. Qed.

Lemma run_name_found idx rec :
  Py.truthy email = false ->
  list_find (name_matches name) records = Some (idx, rec) ->
  exec (get_or_create_attendee sheet name email) (snap :: reads)
  = ([EvGetAll sheet snap], record_id rec, reads).
Proof. intros He Hf. subst records. simpl. by rewrite He, Hf. Qed.

Lemma run_create :
  (if Py.truthy email
   then list_find (email_matches email) records = None
        /\ list_find (backfill_matches name) records = None
   else list_find (name_matches name) records = None) ->
  exec (get_or_create_attendee sheet name email) (snap :: reads)
  = let '(tr, o, rest) := exec (create_attendee sheet name email) reads in
    (EvGetAll sheet snap :: tr, o, rest).
Proof.
  intros H. subst records. unfold get_or_create_attendee.
  remember (create_attendee sheet name email) as create.
  simpl. destruct (Py.truthy email).
  - destruct H as [-> ->]. reflexivity.
  - rewrite H. reflexivity.
Qed.

End one_call.

(** The trace and the outcome of a run, call by call. *)
Section projections.
Context {A : Type}.
Implicit Types (k : prog A) (reads : list table).

Lemma trace_Done (o : outcome A) reads : trace_of (exec (Done o) reads) = [].
Proof. done. Qed.
Lemma trace_GetAllValues sh (k : table -> prog A) reads :
  trace_of (exec (GetAllValues sh k) reads)
  = EvGetAll sh (hd [] reads) :: trace_of (exec (k (hd [] reads)) (tl reads)).
Proof. simpl. by destruct (exec _ _) as [[??]?]. Qed.
Lemma trace_UpdateCell sh r c v k reads :
  trace_of (exec (UpdateCell sh r c v k) reads)
  = EvUpdate sh r c v :: trace_of (exec k reads).
Proof. simpl. by destruct (exec _ _) as [[??]?]. Qed.
Lemma trace_AppendRow sh vs k reads :
  trace_of (exec (AppendRow sh vs k) reads) = EvAppend sh vs :: trace_of (exec k reads).
Proof. simpl. by destruct (exec _ _) as [[??]?]. Qed.
Lemma trace_Sleep d k reads :
  trace_of (exec (Sleep d k) reads) = EvSleep d :: trace_of (exec k reads).
Proof. simpl. by destruct (exec _ _) as [[??]?]. Qed.

Lemma outcome_Done (o : outcome A) reads : outcome_of (exec (Done o) reads) = o.
Proof. done. Qed.
Lemma outcome_GetAllValues sh (k : table -> prog A) reads :
  outcome_of (exec (GetAllValues sh k) reads)
  = outcome_of (exec (k (hd [] reads)) (tl reads)).
Proof. simpl. by destruct (exec _ _) as [[??]?]. Qed.
Lemma outcome_UpdateCell sh r c v k reads :
  outcome_of (exec (UpdateCell sh r c v k) reads) = outcome_of (exec k reads).
Proof. simpl. by destruct (exec _ _) as [[??]?]. Qed.
Lemma outcome_AppendRow sh vs k reads :
  outcome_of (exec (AppendRow sh vs k) reads) = outcome_of (exec k reads).
Proof. simpl. by destruct (exec _ _) as [[??]?]. Qed.
Lemma outcome_Sleep d k reads :
  outcome_of (exec (Sleep d k) reads) = outcome_of (exec k reads).
Proof. simpl. by destruct (exec _ _) as [[??]?]. Qed.
End projections.

Create Rewrite HintDb run.
#[global] Hint Rewrite @trace_Done @trace_GetAllValues @trace_UpdateCell
  @trace_AppendRow @trace_Sleep @outcome_Done @outcome_GetAllValues
  @outcome_UpdateCell @outcome_AppendRow @outcome_Sleep : run.

Lemma truthy_or_empty email : (if Py.truthy email then email else EmptyString) = email.
Proof. by destruct email. Qed.

(** The trace of the creation path: one append, then one or two reads. *)
Lemma create_attendee_writes sheet name email reads :
  writes (trace_of (exec (create_attendee sheet name email) reads))
  = [EvAppend sheet [VStr EmptyString; VStr name; VStr email]].
Proof.
  unfold create_attendee. rewrite truthy_or_empty. autorewrite with run.
  destruct (hd [] reads) as [|headers [|row rows]]; [done..|].
  destruct (Py.truthy _); [done|]. autorewrite with run.
  by destruct (hd [] (tl reads)).
Qed.

(** C1, as amended.  For every snapshot and every call with a non-empty
    email: when the first record, top to bottom, whose email field equals
    the email once the field is trimmed and both are lower-cased is [rec],
    the call makes its one read and nothing else (no append, no update) and
    returns the id field of [rec] read as an integer ([None] when blank);
    the answer is the same for every spelling of the email that differs by
    letter case only. *)
Theorem email_match_returns_first_without_write
    sheet name email snap reads idx rec :
  Py.truthy email = true ->
  read_records snap !! idx = Some rec ->
  email_matches email rec ->
  (forall j r, read_records snap !! j = Some r -> (j < idx)%nat ->
               ~ email_matches email r) ->
  exec (get_or_create_attendee sheet name email) (snap :: reads)
  = ([EvGetAll sheet snap], record_id rec, reads)
  /\ writes (trace_of (exec (get_or_create_attendee sheet name email) (snap :: reads))) = []
  /\ forall email', Py.lower email' = Py.lower email ->
       exec (get_or_create_attendee sheet name email') (snap :: reads)
       = ([EvGetAll sheet snap], record_id rec, reads).
Proof.
  intros He Hl Hm Hfirst.
  assert (list_find (email_matches email) (read_records snap) = Some (idx, rec)) as Hf
    by (apply list_find_Some; auto).
  split_and!.
  - by apply run_email_found with idx.
  - by rewrite (run_email_found _ _ _ _ _ idx rec).
  - intros email' Heq. apply run_email_found with idx.
    + by rewrite <- truthy_lower, Heq, truthy_lower.
    + rewrite <- Hf. apply list_find_ext. intros r. unfold email_matches.
      by rewrite Heq.
Qed.

(** A row stored under ana@x.com is found by ANA@X.COM. *)
Lemma email_match_returns_first_without_write_witness :
  let snap := [["id"; "name"; "email"]; ["7"; "Ana Lee"; "ana@x.com"]] in
  exec (get_or_create_attendee Attendees "Ana Lee" "ANA@X.COM") [snap]
  = ([EvGetAll Attendees snap], Returned (Some 7), []).
Proof.
  intros snap.
  refine (proj1 (email_match_returns_first_without_write Attendees "Ana Lee"
    "ANA@X.COM" snap [] 0 (make_record ["id"; "name"; "email"] ["7"; "Ana Lee"; "ana@x.com"])
    _ _ _ _)).
  - reflexivity.
  - reflexivity.
  - vm_compute. reflexivity.
  - intros j r _ Hj. lia.
Defined.

(** C1 as stated fails when the email handed over carries white space at an
    end: the row's email field is the very same text, yet no row is matched
    and a new row is appended. *)
Lemma email_match_counterexample :
  let email := "ana@x.com " in
  let snap := [["id"; "name"; "email"]; ["1"; "Ana Lee"; email]] in
  let after := snap ++ [["2"; "Ana Lee"; email]] in
  Py.truthy email = true
  /\ cell snap 2 3 = email
  /\ exec (get_or_create_attendee Attendees "Ana Lee" email) [snap; after]
     = ([EvGetAll Attendees snap;
         EvAppend Attendees [VStr EmptyString; VStr "Ana Lee"; VStr email];
         EvSleep 2000; EvGetAll Attendees after],
        Returned (Some 2), []).
Proof. vm_compute. done. Qed.

(** ** Records and cells *)

Lemma fill_record_lookup headers : forall i row rec key,
  fill_record i headers row rec !! key
  = if decide (key ∈ headers) then fill_record i headers row ∅ !! key else rec !! key.
Proof.
  induction headers as [|h hs IH]; intros i row rec key.
  { cbn [fill_record]. case_decide as Hin; [by apply elem_of_nil in Hin|done]. }
  cbn [fill_record]. rewrite IH, (IH _ _ (<[h:=_]> ∅)).
  destruct (decide (key ∈ hs)) as [Hin|Hout].
  - case_decide as H; [done|]. destruct H. by right.
  - destruct (decide (key = h)) as [->|Hne].
    + case_decide as H; [|destruct H; by left].
      by rewrite !lookup_insert_eq.
    + case_decide as H.
      * apply elem_of_cons in H as [?|?]; done.
      * by rewrite lookup_insert_ne.
Qed.

(** Filling a record that was made from the same header leaves nothing of
    the old one. *)
Lemma refill_record headers row row' key :
  get (fill_record 0 headers row' (make_record headers row)) key
  = get (make_record headers row') key.
Proof.
  unfold get, make_record. rewrite fill_record_lookup.
  destruct (decide (key ∈ headers)) as [Hin|Hout]; [done|].
  assert (forall r, fill_record 0 headers r ∅ !! key = (∅ : record) !! key) as Hout'.
  { intros r. rewrite fill_record_lookup. by case_decide. }
  by rewrite !Hout'.
Qed.

Lemma attendee_record row :
  get (make_record attendee_headers row) "id" = nth 0 row EmptyString
  /\ get (make_record attendee_headers row) "name" = nth 1 row EmptyString
  /\ get (make_record attendee_headers row) "email" = nth 2 row EmptyString.
Proof.
  unfold get, make_record, attendee_headers. simpl.
  rewrite lookup_insert_ne, lookup_insert_ne, lookup_insert_eq by done.
  rewrite lookup_insert_ne, lookup_insert_eq by done.
  rewrite lookup_insert_eq.
  destruct row as [|a [|b [|c row]]]; done.
Qed.

Lemma nth_set_nth {A} (d : A) i j x (l : list A) :
  nth j (set_nth d i x l) d = if decide (i = j) then x else nth j l d.
Proof.
  revert j l. induction i as [|i IH]; intros [|j] [|y l]; simpl; try done.
  - by destruct j.
  - rewrite IH. destruct (decide (i = j)); [by rewrite decide_True by lia|].
    rewrite decide_False by lia. by destruct j.
  - rewrite IH. destruct (decide (i = j)); [by rewrite decide_True by lia|].
    by rewrite decide_False by lia.
Qed.

Lemma length_set_nth {A} (d : A) i x (l : list A) :
  length (set_nth d i x l) = max (length l) (S i).
Proof.
  revert l. induction i as [|i IH]; intros [|y l]; simpl; try done.
  - lia.
  - rewrite IH. simpl. lia.
  - rewrite IH. lia.
Qed.

Lemma cell_update_cell t row col text r c :
  (1 <= row)%nat -> (1 <= col)%nat -> (1 <= r)%nat -> (1 <= c)%nat ->
  cell (update_cell t row col text) r c
  = if decide (r = row /\ c = col) then text else cell t r c.
Proof.
  intros ????. unfold cell, update_cell. rewrite nth_set_nth.
  destruct (decide (row - 1 = r - 1)%nat) as [Hr|Hr].
  - rewrite nth_set_nth. destruct (decide (col - 1 = c - 1)%nat).
    + by rewrite decide_True by lia.
    + rewrite decide_False by lia. by rewrite Hr.
  - by rewrite decide_False by lia.
Qed.

Lemma length_update_cell t row col text :
  (1 <= row <= length t)%nat -> length (update_cell t row col text) = length t.
Proof. intros ?. unfold update_cell. rewrite length_set_nth. lia. Qed.

Lemma length_read_records t : length (read_records t) = (length t - 1)%nat.
Proof.
  destruct t as [|h [|r rs]]; [done..|].
  unfold read_records. rewrite length_fmap. simpl. lia.
Qed.

(** The record at position [idx] is made from row [idx + 2] of the sheet. *)
Lemma read_records_lookup t idx rec :
  read_records t !! idx = Some rec ->
  (idx + 2 <= length t)%nat
  /\ rec = make_record (hd [] t) (nth (idx + 1) t []).
Proof.
  intros H. split.
  - apply lookup_lt_Some in H. rewrite length_read_records in H. lia.
  - destruct t as [|h [|r rs]]; [done..|].
    unfold read_records in H. rewrite list_lookup_fmap in H.
    replace (idx + 1)%nat with (S idx) by lia.
    change (nth (S idx) (h :: r :: rs) []) with (nth idx (r :: rs) []).
    destruct ((r :: rs) !! idx) as [row|] eqn:Hrow; [|done].
    apply nth_lookup_Some with (d := []) in Hrow. rewrite Hrow.
    by simplify_eq/=.
Qed.

(** Reads and sleeps leave the sheet alone. *)
Lemma sheet_after_writes sheet assigned t tr :
  sheet_after sheet assigned t tr = sheet_after sheet assigned t (writes tr).
Proof.
  unfold sheet_after, writes. revert t.
  induction tr as [|e tr IH]; intros t; [done|].
  destruct e; simpl; auto.
Qed.

(** ** What one call writes *)

Lemma found_lookup name email records idx rec :
  found name email records idx rec -> records !! idx = Some rec.
Proof. intros [? H|? ? H|? H]; by apply list_find_Some in H as [? _]. Qed.

Lemma found_or_not name email records :
  (exists idx rec, found name email records idx rec) \/ not_found name email records.
Proof.
  unfold not_found. destruct (Py.truthy email) eqn:He.
  - destruct (list_find (email_matches email) records) as [[idx rec]|] eqn:Hf.
    { left. exists idx, rec. by apply found_by_email. }
    destruct (list_find (backfill_matches name) records) as [[idx rec]|] eqn:Hb.
    { left. exists idx, rec. by apply found_for_backfill. }
    by right.
  - destruct (list_find (name_matches name) records) as [[idx rec]|] eqn:Hf.
    { left. exists idx, rec. by apply found_by_name. }
    by right.
Qed.

(** The run of a call that stops at a row: the read, the backfill if any,
    and the id of the row as the outcome. *)
Lemma run_found sheet name email snap reads idx rec :
  found name email (read_records snap) idx rec ->
  exists extra,
    exec (get_or_create_attendee sheet name email) (snap :: reads)
    = (EvGetAll sheet snap :: extra, record_id rec, reads)
    /\ (extra = [] \/
        (extra = [EvUpdate sheet (idx + 2) 3 (VStr email); EvSleep 500]
         /\ list_find (backfill_matches name) (read_records snap) = Some (idx, rec)
         /\ Py.truthy email = true)).
Proof.
  intros [He Hf|He Hf Hb|He Hf].
  - exists []. split; [by eapply run_email_found|by left].
  - eexists. split; [by eapply run_backfill|]. right. done.
  - exists []. split; [by eapply run_name_found|by left].
Qed.

Lemma writes_of_call sheet name email snap reads :
  let tr := trace_of (exec (get_or_create_attendee sheet name email) (snap :: reads)) in
  writes tr = []
  \/ (exists idx rec,
        list_find (backfill_matches name) (read_records snap) = Some (idx, rec)
        /\ Py.truthy email = true
        /\ writes tr = [EvUpdate sheet (idx + 2) 3 (VStr email)])
  \/ (not_found name email (read_records snap)
      /\ writes tr = [EvAppend sheet [VStr EmptyString; VStr name; VStr email]]).
Proof.
  intros tr. subst tr.
  destruct (found_or_not name email (read_records snap)) as [(idx & rec & Hf)|Hn].
  - destruct (run_found sheet name email snap reads idx rec Hf)
      as (extra & -> & [->|(-> & Hb & He)]).
    + by left.
    + right; left. by exists idx, rec.
  - right; right. split; [done|].
    rewrite run_create by done.
    pose proof (create_attendee_writes sheet name email reads) as Hw.
    destruct (exec (create_attendee sheet name email) reads) as [[tr o] rest].
    done.
Qed.


(** ** The loop of [main] *)

Lemma process_participant_skips email_mapping session_id name t reads tr o rest :
  exec (get_or_create_attendee Attendees name
          (default EmptyString (email_mapping !! name))) reads = (tr, o, rest) ->
  o = Returned None \/ o = Returned (Some 0) \/ (exists e, o = Raised e) ->
  exec (process_participant email_mapping session_id name t) reads
  = (tr, Returned (skipped t), rest).
Proof.
  intros Hrun Ho. unfold process_participant.
  rewrite exec_try_except, exec_bind, Hrun.
  destruct Ho as [->|[->|[e ->]]]; simpl; by rewrite app_nil_r.
Qed.

Lemma process_participants_cons email_mapping session_id name names t reads :
  exec (process_participants email_mapping session_id (name :: names) t) reads
  = match exec (process_participant email_mapping session_id name t) reads with
    | (tr, Returned t', rest) =>
        let '(tr', o, rest') :=
          exec (process_participants email_mapping session_id names t') rest in
        (tr ++ tr', o, rest')
    | (tr, Raised e, rest) => (tr, Raised e, rest)
    end.
Proof. cbn [process_participants]. apply exec_bind. Qed.



(** ** The frame of one call *)

Lemma nth_0_hd (t : table) : nth 0 t [] = hd [] t.
Proof. by destruct t. Qed.

Lemma cell_app t extra r c :
  (1 <= r <= length t)%nat -> cell (t ++ extra) r c = cell t r c.
Proof. intros ?. unfold cell. by rewrite app_nth1 by lia. Qed.

Lemma sheet_after_single sheet assigned t tr w :
  writes tr = [w] -> sheet_after sheet assigned t tr = apply_event sheet assigned t w.
Proof. intros H. by rewrite sheet_after_writes, H. Qed.

Lemma sheet_after_none sheet assigned t tr :
  writes tr = [] -> sheet_after sheet assigned t tr = t.
Proof. intros H. by rewrite sheet_after_writes, H. Qed.

(** C10.  For every call, whatever the sheet answers: either nothing is
    written; or one cell is, the cell in column 3 of the one matched row,
    every other cell of the sheet (ids, names, all of the other rows) and the
    number of rows staying as they were; or one row is appended, which is
    the id the sheet assigns followed by the name and the email, the rows
    already there staying as they were. *)
Theorem call_frame sheet name email snap reads assigned :
  let tr := trace_of (exec (get_or_create_attendee sheet name email) (snap :: reads)) in
  let after := sheet_after sheet assigned snap tr in
  (writes tr = [] /\ after = snap)
  \/ (exists idx rec,
        list_find (backfill_matches name) (read_records snap) = Some (idx, rec)
        /\ writes tr = [EvUpdate sheet (idx + 2) 3 (VStr email)]
        /\ after = update_cell snap (idx + 2) 3 email
        /\ length after = length snap
        /\ cell after (idx + 2) 3 = email
        /\ forall r c, (1 <= r)%nat -> (1 <= c)%nat -> r <> (idx + 2)%nat \/ c <> 3%nat ->
                       cell after r c = cell snap r c)
  \/ (writes tr = [EvAppend sheet [VStr EmptyString; VStr name; VStr email]]
      /\ after = snap ++ [[assigned; name; email]]).
Proof.
  intros tr after. subst after.
  destruct (writes_of_call sheet name email snap reads)
    as [Hw|[(idx & rec & Hb & He & Hw)|[Hn Hw]]]; fold tr in Hw.
  - left. split; [done|]. by apply sheet_after_none.
  - right; left. exists idx, rec.
    rewrite (sheet_after_single _ _ _ _ _ Hw). simpl.
    rewrite decide_True by done.
    assert (idx + 2 <= length snap)%nat.
    { apply list_find_Some in Hb as [Hl _]. by apply read_records_lookup in Hl as [? _]. }
    split_and!; [done..| | |].
    + apply length_update_cell. lia.
    + rewrite cell_update_cell by lia. by rewrite decide_True.
    + intros r c ? ? Hne. rewrite cell_update_cell by lia.
      rewrite decide_False; [done|]. intros [-> ->]. by destruct Hne.
  - right; right. split; [done|].
    rewrite (sheet_after_single _ _ _ _ _ Hw). simpl.
    by rewrite decide_True.
Qed.

(** ** Emails once present stay *)

Lemma cell_of_record t idx rec :
  hd [] t = attendee_headers ->
  read_records t !! idx = Some rec ->
  get rec "id" = cell t (idx + 2) 1
  /\ get rec "name" = cell t (idx + 2) 2
  /\ get rec "email" = cell t (idx + 2) 3.
Proof.
  intros Hh Hl. apply read_records_lookup in Hl as [_ ->]. rewrite Hh.
  unfold cell. replace (idx + 2 - 1)%nat with (idx + 1)%nat by lia.
  apply attendee_record.
Qed.

Lemma hd_update_cell t row col text :
  (2 <= row)%nat -> t <> [] -> hd [] (update_cell t row col text) = hd [] t.
Proof.
  intros Hr Ht. unfold update_cell.
  destruct (row - 1)%nat as [|k] eqn:Hk; [lia|]. by destruct t.
Qed.

(** The sheet after one call: as it was, or with the email in column 3 of
    the row matched for the backfill, or with one more row. *)
Lemma sheet_after_cases sheet name email snap reads assigned :
  let tr := trace_of (exec (get_or_create_attendee sheet name email) (snap :: reads)) in
  let after := sheet_after sheet assigned snap tr in
  after = snap
  \/ (exists idx rec,
        list_find (backfill_matches name) (read_records snap) = Some (idx, rec)
        /\ after = update_cell snap (idx + 2) 3 email)
  \/ after = snap ++ [[assigned; name; email]].
Proof.
  intros tr after. subst after.
  destruct (writes_of_call sheet name email snap reads)
    as [Hw|[(idx & rec & Hb & He & Hw)|[Hn Hw]]]; fold tr in Hw.
  - left. by apply sheet_after_none.
  - right; left. exists idx, rec. split; [done|].
    rewrite (sheet_after_single _ _ _ _ _ Hw). simpl.
    by rewrite decide_True.
  - right; right. rewrite (sheet_after_single _ _ _ _ _ Hw). simpl.
    by rewrite decide_True.
Qed.

(** One call leaves the header, the number of rows it found and every row
    that has an email as they were. *)
Lemma call_keeps_rows_with_email t c r :
  hd [] t = attendee_headers ->
  (2 <= r <= length t)%nat ->
  ~ blank (cell t r 3) ->
  hd [] (sheet_after_call t c) = attendee_headers
  /\ (length t <= length (sheet_after_call t c))%nat
  /\ forall col, (1 <= col)%nat -> cell (sheet_after_call t c) r col = cell t r col.
Proof.
  intros Hh Hr Hemail. unfold sheet_after_call.
  assert (t <> []) as Hne0 by (intros ->; done).
  destruct (sheet_after_cases Attendees (call_name c) (call_email c) t (later_reads c)
              (assigned c))
    as [-> | [(idx & rec & Hb & ->) | ->]].
  - done.
  - apply list_find_Some in Hb as (Hl & [_ Hblank] & _).
    destruct (cell_of_record t idx rec Hh Hl) as (_ & _ & Hem).
    assert (idx + 2 <= length t)%nat
      by (by apply read_records_lookup in Hl as [? _]).
    assert (r <> idx + 2)%nat as Hne.
    { intros ->. apply Hemail. unfold blank. by rewrite <- Hem. }
    split_and!.
    + rewrite hd_update_cell; [done|lia|done].
    + rewrite length_update_cell by lia. lia.
    + intros col ?. rewrite cell_update_cell by lia.
      rewrite decide_False; [done|]. intros [? _]. done.
  - split_and!.
    + by destruct t.
    + rewrite length_app. lia.
    + intros col _. apply cell_app. lia.
Qed.

(** C2 as stated fails, in two ways.  An email field that holds a blank is
    not empty, and it is overwritten: the test of line 222 is made on the
    trimmed field.  And the test is made on the rows as the call has read
    them: when the sheet holds an email that the snapshot does not show, the
    update lands on that email. *)
Lemma email_overwrite_counterexample :
  let snap := [attendee_headers; ["1"; "Ana Lee"; " "]] in
  let stale := [attendee_headers; ["1"; "Ana Lee"; EmptyString]] in
  let live := [attendee_headers; ["1"; "Ana Lee"; "old@x.com"]] in
  (cell snap 2 3 <> EmptyString
   /\ trace_of (exec (get_or_create_attendee Attendees "Ana Lee" "ana@x.com") [snap])
      = [EvGetAll Attendees snap; EvUpdate Attendees 2 3 (VStr "ana@x.com");
         EvSleep 500]
   /\ cell (sheet_after_calls snap [Call "Ana Lee" "ana@x.com" [] EmptyString]) 2 3
      = "ana@x.com")
  /\ (cell live 2 3 = "old@x.com"
      /\ cell (sheet_after Attendees EmptyString live
                 (trace_of (exec (get_or_create_attendee Attendees "Ana Lee" "new@x.com")
                              [stale]))) 2 3
         = "new@x.com").
Proof. intros snap stale live. split_and!; by vm_compute. Qed.

(** C2, as amended.  Whatever the sheet answers, a call writes into an
    existing row only in the backfill: the write is the email, into column 3
    of the row of a record which, in the rows the call has read, has a blank
    email field (empty once trimmed: nothing, or white space only) and a
    name equal to the given name once both are trimmed and lower-cased.
    With the columns id, name, email, and each call reading the sheet as the
    calls before it left it, a row whose email field is not blank is
    therefore left as it is by every call, and so by every sequence of
    calls. *)
Theorem email_written_only_when_empty :
  (forall sheet name email snap reads sh r c v,
     EvUpdate sh r c v
       ∈ trace_of (exec (get_or_create_attendee sheet name email) (snap :: reads)) ->
     exists idx rec,
       read_records snap !! idx = Some rec
       /\ sh = sheet /\ r = (idx + 2)%nat /\ c = 3%nat /\ v = VStr email
       /\ blank (get rec "email")
       /\ name_matches name rec)
  /\ (forall t calls r,
        hd [] t = attendee_headers ->
        (2 <= r <= length t)%nat ->
        ~ blank (cell t r 3) ->
        forall col, (1 <= col)%nat ->
          cell (sheet_after_calls t calls) r col = cell t r col).
Proof.
  split.
  - intros sheet name email snap reads sh r c v Hin.
    assert (EvUpdate sh r c v
              ∈ writes (trace_of (exec (get_or_create_attendee sheet name email)
                                    (snap :: reads)))) as Hw.
    { unfold writes. apply list_elem_of_In, filter_In. split; [by apply list_elem_of_In|done]. }
    destruct (writes_of_call sheet name email snap reads)
      as [H|[(idx & rec & Hb & _ & H)|[_ H]]]; rewrite H in Hw.
    + by apply elem_of_nil in Hw.
    + apply list_elem_of_singleton in Hw. simplify_eq.
      apply list_find_Some in Hb as (Hl & [Hname Hblank] & _).
      by exists idx, rec.
    + by apply list_elem_of_singleton in Hw.
  - intros t calls. revert t. unfold sheet_after_calls.
    induction calls as [|c calls IH]; intros t r Hh Hr Hemail col Hcol; [done|].
    simpl.
    destruct (call_keeps_rows_with_email t c r Hh Hr Hemail) as (Hh' & Hlen & Hcells).
    rewrite IH; [by apply Hcells|done|lia| |done].
    by rewrite Hcells by lia.
Qed.

(** A row that holds an email, whatever is asked for afterwards. *)
Lemma email_written_only_when_empty_witness :
  let t := [attendee_headers; ["1"; "Ana Lee"; "ana@x.com"]] in
  cell (sheet_after_calls t
          [Call "Ana Lee" "other@x.com" [t ++ [["2"; "Ana Lee"; "other@x.com"]]] "2";
           Call "ana lee" EmptyString [] "3"]) 2 3
  = "ana@x.com".
Proof.
  intros t.
  refine (proj2 email_written_only_when_empty t _ 2%nat _ _ _ 3%nat _).
  - reflexivity.
  - simpl. lia.
  - intros H. vm_compute in H. discriminate H.
  - lia.
Defined.

(** ** Calling twice *)

Lemma read_records_cons headers rows :
  read_records (headers :: rows) = make_record headers <$> rows.
Proof. by destruct rows. Qed.

Lemma set_nth_insert {A} (d : A) i x (l : list A) :
  (i < length l)%nat -> set_nth d i x l = <[i:=x]> l.
Proof.
  revert l. induction i as [|i IH]; intros [|y l] Hi; simpl in *; try lia; [done|].
  f_equal. apply IH. lia.
Qed.

(** The records of the sheet after a backfill of row [idx + 2]. *)
Lemma read_records_update_cell rows idx text :
  (idx < length rows)%nat ->
  read_records (update_cell (attendee_headers :: rows) (idx + 2) 3 text)
  = <[idx := make_record attendee_headers
               (set_nth EmptyString 2 text (nth idx rows []))]>
      (make_record attendee_headers <$> rows).
Proof.
  intros Hi. unfold update_cell.
  replace (idx + 2 - 1)%nat with (S idx) by lia.
  rewrite set_nth_insert by (simpl; lia).
  cbn [nth]. change (<[S idx:=?x]> (?h :: ?l)) with (h :: <[idx:=x]> l).
  rewrite read_records_cons. by rewrite list_fmap_insert.
Qed.

(** C3, as amended.  The sheet has the columns id, name, email and the
    email handed over carries no white space at its ends (it is empty, or
    as [extract_emails] yields it).  If a first call returns an id, and the
    sheet then holds what that call wrote (a row it appended having received
    that id), a second call with the same name and email returns the same id
    and writes nothing: no row is appended.  Duplicate emails in the sheet
    do not matter. *)
Theorem second_call_same_id name email rows reads1 reads2 assigned i :
  let t := attendee_headers :: rows in
  let run1 := exec (get_or_create_attendee Attendees name email) (t :: reads1) in
  let t2 := sheet_after Attendees assigned t (trace_of run1) in
  let run2 := exec (get_or_create_attendee Attendees name email) (t2 :: reads2) in
  Py.strip email = email ->
  outcome_of run1 = Returned (Some i) ->
  (forall values, EvAppend Attendees values ∈ trace_of run1 ->
                  id_result (Py.strip assigned) = Returned (Some i)) ->
  outcome_of run2 = Returned (Some i) /\ writes (trace_of run2) = [].
Proof.
  intros t run1 t2 run2 Hstrip Hout Hassigned.
  destruct (found_or_not name email (read_records t))
    as [(idx & rec & [He Hf|He Hf Hb|He Hf])|Hn].
  - (* found by email: nothing written, the second call reads the same sheet *)
    assert (run1 = ([EvGetAll Attendees t], record_id rec, reads1)) as Hrun
      by (by eapply run_email_found).
    assert (t2 = t) as Ht2 by (unfold t2; by rewrite Hrun).
    unfold run2. rewrite Ht2, (run_email_found _ _ _ _ _ idx rec) by done.
    rewrite Hrun in Hout. done.
  - (* backfill: the second call finds the row by the email just written *)
    assert (run1 = ([EvGetAll Attendees t; EvUpdate Attendees (idx + 2) 3 (VStr email);
                     EvSleep 500], record_id rec, reads1)) as Hrun
      by (by eapply run_backfill).
    assert (t2 = update_cell t (idx + 2) 3 email) as Ht2
      by (unfold t2; by rewrite Hrun).
    rewrite Hrun in Hout. unfold outcome_of in Hout. cbn [fst snd] in Hout.
    apply list_find_None in Hf.
    apply list_find_Some in Hb as (Hl & _ & _).
    unfold t in Hl. rewrite read_records_cons, list_lookup_fmap in Hl.
    destruct (rows !! idx) as [row|] eqn:Hrow; [|done].
    cbn in Hl. injection Hl as <-.
    assert (idx < length rows)%nat as Hidx by (by eapply lookup_lt_Some).
    pose (rec2 := make_record attendee_headers
                    (set_nth EmptyString 2 email (nth idx rows []))).
    assert (list_find (email_matches email) (read_records t2) = Some (idx, rec2)) as Hf2.
    { rewrite Ht2. unfold t. rewrite read_records_update_cell by done.
      apply list_find_insert_Some. right; left. split_and!; [done..| | |].
      - by rewrite length_fmap.
      - unfold email_matches, rec2.
        destruct (attendee_record (set_nth EmptyString 2 email (nth idx rows [])))
          as (_ & _ & ->).
        rewrite nth_set_nth. simpl. by rewrite Hstrip.
      - intros j r Hj _. unfold t in Hf. rewrite read_records_cons in Hf.
        by eapply Forall_lookup_1 in Hf. }
    assert (record_id rec2 = record_id (make_record attendee_headers row)) as Hid.
    { unfold record_id, rec2.
      destruct (attendee_record (set_nth EmptyString 2 email (nth idx rows [])))
        as (-> & _ & _).
      destruct (attendee_record row) as (-> & _ & _).
      rewrite nth_set_nth. simpl.
      by rewrite (nth_lookup_Some _ _ [] _ Hrow). }
    unfold run2. rewrite (run_email_found _ _ _ _ _ idx rec2) by done.
    split; [|done]. unfold outcome_of. cbn [fst snd]. by rewrite Hid.
  - (* found by name, no email: nothing written *)
    assert (run1 = ([EvGetAll Attendees t], record_id rec, reads1)) as Hrun
      by (by eapply run_name_found).
    assert (t2 = t) as Ht2 by (unfold t2; by rewrite Hrun).
    unfold run2. rewrite Ht2, (run_name_found _ _ _ _ _ idx rec) by done.
    rewrite Hrun in Hout. done.
  - (* a row was appended: the second call finds it *)
    pose proof (create_attendee_writes Attendees name email reads1) as Hw.
    assert (writes (trace_of run1)
            = [EvAppend Attendees [VStr EmptyString; VStr name; VStr email]]) as Hw1.
    { unfold run1. rewrite run_create by done.
      by destruct (exec (create_attendee Attendees name email) reads1) as [[tr o] rest]. }
    assert (t2 = t ++ [[assigned; name; email]]) as Ht2.
    { unfold t2. by rewrite (sheet_after_single _ _ _ _ _ Hw1). }
    assert (id_result (Py.strip assigned) = Returned (Some i)) as Hid.
    { apply (Hassigned [VStr EmptyString; VStr name; VStr email]).
      assert (EvAppend Attendees [VStr EmptyString; VStr name; VStr email]
                ∈ writes (trace_of run1)) as Hin by (rewrite Hw1; by left).
      unfold writes in Hin. apply list_elem_of_In, filter_In in Hin as [Hin _].
      by apply list_elem_of_In. }
    pose (rec2 := make_record attendee_headers [assigned; name; email]).
    assert (read_records t2 = (make_record attendee_headers <$> rows) ++ [rec2]) as Hrec.
    { rewrite Ht2. unfold t. change ((?h :: ?l) ++ ?k) with (h :: (l ++ k)).
      by rewrite read_records_cons, fmap_app. }
    assert (record_id rec2 = Returned (Some i)) as Hid2.
    { unfold record_id, rec2.
      by destruct (attendee_record [assigned; name; email]) as (-> & _ & _). }
    unfold not_found in Hn. unfold t in Hn. rewrite read_records_cons in Hn.
    unfold run2. destruct (Py.truthy email) eqn:He.
    + destruct Hn as [Hn _].
      rewrite (run_email_found _ _ _ _ _ (0 + length (make_record attendee_headers <$> rows))%nat
                 rec2); [done|done|].
      assert (email_matches email rec2) as Hm.
      { unfold email_matches, rec2.
        destruct (attendee_record [assigned; name; email]) as (_ & _ & ->).
        simpl. by rewrite Hstrip. }
      rewrite Hrec, list_find_app_r by done. cbn [list_find].
      rewrite decide_True by exact Hm. reflexivity.
    + rewrite (run_name_found _ _ _ _ _ (0 + length (make_record attendee_headers <$> rows))%nat
                 rec2); [done|done|].
      assert (name_matches name rec2) as Hm.
      { unfold name_matches, rec2.
        destruct (attendee_record [assigned; name; email]) as (_ & -> & _).
        simpl. apply lower_strip. }
      rewrite Hrec, list_find_app_r by done. cbn [list_find].
      rewrite decide_True by exact Hm. reflexivity.
Qed.

Lemma second_call_same_id_witness :
  let t := [attendee_headers] in
  let after := t ++ [["1"; "Ana Lee"; "ana@x.com"]] in
  let run2 := exec (get_or_create_attendee Attendees "Ana Lee" "ana@x.com") [after] in
  outcome_of run2 = Returned (Some 1) /\ writes (trace_of run2) = [].
Proof.
  intros t after run2.
  refine (second_call_same_id "Ana Lee" "ana@x.com" [] [after] [] "1" 1 _ _ _).
  - reflexivity.
  - reflexivity.
  - intros values _. reflexivity.
Defined.

(** C3 as stated fails for an email that begins with a blank: the first call
    appends a row and returns the id 1 the sheet gives it; the second call,
    reading that row with its id, appends another row and returns 2. *)
Lemma second_call_counterexample :
  let email := " ana@x.com" in
  let t := [attendee_headers] in
  let t1 := t ++ [["1"; "Ana Lee"; email]] in
  let run1 := exec (get_or_create_attendee Attendees "Ana Lee" email) [t; t1] in
  let t2 := sheet_after Attendees "1" t (trace_of run1) in
  let run2 := exec (get_or_create_attendee Attendees "Ana Lee" email)
                [t2; t2 ++ [["2"; "Ana Lee"; email]]] in
  outcome_of run1 = Returned (Some 1)
  /\ t2 = t1
  /\ outcome_of run2 = Returned (Some 2)
  /\ writes (trace_of run2)
     = [EvAppend Attendees [VStr EmptyString; VStr "Ana Lee"; VStr email]].
Proof. vm_compute. done. Qed.

(** ** An id that never comes *)

Lemma outcome_run_create sheet name email snap reads :
  not_found name email (read_records snap) ->
  outcome_of (exec (get_or_create_attendee sheet name email) (snap :: reads))
  = outcome_of (exec (create_attendee sheet name email) reads).
Proof.
  intros Hn. rewrite run_create by done.
  by destruct (exec (create_attendee sheet name email) reads) as [[tr o] rest].
Qed.

Lemma id_result_blank text :
  blank text -> id_result (Py.strip text) = Returned None.
Proof. unfold blank, id_result. by intros ->. Qed.

Lemma create_attendee_pending sheet name email r1 r2 reads :
  id_pending (hd [] r1) r1 ->
  r2 <> [] ->
  id_pending (hd [] r1) r2 ->
  outcome_of (exec (create_attendee sheet name email) (r1 :: r2 :: reads))
  = Returned None.
Proof.
  intros H1 Hne H2. unfold create_attendee. autorewrite with run. cbn [hd tl].
  destruct r1 as [|headers [|row rows]]; [done..|].
  unfold id_pending, blank in H1, H2. cbn [hd] in H1, H2.
  rewrite H1. autorewrite with run. cbn [hd tl].
  destruct r2 as [|row2 rows2]; [done|]. autorewrite with run.
  rewrite refill_record. by apply id_result_blank.
Qed.

Lemma create_session_pending sheet url title date r1 r2 reads :
  session_id_pending r1 ->
  r2 <> [] ->
  session_id_pending r2 ->
  outcome_of (exec (create_session sheet url title date) (r1 :: r2 :: reads))
  = Returned None.
Proof.
  intros H1 Hne H2. unfold create_session. autorewrite with run. cbn [hd tl].
  destruct r1 as [|row1 [|row rows]]; [done..|].
  unfold session_id_pending in H1, H2. rewrite H1.
  autorewrite with run. cbn [hd tl].
  destruct r2 as [|row2 rows2]; [done|]. autorewrite with run.
  unfold no_id in H2. unfold session_result.
  destruct (first_cell_id (List.last (row2 :: rows2) [])) as [s|]; [|done].
  unfold id_result. destruct (Py.truthy s); [discriminate H2|done].
Qed.

Lemma only_on_cons sheet e tr :
  (forall sh, event_sheet e = Some sh -> sh = sheet) -> only_on sheet tr ->
  only_on sheet (e :: tr).
Proof. intros. by constructor. Qed.

Ltac only_on_step :=
  autorewrite with run; cbn [hd tl];
  repeat (apply only_on_cons; [by intros ? [= <-] || by intros ? [=]|]);
  try apply Forall_nil_2.

Lemma create_attendee_only_on sheet name email reads :
  only_on sheet (trace_of (exec (create_attendee sheet name email) reads)).
Proof.
  unfold create_attendee. only_on_step.
  destruct (hd [] reads) as [|headers [|row rows]]; only_on_step.
  destruct (Py.truthy _); only_on_step.
  destruct (hd [] (tl reads)); only_on_step.
Qed.

Lemma call_only_on sheet name email snap reads :
  only_on sheet (trace_of (exec (get_or_create_attendee sheet name email) (snap :: reads))).
Proof.
  destruct (found_or_not name email (read_records snap)) as [(idx & rec & Hf)|Hn].
  - destruct (run_found sheet name email snap reads idx rec Hf)
      as (extra & -> & [->|(-> & _)]); unfold trace_of; cbn [fst];
      repeat (apply only_on_cons; [by intros ? [= <-] || by intros ? [=]|]);
      apply Forall_nil_2.
  - rewrite run_create by done.
    pose proof (create_attendee_only_on sheet name email reads) as H.
    destruct (exec (create_attendee sheet name email) reads) as [[tr o] rest].
    apply only_on_cons; [by intros ? [= <-]|done].
Qed.

Lemma create_session_only_on sheet url title date reads :
  only_on sheet (trace_of (exec (create_session sheet url title date) reads)).
Proof.
  unfold create_session. only_on_step.
  destruct (hd [] reads) as [|row1 [|row rows]]; only_on_step.
  destruct (no_id _); only_on_step.
  destruct (hd [] (tl reads)); only_on_step.
Qed.

Lemma main_session_failure url title date participants email_mapping reads :
  outcome_of (exec (create_session Sessions url title date) reads) = Returned None ->
  exec (main_store_phase url title date participants email_mapping) reads
  = (trace_of (exec (create_session Sessions url title date) reads),
     Returned SessionFailed,
     rest_of (exec (create_session Sessions url title date) reads)).
Proof.
  intros Ho. unfold main_store_phase.
  rewrite exec_bind, exec_try_except, exec_bind.
  destruct (exec (create_session Sessions url title date) reads) as [[tr o] rest].
  unfold outcome_of in Ho. cbn [fst snd] in Ho. subst o.
  cbn. by rewrite !app_nil_r.
Qed.

(** C4 as stated fails.  The functions read the id from the last row of the
    sheet as it is read again, not from the row they have appended: when the
    appended row never gets its id and another row, with an id, stands after
    it, that id is returned.  Below, Bo Li's row has no id and attendance is
    logged under Cy Ng's 3; the session row has no id and the run goes on
    and logs under the session 9 of the row after it. *)
Lemma appended_row_not_last_counterexample :
  let attendees := [attendee_headers; ["1"; "Ana Lee"; "ana@x.com"]] in
  let shown :=
    attendees ++ [[EmptyString; "Bo Li"; EmptyString]; ["3"; "Cy Ng"; "cy@x.com"]] in
  let sessions :=
    [["id"; "url"; "title"; "date"]; [EmptyString; "u"; "t"; "2025-03-03"];
     ["9"; "v"; "w"; "2025-03-04"]] in
  (cell shown 3 1 = EmptyString
   /\ exec (process_participants (∅ : gmap string string) 7 ["Bo Li"] (Tally 0 0 0))
           [attendees; shown]
      = ([EvGetAll Attendees attendees;
          EvAppend Attendees [VStr EmptyString; VStr "Bo Li"; VStr EmptyString];
          EvSleep 2000; EvGetAll Attendees shown;
          EvAppend AttendanceLog [VInt 3; VInt 7]],
         Returned (Tally 0 1 0), []))
  /\ (cell sessions 2 1 = EmptyString
      /\ exec (main_store_phase "u" "t" "2025-03-03" ["Ana Lee"]
                 {["Ana Lee" := "ana@x.com"]}) [sessions; attendees]
         = ([EvAppend Sessions [VStr EmptyString; VStr "u"; VStr "t"; VStr "2025-03-03"];
             EvSleep 2000; EvGetAll Sessions sessions;
             EvGetAll Attendees attendees;
             EvAppend AttendanceLog [VInt 1; VInt 9]],
            Returned (Completed (Tally 1 0 0)), [])).
Proof. intros attendees shown sessions. split_and!; by vm_compute. Qed.

(** C4, as amended.  When the last row of the sheet, as it is read again
    after the append, has nothing in its id column at both re-reads:
    [get_or_create_attendee] returns [None], not an id and not 0, [main]
    counts the participant as skipped, logs nothing for it (every call made
    is on the attendee sheet) and goes on with the other participants;
    [create_session] returns [None] and [main] ends there, having made no
    call but on the session sheet.  This is the case when the sheet shows the
    rows it had followed by the appended row, whose id cell is blank: the
    appended row is then the last one. *)
Theorem missing_id_is_a_failure :
  (forall name email snap r1 r2 reads email_mapping session_id names t,
     not_found name email (read_records snap) ->
     id_pending (hd [] r1) r1 -> r2 <> [] -> id_pending (hd [] r1) r2 ->
     default EmptyString (email_mapping !! name) = email ->
     let call := exec (get_or_create_attendee Attendees name email)
                   (snap :: r1 :: r2 :: reads) in
     outcome_of call = Returned None
     /\ only_on Attendees (trace_of call)
     /\ exec (process_participants email_mapping session_id (name :: names) t)
             (snap :: r1 :: r2 :: reads)
        = (let '(tr, o, rest) :=
             exec (process_participants email_mapping session_id names (skipped t))
                  (rest_of call) in
           (trace_of call ++ tr, o, rest)))
  /\ (forall url title date r1 r2 reads participants email_mapping,
        session_id_pending r1 -> r2 <> [] -> session_id_pending r2 ->
        let creation := exec (create_session Sessions url title date)
                          (r1 :: r2 :: reads) in
        outcome_of creation = Returned None
        /\ only_on Sessions (trace_of creation)
        /\ exec (main_store_phase url title date participants email_mapping)
                (r1 :: r2 :: reads)
           = (trace_of creation, Returned SessionFailed, rest_of creation))
  /\ (forall name email snap assigned reads,
        not_found name email (read_records snap) ->
        hd [] snap = attendee_headers ->
        blank assigned ->
        let shown := append_row snap [EmptyString; name; email] assigned in
        id_pending (hd [] shown) shown
        /\ outcome_of (exec (get_or_create_attendee Attendees name email)
                         (snap :: shown :: shown :: reads))
           = Returned None)
  /\ (forall url title date sessions assigned reads,
        blank assigned ->
        let shown := append_row sessions [EmptyString; url; title; date] assigned in
        session_id_pending shown
        /\ outcome_of (exec (create_session Sessions url title date)
                         (shown :: shown :: reads))
           = Returned None).
Proof.
  split_and!.
  - intros name email snap r1 r2 reads email_mapping session_id names t
      Hn H1 Hne H2 Hem call.
    assert (outcome_of call = Returned None) as Ho.
    { unfold call. rewrite outcome_run_create by done.
      by apply create_attendee_pending. }
    split_and!; [done|apply call_only_on|].
    rewrite process_participants_cons.
    rewrite (process_participant_skips _ _ _ _ _ (trace_of call) (outcome_of call)
               (rest_of call)).
    + done.
    + rewrite Hem. fold call. by destruct call as [[??]?].
    + left. exact Ho.
  - intros url title date r1 r2 reads participants email_mapping H1 Hne H2 creation.
    assert (outcome_of creation = Returned None) as Ho
      by (by apply create_session_pending).
    split_and!; [done|apply create_session_only_on|].
    by apply main_session_failure.
  - intros name email snap assigned reads Hn Hh Hblank shown.
    assert (id_pending (hd [] shown) shown) as Hpending.
    { unfold id_pending, shown, append_row. rewrite last_last.
      assert (hd [] (snap ++ [[assigned; name; email]]) = attendee_headers) as ->
        by (destruct snap; [done|exact Hh]).
      by destruct (attendee_record [assigned; name; email]) as [-> _]. }
    split; [exact Hpending|].
    rewrite outcome_run_create by done.
    apply create_attendee_pending; [done| |done].
    unfold shown, append_row. by destruct snap.
  - intros url title date sessions assigned reads Hblank shown.
    assert (session_id_pending shown) as Hpending.
    { unfold session_id_pending, shown, append_row. rewrite last_last.
      cbn [first_cell_id]. destruct (Py.truthy assigned); [|done].
      cbn [no_id]. unfold blank in Hblank. by rewrite Hblank. }
    split; [exact Hpending|].
    apply create_session_pending; [done| |done].
    unfold shown, append_row. by destruct sessions.
Qed.

(** The sheet shows the appended rows without an id at both re-reads. *)
Lemma missing_id_is_a_failure_witness :
  let attendees := [attendee_headers] in
  let pending := attendees ++ [[EmptyString; "Ana Lee"; "ana@x.com"]] in
  let sessions := [["id"; "url"; "title"; "date"]; [EmptyString; "u"; "t"; "2025-03-03"]] in
  exec (process_participants {["Ana Lee" := "ana@x.com"]} 1 ["Ana Lee"] (Tally 0 0 0))
       [attendees; pending; pending]
  = ([EvGetAll Attendees attendees;
      EvAppend Attendees [VStr EmptyString; VStr "Ana Lee"; VStr "ana@x.com"];
      EvSleep 2000; EvGetAll Attendees pending;
      EvSleep 2000; EvGetAll Attendees pending],
     Returned (Tally 0 0 1), [])
  /\ exec (main_store_phase "u" "t" "2025-03-03" ["Ana Lee"] {["Ana Lee" := "ana@x.com"]})
          [sessions; sessions]
     = ([EvAppend Sessions [VStr EmptyString; VStr "u"; VStr "t"; VStr "2025-03-03"];
         EvSleep 2000; EvGetAll Sessions sessions;
         EvSleep 2000; EvGetAll Sessions sessions],
        Returned SessionFailed, []).
Proof.
  intros attendees pending sessions.
  destruct missing_id_is_a_failure as (Hattendee & Hsession & Hlast & Hlast').
  assert (id_pending (hd [] pending) pending) as Hpending.
  { apply (Hlast "Ana Lee" "ana@x.com" attendees EmptyString []);
      [vm_compute; done|reflexivity|vm_compute; reflexivity]. }
  assert (session_id_pending sessions) as Hpending'.
  { apply (Hlast' "u" "t" "2025-03-03" [["id"; "url"; "title"; "date"]] EmptyString []).
    vm_compute. reflexivity. }
  split.
  - destruct (Hattendee "Ana Lee" "ana@x.com" attendees pending pending []
                {["Ana Lee" := "ana@x.com"]} 1 [] (Tally 0 0 0))
      as (_ & _ & Hrun).
    + vm_compute. done.
    + exact Hpending.
    + discriminate.
    + exact Hpending.
    + vm_compute. reflexivity.
    + etrans; [exact Hrun|]. vm_compute. reflexivity.
  - destruct (Hsession "u" "t" "2025-03-03" sessions sessions [] ["Ana Lee"]
                {["Ana Lee" := "ana@x.com"]})
      as (_ & _ & Hrun).
    + exact Hpending'.
    + discriminate.
    + exact Hpending'.
    + etrans; [exact Hrun|]. vm_compute. reflexivity.
Defined.

(** ** [validate_names_with_llm] *)

Lemma read_valid_names_loads env body valid :
  read_valid_names env body = Some valid ->
  exists content, json_loads env content = Some valid.
Proof.
  unfold read_valid_names. intros H.
  repeat (apply bind_Some in H as (? & _ & H)). eauto.
Qed.

(** What the function returns: the names it was given, or what the reply of
    the service decodes to. *)
Lemma validate_names_cases env names :
  validate_names_with_llm env names = names_value names
  \/ exists key body,
       post env key names = Response 200 body
       /\ read_valid_names env body = Some (validate_names_with_llm env names).
Proof.
  unfold validate_names_with_llm. destruct names as [|name names]; [by left|].
  destruct (find_api_key env) as [key|]; [|by left].
  destruct (Py.truthy key); [|by left].
  destruct (post env key (name :: names)) as [|status body] eqn:Hpost; [by left|].
  destruct (status =? 200) eqn:Hs; [|by left].
  apply Z.eqb_eq in Hs as ->.
  destruct (read_valid_names env body) as [valid|] eqn:Hread; [|by left].
  right. by exists key, body.
Qed.

(** C7.  For every list of names: if the call to the service raises, or
    answers with a status other than 200 (any non-2xx status is one), or
    with a body that [response.json()] cannot parse, or with a content that
    [json.loads] cannot parse, the function returns the list it was given. *)
Theorem fail_open env names :
  (forall key, post env key names = PostRaises)
  \/ (forall key, exists status body,
        post env key names = Response status body /\ status <> 200)
  \/ (forall key, exists status, post env key names = Response status None)
  \/ (forall content, json_loads env content = None) ->
  validate_names_with_llm env names = names_value names.
Proof.
  intros H.
  destruct (validate_names_cases env names) as [|(key & body & Hpost & Hread)]; [done|].
  exfalso. destruct H as [H|[H|[H|H]]].
  - by rewrite H in Hpost.
  - destruct (H key) as (status & body' & Hp & Hne). rewrite Hp in Hpost.
    by injection Hpost as -> ->.
  - destruct (H key) as (status & Hp). rewrite Hp in Hpost.
    injection Hpost as -> <-. done.
  - apply read_valid_names_loads in Hread as [content Hc]. by rewrite H in Hc.
Qed.

(** A service that is down, one that answers 503, one that answers rubbish. *)
Lemma fail_open_witness :
  let names := ["Ana Lee"; "Hi"] in
  validate_names_with_llm
    (LlmEnv (Some "key") NoFile (fun _ _ => PostRaises) (fun _ => None)) names
  = names_value names
  /\ validate_names_with_llm
       (LlmEnv (Some "key") NoFile (fun _ _ => Response 503 None) (fun _ => None)) names
     = names_value names
  /\ validate_names_with_llm
       (LlmEnv (Some "key") NoFile (fun _ _ => Response 200 (Some reply_body))
          (fun _ => None)) names
     = names_value names.
Proof.
  intros names. split_and!; apply fail_open.
  - left. intros key. reflexivity.
  - right; left. intros key. exists 503, None. split; [reflexivity|discriminate].
  - right; right; right. intros content. reflexivity.
Defined.

(** C6 as stated fails: the reply of the service is returned as it is, so a
    name that was not among the candidates comes out. *)
Lemma subset_counterexample :
  validate_names_with_llm inventive_service ["Ana Lee"] = names_value ["Mallory"]
  /\ ~ is_name_subset (validate_names_with_llm inventive_service ["Ana Lee"]) ["Ana Lee"].
Proof.
  assert (validate_names_with_llm inventive_service ["Ana Lee"] = names_value ["Mallory"])
    as Hv by (vm_compute; reflexivity).
  split; [done|]. rewrite Hv. intros (valid & Heq & Hsub).
  unfold names_value in Heq. injection Heq as Heq.
  destruct valid as [|v [|??]]; [done| |done]. injection Heq as <-.
  assert ("Mallory" ∈ ["Ana Lee"]) as Hin by (apply Hsub; by left).
  apply list_elem_of_singleton in Hin. discriminate Hin.
Qed.

(** C6, as amended.  The function returns either the list it was given,
    unchanged, or the value that the reply of the service decodes to, as it
    is, without comparing it with the candidates; the result is a subset of
    the input whenever every reply the decoder accepts is one. *)
Theorem output_is_input_or_reply env names :
  (validate_names_with_llm env names = names_value names
   \/ exists key body,
        post env key names = Response 200 body
        /\ read_valid_names env body = Some (validate_names_with_llm env names))
  /\ ((forall content valid, json_loads env content = Some valid ->
                             is_name_subset valid names) ->
      is_name_subset (validate_names_with_llm env names) names).
Proof.
  split; [apply validate_names_cases|]. intros Hsub.
  destruct (validate_names_cases env names) as [->|(key & body & _ & Hread)].
  - by exists names.
  - apply read_valid_names_loads in Hread as [content Hc]. by eapply Hsub.
Qed.

(** A service that answers with one of the candidates. *)
Lemma output_is_input_or_reply_witness :
  let env := LlmEnv (Some "key") NoFile (fun _ _ => Response 200 (Some reply_body))
               (fun _ => Some (names_value ["Ana Lee"])) in
  is_name_subset (validate_names_with_llm env ["Ana Lee"; "Hi"]) ["Ana Lee"; "Hi"].
Proof.
  intros env. apply (proj2 (output_is_input_or_reply env ["Ana Lee"; "Hi"])).
  intros content valid [= <-]. exists ["Ana Lee"]. split; [reflexivity|].
  intros x Hx. apply list_elem_of_singleton in Hx as ->. by left.
Defined.

(** ** Splitting *)

Lemma append_nil s : EmptyString +:+ s = s.
Proof. reflexivity. Qed.

Lemma append_cons c s t : String c s +:+ t = String c (s +:+ t).
Proof. reflexivity. Qed.

Lemma append_empty_r s : s +:+ EmptyString = s.
Proof. induction s as [|c s IH]; [done|]. by rewrite append_cons, IH. Qed.

Lemma append_assoc s1 s2 s3 : (s1 +:+ s2) +:+ s3 = s1 +:+ (s2 +:+ s3).
Proof. induction s1 as [|c s1 IH]; [done|]. by rewrite !append_cons, IH. Qed.

Lemma rev_string_involutive' p : forall a b,
  Py.rev_string a (Py.rev_string b p) = Py.rev_string (p +:+ a) b.
Proof.
  induction p as [|c p IH]; intros a b; [done|].
  rewrite append_cons. cbn [Py.rev_string]. by rewrite IH.
Qed.

Lemma rev_string_involutive p :
  Py.rev_string EmptyString (Py.rev_string EmptyString p) = p.
Proof. rewrite rev_string_involutive'. cbn [Py.rev_string]. apply append_empty_r. Qed.

Lemma startswith_append p s : Py.startswith p (p +:+ s) = true.
Proof.
  induction p as [|c p IH]; [done|]. rewrite append_cons. cbn [Py.startswith].
  by destruct (ascii_dec c c).
Qed.

Lemma contains_char_cons c x s :
  Py.contains (String c EmptyString) (String x s) = false ->
  c <> x /\ Py.contains (String c EmptyString) s = false.
Proof.
  cbn [Py.contains Py.startswith]. destruct (ascii_dec c x) as [->|Hne]; [done|].
  intros H. split; [done|]. by destruct s.
Qed.

Lemma contains_append sub p rest : Py.contains sub (p +:+ sub +:+ rest) = true.
Proof.
  induction p as [|x p IH].
  - rewrite append_nil. pose proof (startswith_append sub rest) as H.
    destruct (sub +:+ rest); cbn [Py.contains]; by rewrite H.
  - rewrite append_cons. cbn [Py.contains]. rewrite IH. apply orb_true_r.
Qed.

(** A start of the text in which the first character of the separator does
    not occur goes into the piece being read. *)
Lemma split_go_prefix c sep p s : forall cur,
  Py.contains (String c EmptyString) p = false ->
  Py.split_go (String c sep) 0 cur (p +:+ s)
  = Py.split_go (String c sep) 0 (Py.rev_string cur p) s.
Proof.
  induction p as [|x p IH]; intros cur Hp; [done|].
  apply contains_char_cons in Hp as [Hne Hp].
  rewrite append_cons. cbn [Py.split_go Py.startswith Py.rev_string].
  destruct (ascii_dec c x) as [->|_]; [done|]. by rewrite IH.
Qed.

(** [text.split(sep)[0]] is what stands before the first separator. *)
Lemma split_first c sep p rest :
  Py.contains (String c EmptyString) p = false ->
  hd EmptyString (Py.split (String c sep) (p +:+ String c sep +:+ rest)) = p.
Proof.
  intros Hp. unfold Py.split. rewrite split_go_prefix by done.
  pose proof (startswith_append (String c sep) rest) as Hs.
  rewrite append_cons in Hs |- *. cbn [Py.split_go Py.rev_string].
  rewrite Hs. cbn [hd]. apply rev_string_involutive.
Qed.

Lemma split_none c sep p :
  Py.contains (String c EmptyString) p = false ->
  Py.split (String c sep) p = [p].
Proof.
  intros Hp. unfold Py.split. rewrite <- (append_empty_r p) at 1.
  rewrite split_go_prefix by done. cbn [Py.split_go].
  by rewrite rev_string_involutive.
Qed.

(** ** [extract_emails] *)








(** ** [parse_quiz_date] *)

Section date.
Import Strptime.

Lemma digit_range n : 0 <= n mod 10 <= 9.
Proof. pose proof (Z.mod_pos_bound n 10). lia. Qed.

Lemma digit_char_facts k :
  0 <= k <= 9 ->
  Py.digit (digit_char k) = Some k
  /\ Py.isspace (digit_char k) = false
  /\ Py.contains "," (String (digit_char k) EmptyString) = false.
Proof.
  intros Hk.
  assert (k = 0 \/ k = 1 \/ k = 2 \/ k = 3 \/ k = 4 \/ k = 5 \/ k = 6 \/ k = 7
          \/ k = 8 \/ k = 9) as H by lia.
  repeat (destruct H as [->|H]; [by vm_compute|]). subst. by vm_compute.
Qed.

Lemma contains_char_append c a b :
  Py.contains (String c EmptyString) (a +:+ b)
  = Py.contains (String c EmptyString) a || Py.contains (String c EmptyString) b.
Proof.
  induction a as [|x a IH]; [by destruct b|].
  rewrite append_cons. cbn [Py.contains Py.startswith]. rewrite IH.
  destruct (ascii_dec c x); [done|]. cbn [orb].
  by destruct a.
Qed.

Lemma contains_comma_pad2 n : Py.contains "," (pad2 n) = false.
Proof.
  unfold pad2.
  change (String ?a (String ?b EmptyString))
    with (String a EmptyString +:+ String b EmptyString).
  rewrite contains_char_append.
  destruct (digit_char_facts (n / 10 mod 10) (digit_range _)) as (_ & _ & ->).
  by destruct (digit_char_facts (n mod 10) (digit_range _)) as (_ & _ & ->).
Qed.

Lemma contains_comma_pad4 n : Py.contains "," (pad4 n) = false.
Proof.
  unfold pad4.
  change (String ?a (String ?b ?s))
    with (String a EmptyString +:+ String b EmptyString +:+ s).
  rewrite !contains_char_append, contains_comma_pad2.
  destruct (digit_char_facts (n / 1000 mod 10) (digit_range _)) as (_ & _ & ->).
  by destruct (digit_char_facts (n / 100 mod 10) (digit_range _)) as (_ & _ & ->).
Qed.

Lemma lstrip_pad2 n rest : Py.lstrip (pad2 n +:+ rest) = pad2 n +:+ rest.
Proof.
  unfold pad2. rewrite append_cons. cbn [Py.lstrip].
  by destruct (digit_char_facts (n / 10 mod 10) (digit_range _)) as (_ & -> & _).
Qed.

Lemma lstrip_pad4 n rest : Py.lstrip (pad4 n +:+ rest) = pad4 n +:+ rest.
Proof.
  unfold pad4. rewrite append_cons. cbn [Py.lstrip].
  by destruct (digit_char_facts (n / 1000 mod 10) (digit_range _)) as (_ & -> & _).
Qed.

Lemma rstrip_append a b :
  b <> EmptyString -> Py.rstrip b = b -> Py.rstrip (a +:+ b) = a +:+ b.
Proof.
  intros Hb Hr. induction a as [|c a IH]; [done|].
  rewrite append_cons. cbn [Py.rstrip]. rewrite IH.
  destruct (a +:+ b) eqn:E; [|done]. by destruct a.
Qed.

Lemma rstrip_pad4 n : Py.rstrip (pad4 n) = pad4 n.
Proof.
  unfold pad4, pad2. cbn [Py.rstrip].
  by destruct (digit_char_facts (n mod 10) (digit_range _)) as (_ & -> & _).
Qed.

Lemma day_of_month_pad2 day rest :
  1 <= day <= 31 -> day_of_month (pad2 day +:+ rest) = Some (day, rest).
Proof.
  intros Hd.
  assert (exists n, day = Z.of_nat n /\ (1 <= n <= 31)%nat) as (n & -> & Hn)
    by (exists (Z.to_nat day); lia).
  clear Hd. destruct n as [|n]; [lia|].
  do 31 (destruct n as [|n]; [reflexivity|]). lia.
Qed.

Lemma four_digits_pad4 year rest :
  0 <= year <= 9999 -> four_digits (pad4 year +:+ rest) = Some (year, rest).
Proof.
  intros Hy. unfold pad4, pad2. rewrite !append_cons, append_nil.
  cbn [four_digits].
  destruct (digit_char_facts (year / 1000 mod 10) (digit_range _)) as (-> & _ & _).
  destruct (digit_char_facts (year / 100 mod 10) (digit_range _)) as (-> & _ & _).
  destruct (digit_char_facts (year / 10 mod 10) (digit_range _)) as (-> & _ & _).
  destruct (digit_char_facts (year mod 10) (digit_range _)) as (-> & _ & _).
  cbn. do 2 f_equal.
  replace (year / 1000) with (year / 10 / 10 / 10) by (rewrite !Z.div_div by lia; done).
  replace (year / 100) with (year / 10 / 10) by (rewrite !Z.div_div by lia; done).
  Z.to_euclidean_division_equations. lia.
Qed.

End date.

Section date_names.
Import Strptime.

Lemma index_from_elem names : forall k x i,
  index_from k x names = Some i -> x ∈ names.
Proof.
  induction names as [|n names IH]; intros k x i H; [done|].
  cbn [index_from] in H. destruct (decide (n = x)) as [->|_]; [by left|].
  right. by eapply IH.
Qed.

(** A character that lower-cases to one of a..z is neither white space
    nor a comma. *)
Lemma letter_facts c :
  ((97 <=? Py.code (Py.lower_char c)) && (Py.code (Py.lower_char c) <=? 122))%N = true ->
  Py.isspace c = false /\ c <> ","%char.
Proof. destruct c as [[] [] [] [] [] [] [] []]; vm_compute; intros; by split. Qed.

Lemma names_lower_letters :
  Forall lower_letters a_weekday /\ Forall lower_letters a_month.
Proof.
  split; repeat constructor;
    (eexists _, _, _; split; [reflexivity|repeat constructor]).
Qed.

Lemma abbreviation_facts names w i :
  names = a_weekday \/ names = a_month ->
  index_from 0 (Py.lower w) names = Some i ->
  (forall rest, abbreviation names (w +:+ rest) = Some (i, rest))
  /\ Py.contains "," w = false
  /\ (forall rest, Py.lstrip (w +:+ rest) = w +:+ rest).
Proof.
  intros Hnames Hi.
  assert (lower_letters (Py.lower w)) as (a & b & c & Hw & Hletters).
  { apply index_from_elem in Hi.
    destruct names_lower_letters as [H1 H2].
    destruct Hnames as [-> | ->].
    - exact (proj1 (Forall_forall _ _) H1 _ Hi).
    - exact (proj1 (Forall_forall _ _) H2 _ Hi). }
  destruct w as [|w1 [|w2 [|w3 [|w4 w]]]]; try discriminate Hw.
  cbn [Py.lower] in Hw. injection Hw as <- <- <-.
  apply Forall_cons in Hletters as [H1 Hletters].
  apply Forall_cons in Hletters as [H2 Hletters].
  apply Forall_cons in Hletters as [H3 _].
  apply letter_facts in H1 as [Hs1 Hc1], H2 as [Hs2 Hc2], H3 as [Hs3 Hc3].
  split_and!.
  - intros rest. rewrite !append_cons, append_nil. cbn [abbreviation].
    by rewrite Hi.
  - cbn [Py.contains Py.startswith].
    destruct (ascii_dec "," w1) as [<-|_]; [done|].
    destruct (ascii_dec "," w2) as [<-|_]; [done|].
    destruct (ascii_dec "," w3) as [<-|_]; [done|]. done.
  - intros rest. rewrite append_cons. cbn [Py.lstrip]. by rewrite Hs1.
Qed.


Lemma days_in_month_le year month : days_in_month year month <= 31.
Proof.
  unfold days_in_month.
  destruct (month =? 2); [destruct (is_leap year); lia|].
  destruct (_ || _); lia.
Qed.


End date_names.

(** From the year 1000 on, the year is printed on its four digits. *)
Lemma year_digits_pad4 year :
  1000 <= year -> Strptime.year_digits year = Strptime.pad4 year.
Proof.
  intros Hy. unfold Strptime.year_digits.
  destruct (year <? 10) eqn:H1; [apply Z.ltb_lt in H1; lia|].
  destruct (year <? 100) eqn:H2; [apply Z.ltb_lt in H2; lia|].
  destruct (year <? 1000) eqn:H3; [apply Z.ltb_lt in H3; lia|].
  reflexivity.
Qed.

Lemma parse_quiz_date_suffix text rest :
  Py.contains "," text = false ->
  parse_quiz_date (text +:+ "," +:+ rest) = parse_quiz_date text.
Proof.
  intros Htext. unfold parse_quiz_date.
  by rewrite (split_first "," EmptyString), (split_none "," EmptyString).
Qed.



(** * Further properties *)

(** ** The loop of [main], participant by participant *)

Lemma exec_no_reads {A} (k : table -> prog A) sheet :
  exec (GetAllValues sheet k) [] = exec (GetAllValues sheet k) [[]].
Proof. reflexivity. Qed.

Lemma call_any_reads sheet name email reads :
  exec (get_or_create_attendee sheet name email) reads
  = exec (get_or_create_attendee sheet name email) (hd [] reads :: tl reads).
Proof. by destruct reads. Qed.

(** One turn of the loop: the call, then one row in the log if the call
    returned an id other than 0. *)
Lemma process_participant_cases email_mapping session_id name t reads :
  let email := default EmptyString (email_mapping !! name) in
  let call := exec (get_or_create_attendee Attendees name email) reads in
  exec (process_participant email_mapping session_id name t) reads
  = match outcome_of call with
    | Returned (Some member_id) =>
        if member_id =? 0 then (trace_of call, Returned (skipped t), rest_of call)
        else (trace_of call ++ [EvAppend AttendanceLog [VInt member_id; VInt session_id]],
              Returned (if Py.truthy email then logged_with_email t else logged_blank t),
              rest_of call)
    | _ => (trace_of call, Returned (skipped t), rest_of call)
    end.
Proof.
  intros email call. unfold process_participant. fold email.
  rewrite exec_try_except, exec_bind. fold call.
  destruct call as [[tr [[member_id|]|e]] rest]; cbn.
  - destruct (member_id =? 0); cbn; by rewrite ?app_nil_r.
  - by rewrite app_nil_r.
  - by rewrite app_nil_r.
Qed.

Lemma writes_on_app sheet tr1 tr2 :
  writes_on sheet (tr1 ++ tr2) = writes_on sheet tr1 ++ writes_on sheet tr2.
Proof. apply List.filter_app. Qed.

Lemma writes_on_append sheet values :
  writes_on sheet [EvAppend sheet values] = [EvAppend sheet values].
Proof.
  unfold writes_on, is_write_on. cbn [List.filter is_write event_sheet andb].
  by rewrite bool_decide_eq_true_2.
Qed.

Lemma only_on_elsewhere sheet other tr :
  only_on sheet tr -> sheet <> other ->
  writes_on other tr = [] /\ Forall (fun e => event_sheet e <> Some other) tr.
Proof.
  intros Hon Hne. induction Hon as [|e tr He _ [IH1 IH2]]; [done|].
  assert (event_sheet e <> Some other) as Hev.
  { intros Heq. apply Hne. symmetry. by apply He. }
  split; [|by constructor].
  unfold writes_on in *. cbn [List.filter]. unfold is_write_on at 1.
  rewrite bool_decide_eq_false_2 by done. by rewrite andb_false_r.
Qed.

Lemma call_elsewhere name email reads other :
  other <> Attendees ->
  let tr := trace_of (exec (get_or_create_attendee Attendees name email) reads) in
  writes_on other tr = [] /\ Forall (fun e => event_sheet e <> Some other) tr.
Proof.
  intros Hne tr. subst tr. rewrite call_any_reads.
  apply (only_on_elsewhere Attendees); [apply call_only_on|done].
Qed.

(** What the loop of [main] keeps, for every answer of the sheets. *)
Lemma process_participants_invariant email_mapping session_id participants :
  forall t reads,
  exists tr t' rest,
    exec (process_participants email_mapping session_id participants t) reads
    = (tr, Returned t', rest)
    /\ (attendance_count t <= attendance_count t'
        <= attendance_count t + length (with_email email_mapping participants))%nat
    /\ (blank_email_count t <= blank_email_count t'
        <= blank_email_count t + length (without_email email_mapping participants))%nat
    /\ (skipped_count t <= skipped_count t')%nat
    /\ total_count t' = (total_count t + length participants)%nat
    /\ (logged_count t + length (writes_on AttendanceLog tr))%nat = logged_count t'
    /\ Forall (is_log_row session_id) (writes_on AttendanceLog tr)
    /\ Forall (fun e => event_sheet e <> Some Sessions) tr.
Proof.
  induction participants as [|name names IH]; intros t reads.
  - exists [], t, reads. cbn. unfold total_count, logged_count.
    split_and!; try done; lia.
  - rewrite process_participants_cons, process_participant_cases.
    set (email := default EmptyString (email_mapping !! name)).
    set (call := exec (get_or_create_attendee Attendees name email) reads).
    destruct (call_elsewhere name email reads AttendanceLog) as [Hlog _]; [done|].
    destruct (call_elsewhere name email reads Sessions) as [_ Hses]; [done|].
    fold call in Hlog, Hses.
    assert (forall t1 tr1,
      (attendance_count t <= attendance_count t1
       <= attendance_count t + length (with_email email_mapping [name]))%nat ->
      (blank_email_count t <= blank_email_count t1
       <= blank_email_count t + length (without_email email_mapping [name]))%nat ->
      (skipped_count t <= skipped_count t1)%nat ->
      total_count t1 = S (total_count t) ->
      (logged_count t + length (writes_on AttendanceLog tr1))%nat = logged_count t1 ->
      Forall (is_log_row session_id) (writes_on AttendanceLog tr1) ->
      Forall (fun e => event_sheet e <> Some Sessions) tr1 ->
      exists tr t' rest,
        (let '(tr', o, rest') :=
           exec (process_participants email_mapping session_id names t1) (rest_of call) in
         (tr1 ++ tr', o, rest')) = (tr, Returned t', rest)
        /\ (attendance_count t <= attendance_count t'
            <= attendance_count t + length (with_email email_mapping (name :: names)))%nat
        /\ (blank_email_count t <= blank_email_count t'
            <= blank_email_count t
               + length (without_email email_mapping (name :: names)))%nat
        /\ (skipped_count t <= skipped_count t')%nat
        /\ total_count t' = (total_count t + length (name :: names))%nat
        /\ (logged_count t + length (writes_on AttendanceLog tr))%nat = logged_count t'
        /\ Forall (is_log_row session_id) (writes_on AttendanceLog tr)
        /\ Forall (fun e => event_sheet e <> Some Sessions) tr) as Hstep.
    { intros t1 tr1 Ha Hb Hs Ht Hl Hrows Hnot.
      destruct (IH t1 (rest_of call))
        as (tr' & t' & rest' & -> & Ha' & Hb' & Hs' & Ht' & Hl' & Hrows' & Hnot').
      exists (tr1 ++ tr'), t', rest'.
      assert (length (with_email email_mapping (name :: names))
              = (length (with_email email_mapping [name])
                 + length (with_email email_mapping names))%nat) as ->.
      { unfold with_email. cbn [List.filter]. destruct (has_email _ _); cbn; lia. }
      assert (length (without_email email_mapping (name :: names))
              = (length (without_email email_mapping [name])
                 + length (without_email email_mapping names))%nat) as ->.
      { unfold without_email. cbn [List.filter]. destruct (negb _); cbn; lia. }
      rewrite writes_on_app, length_app. cbn [length].
      split_and!; try done; try lia.
      - by apply Forall_app.
      - by apply Forall_app. }
    assert (has_email email_mapping name = Py.truthy email) as Hhas by done.
    destruct (outcome_of call) as [[member_id|]|e];
      [destruct (member_id =? 0) eqn:Hz|..].
    1, 3, 4: (apply (Hstep (skipped t) (trace_of call));
              [cbn; lia | cbn; lia | cbn; lia | unfold total_count; cbn; lia
              | rewrite Hlog; unfold logged_count; cbn; lia
              | rewrite Hlog; constructor | exact Hses]).
    apply Z.eqb_neq in Hz.
    apply Hstep.
    + unfold with_email. cbn [List.filter]. rewrite Hhas.
      destruct (Py.truthy email); cbn; lia.
    + unfold without_email. cbn [List.filter]. rewrite Hhas.
      destruct (Py.truthy email); cbn; lia.
    + destruct (Py.truthy email); cbn; lia.
    + unfold total_count. destruct (Py.truthy email); cbn; lia.
    + rewrite writes_on_app, Hlog, writes_on_append. unfold logged_count.
      destruct (Py.truthy email); cbn; lia.
    + rewrite writes_on_app, Hlog, writes_on_append. cbn. constructor; [|done].
      by exists member_id.
    + apply Forall_app. split; [done|]. by constructor.
Qed.

(** ** The run of [main] after the confirmation *)

Lemma only_on_writes_on sheet tr : only_on sheet tr -> writes_on sheet tr = writes tr.
Proof.
  intros Hon. induction Hon as [|e tr He _ IH]; [done|].
  unfold writes_on, writes in *. cbn [List.filter]. rewrite IH.
  unfold is_write_on. destruct (is_write e) eqn:Hw; [|done].
  rewrite bool_decide_eq_true_2; [done|].
  destruct e as [? ?|sh ? ? ?|sh ?|?]; try done; by rewrite (He sh).
Qed.

Lemma no_event_no_write sheet tr :
  Forall (fun e => event_sheet e <> Some sheet) tr -> writes_on sheet tr = [].
Proof.
  intros H. induction H as [|e tr He _ IH]; [done|].
  unfold writes_on in *. cbn [List.filter]. rewrite IH. unfold is_write_on.
  rewrite bool_decide_eq_false_2 by done. by rewrite andb_false_r.
Qed.

Lemma create_session_writes sheet url title date reads :
  writes (trace_of (exec (create_session sheet url title date) reads))
  = [EvAppend sheet [VStr EmptyString; VStr url; VStr title; VStr date]].
Proof.
  unfold create_session. autorewrite with run.
  destruct (hd [] reads) as [|row1 [|row rows]]; [done..|].
  destruct (no_id _); [|done]. autorewrite with run.
  by destruct (hd [] (tl reads)).
Qed.

(** The store phase, by what [create_session] gave. *)
Lemma main_store_phase_cases url title date participants email_mapping reads :
  let creation := exec (create_session Sessions url title date) reads in
  exec (main_store_phase url title date participants email_mapping) reads
  = match outcome_of creation with
    | Raised e => (trace_of creation, Returned (SessionError e), rest_of creation)
    | Returned session_id =>
        if falsy_id session_id
        then (trace_of creation, Returned SessionFailed, rest_of creation)
        else
          let '(tr, o, rest) :=
            exec (process_participants email_mapping (default 0 session_id)
                    participants (Tally 0 0 0)) (rest_of creation) in
          (trace_of creation ++ tr,
           match o with
           | Returned t => Returned (Completed t)
           | Raised e => Raised e
           end, rest)
    end.
Proof.
  intros creation. unfold main_store_phase.
  rewrite exec_bind, exec_try_except, exec_bind. fold creation.
  destruct creation as [[tr [session_id|e]] rest]; cbn.
  - rewrite !app_nil_r. destruct (falsy_id session_id); cbn.
    + by rewrite app_nil_r.
    + rewrite exec_bind.
      destruct (exec (process_participants _ _ _ _) rest) as [[tr' [t|e]] rest'];
        cbn; by rewrite ?app_nil_r.
  - by rewrite !app_nil_r.
Qed.

(** How a run ends, and what it has written by then. *)
Lemma main_store_phase_run url title date participants email_mapping reads :
  let creation := exec (create_session Sessions url title date) reads in
  let run := exec (main_store_phase url title date participants email_mapping) reads in
  (exists ending,
     outcome_of run = Returned ending
     /\ match ending with
        | Completed t =>
            exists session_id,
              session_id <> 0
              /\ outcome_of creation = Returned (Some session_id)
              /\ total_count t = length participants
              /\ (attendance_count t <= length (with_email email_mapping participants))%nat
              /\ (blank_email_count t
                  <= length (without_email email_mapping participants))%nat
              /\ length (writes_on AttendanceLog (trace_of run)) = logged_count t
              /\ Forall (is_log_row session_id) (writes_on AttendanceLog (trace_of run))
        | SessionFailed =>
            (outcome_of creation = Returned None
             \/ outcome_of creation = Returned (Some 0))
            /\ trace_of run = trace_of creation
        | SessionError e =>
            outcome_of creation = Raised e /\ trace_of run = trace_of creation
        end)
  /\ writes_on Sessions (trace_of run)
     = [EvAppend Sessions [VStr EmptyString; VStr url; VStr title; VStr date]].
Proof.
  intros creation run. subst run. rewrite main_store_phase_cases. fold creation.
  pose proof (create_session_only_on Sessions url title date reads) as Hon.
  pose proof (create_session_writes Sessions url title date reads) as Hw.
  fold creation in Hon, Hw.
  rewrite <- (only_on_writes_on _ _ Hon) in Hw.
  destruct (outcome_of creation) as [session_id|e] eqn:Ho.
  - destruct (falsy_id session_id) eqn:Hf.
    + split; [|done]. exists SessionFailed. split; [done|]. split; [|done].
      destruct session_id as [n|]; [|by left]. right.
      cbn in Hf. apply Z.eqb_eq in Hf. by subst n.
    + destruct session_id as [n|]; [|done]. cbn in Hf. apply Z.eqb_neq in Hf.
      destruct (process_participants_invariant email_mapping n participants
                  (Tally 0 0 0) (rest_of creation))
        as (tr & t & rest & Hrun & Ha & Hb & _ & Ht & Hl & Hrows & Hnot).
      change (default 0 (Some n)) with n. rewrite Hrun. unfold trace_of, outcome_of. cbn [fst snd].
      destruct (only_on_elsewhere Sessions AttendanceLog _ Hon) as [Hnolog _]; [done|].
      split.
      * exists (Completed t). split; [done|]. exists n.
        rewrite writes_on_app.
        unfold trace_of in Hnolog. rewrite Hnolog. cbn [app].
        unfold total_count, logged_count in *. cbn in Ha, Hb, Ht, Hl.
        split_and!; try done; lia.
      * rewrite writes_on_app, (no_event_no_write _ _ Hnot), app_nil_r. exact Hw.
  - split; [|done]. by exists (SessionError e).
Qed.

(** Every participant is counted once: whatever the sheets answer, a run
    that reaches the completion summary reports three counters that add up
    to the number of participants; no more participants are counted as
    logged with an email than have one in the mapping, and no more as logged
    without than have none. *)
Theorem every_participant_is_counted
    url title date participants email_mapping reads t :
  outcome_of (exec (main_store_phase url title date participants email_mapping) reads)
  = Returned (Completed t) ->
  (attendance_count t + blank_email_count t + skipped_count t)%nat = length participants
  /\ (attendance_count t <= length (with_email email_mapping participants))%nat
  /\ (blank_email_count t <= length (without_email email_mapping participants))%nat.
Proof.
  intros Hend.
  destruct (main_store_phase_run url title date participants email_mapping reads)
    as [(ending & Ho & Hending) _].
  rewrite Hend in Ho. injection Ho as <-.
  destruct Hending as (session_id & _ & _ & Ht & Ha & Hb & _). done.
Qed.

Lemma every_participant_is_counted_witness :
  (1 + 1 + 0)%nat = length ["Ana Lee"; "Bo Li"]
  /\ (1 <= length (with_email sample_mapping ["Ana Lee"; "Bo Li"]))%nat
  /\ (1 <= length (without_email sample_mapping ["Ana Lee"; "Bo Li"]))%nat.
Proof.
  apply (every_participant_is_counted "u" "t" "2025-03-03" ["Ana Lee"; "Bo Li"]
           sample_mapping sample_reads (Tally 1 1 0)).
  vm_compute. reflexivity.
Defined.

(** The attendance log holds one row for each participant counted as
    logged: in a run that reaches the completion summary, the writes on the
    log are appended rows, as many as the two counters of logged
    participants say, each made of a member id other than 0 and the id that
    [create_session] returned, which is not 0 either. *)
Theorem log_rows_match_the_tally
    url title date participants email_mapping reads t :
  let run := exec (main_store_phase url title date participants email_mapping) reads in
  outcome_of run = Returned (Completed t) ->
  exists session_id,
    session_id <> 0
    /\ outcome_of (exec (create_session Sessions url title date) reads)
       = Returned (Some session_id)
    /\ length (writes_on AttendanceLog (trace_of run))
       = (attendance_count t + blank_email_count t)%nat
    /\ Forall (is_log_row session_id) (writes_on AttendanceLog (trace_of run)).
Proof.
  intros run Hend.
  destruct (main_store_phase_run url title date participants email_mapping reads)
    as [(ending & Ho & Hending) _].
  fold run in Ho, Hending. rewrite Hend in Ho. injection Ho as <-.
  destruct Hending as (session_id & Hne & Hc & _ & _ & _ & Hl & Hrows).
  by exists session_id.
Qed.

Lemma log_rows_match_the_tally_witness :
  exists session_id,
    session_id <> 0
    /\ outcome_of (exec (create_session Sessions "u" "t" "2025-03-03") sample_reads)
       = Returned (Some session_id)
    /\ length (writes_on AttendanceLog
                 (trace_of (exec (main_store_phase "u" "t" "2025-03-03"
                                    ["Ana Lee"; "Bo Li"] sample_mapping) sample_reads)))
       = (1 + 1)%nat
    /\ Forall (is_log_row session_id)
         (writes_on AttendanceLog
            (trace_of (exec (main_store_phase "u" "t" "2025-03-03"
                               ["Ana Lee"; "Bo Li"] sample_mapping) sample_reads))).
Proof.
  apply (log_rows_match_the_tally "u" "t" "2025-03-03" ["Ana Lee"; "Bo Li"]
           sample_mapping sample_reads (Tally 1 1 0)).
  vm_compute. reflexivity.
Defined.

(** The session sheet is written once: in every run of the store phase,
    however it ends, the writes on the session sheet are the one appended
    row of an empty id cell, the url, the title and the date; a run that
    stops at the session leaves that row behind. *)
Theorem session_row_written_once url title date participants email_mapping reads :
  writes_on Sessions
    (trace_of (exec (main_store_phase url title date participants email_mapping) reads))
  = [EvAppend Sessions [VStr EmptyString; VStr url; VStr title; VStr date]].
Proof.
  by destruct (main_store_phase_run url title date participants email_mapping reads)
    as [_ H].
Qed.

(** ** Ids that cannot be used *)

Lemma found_row_run sheet name email snap reads idx rec :
  found name email (read_records snap) idx rec ->
  let call := exec (get_or_create_attendee sheet name email) (snap :: reads) in
  outcome_of call = record_id rec
  /\ rest_of call = reads
  /\ Forall (fun e => is_append e = false) (trace_of call).
Proof.
  intros Hf call. subst call.
  destruct (run_found sheet name email snap reads idx rec Hf) as (extra & -> & Hx).
  split_and!; [done..|].
  destruct Hx as [->|(-> & _)]; repeat constructor.
Qed.

Lemma skipped_call_in_loop email_mapping session_id name names t reads :
  let call := exec (get_or_create_attendee Attendees name
                      (default EmptyString (email_mapping !! name))) reads in
  outcome_of call = Returned None \/ outcome_of call = Returned (Some 0)
  \/ (exists e, outcome_of call = Raised e) ->
  exec (process_participants email_mapping session_id (name :: names) t) reads
  = (let '(tr, o, rest) :=
       exec (process_participants email_mapping session_id names (skipped t))
            (rest_of call) in
     (trace_of call ++ tr, o, rest)).
Proof.
  intros call Ho. rewrite process_participants_cons, process_participant_cases.
  fold call. by destruct Ho as [->|[->|[e ->]]].
Qed.

Lemma int_truthy text n : Py.int text = Some n -> Py.truthy text = true.
Proof. by destruct text. Qed.

(** A row whose id is not a number: when the search stops at a row whose id
    field, once trimmed, is not empty and is not what [int] reads (for
    instance a name, or 12.0), the call raises [ValueError], having appended
    nothing; [main] catches it, counts the participant as skipped, writes
    nothing to the log for it and goes on with the next participant. *)
Theorem non_numeric_id_is_a_skip name email snap reads idx rec :
  found name email (read_records snap) idx rec ->
  Py.truthy (Py.strip (get rec "id")) = true ->
  Py.int (Py.strip (get rec "id")) = None ->
  let call := exec (get_or_create_attendee Attendees name email) (snap :: reads) in
  outcome_of call = Raised ValueError
  /\ Forall (fun e => is_append e = false) (trace_of call)
  /\ forall email_mapping session_id names t,
       default EmptyString (email_mapping !! name) = email ->
       exec (process_participants email_mapping session_id (name :: names) t)
            (snap :: reads)
       = (let '(tr, o, rest) :=
            exec (process_participants email_mapping session_id names (skipped t)) reads in
          (trace_of call ++ tr, o, rest))
       /\ writes_on AttendanceLog (trace_of call) = [].
Proof.
  intros Hf Ht Hi call.
  destruct (found_row_run Attendees name email snap reads idx rec Hf)
    as (Ho & Hrest & Happ).
  fold call in Ho, Hrest, Happ.
  assert (outcome_of call = Raised ValueError) as Hraise.
  { rewrite Ho. unfold record_id, id_result. by rewrite Ht, Hi. }
  split_and!; [done..|].
  intros email_mapping session_id names t Hem. split.
  - rewrite skipped_call_in_loop; rewrite Hem; fold call.
    + by rewrite Hrest.
    + right; right. by exists ValueError.
  - by apply (call_elsewhere name email (snap :: reads) AttendanceLog).
Qed.

Lemma non_numeric_id_is_a_skip_witness :
  let snap := [attendee_headers; ["n/a"; "Ana Lee"; "ana@x.com"]] in
  exec (process_participants sample_mapping 7 ["Ana Lee"] (Tally 0 0 0)) [snap]
  = ([EvGetAll Attendees snap], Returned (Tally 0 0 1), []).
Proof.
  intros snap.
  assert (found "Ana Lee" "ana@x.com" (read_records snap) 0
            (make_record attendee_headers ["n/a"; "Ana Lee"; "ana@x.com"])) as Hf.
  { apply found_by_email; vm_compute; reflexivity. }
  destruct (non_numeric_id_is_a_skip "Ana Lee" "ana@x.com" snap [] 0 _ Hf)
    as (_ & _ & Hmain); [vm_compute; reflexivity..|].
  destruct (Hmain sample_mapping 7 [] (Tally 0 0 0)) as [Hrun _];
    [vm_compute; reflexivity|].
  etrans; [exact Hrun|]. vm_compute. reflexivity.
Defined.

(** The id 0 counts as no id: when the search stops at a row whose id field
    reads as the number 0, the call returns 0, and [main], which tests the id
    for truth, counts the participant as skipped and writes nothing to the
    log for it. *)
Theorem zero_id_is_a_skip name email snap reads idx rec :
  found name email (read_records snap) idx rec ->
  Py.int (Py.strip (get rec "id")) = Some 0 ->
  let call := exec (get_or_create_attendee Attendees name email) (snap :: reads) in
  outcome_of call = Returned (Some 0)
  /\ Forall (fun e => is_append e = false) (trace_of call)
  /\ forall email_mapping session_id names t,
       default EmptyString (email_mapping !! name) = email ->
       exec (process_participants email_mapping session_id (name :: names) t)
            (snap :: reads)
       = (let '(tr, o, rest) :=
            exec (process_participants email_mapping session_id names (skipped t)) reads in
          (trace_of call ++ tr, o, rest))
       /\ writes_on AttendanceLog (trace_of call) = [].
Proof.
  intros Hf Hi call.
  destruct (found_row_run Attendees name email snap reads idx rec Hf)
    as (Ho & Hrest & Happ).
  fold call in Ho, Hrest, Happ.
  assert (outcome_of call = Returned (Some 0)) as Hzero.
  { rewrite Ho. unfold record_id, id_result.
    by rewrite (int_truthy _ _ Hi), Hi. }
  split_and!; [done..|].
  intros email_mapping session_id names t Hem. split.
  - rewrite skipped_call_in_loop; rewrite Hem; fold call.
    + by rewrite Hrest.
    + right; left. done.
  - by apply (call_elsewhere name email (snap :: reads) AttendanceLog).
Qed.

Lemma zero_id_is_a_skip_witness :
  let snap := [attendee_headers; ["00"; "Ana Lee"; "ana@x.com"]] in
  exec (process_participants sample_mapping 7 ["Ana Lee"] (Tally 0 0 0)) [snap]
  = ([EvGetAll Attendees snap], Returned (Tally 0 0 1), []).
Proof.
  intros snap.
  assert (found "Ana Lee" "ana@x.com" (read_records snap) 0
            (make_record attendee_headers ["00"; "Ana Lee"; "ana@x.com"])) as Hf.
  { apply found_by_email; vm_compute; reflexivity. }
  destruct (zero_id_is_a_skip "Ana Lee" "ana@x.com" snap [] 0 _ Hf)
    as (_ & _ & Hmain); [vm_compute; reflexivity|].
  destruct (Hmain sample_mapping 7 [] (Tally 0 0 0)) as [Hrun _];
    [vm_compute; reflexivity|].
  etrans; [exact Hrun|]. vm_compute. reflexivity.
Defined.




(** ** A sheet found empty at the second re-read *)

Lemma create_attendee_emptied sheet name email r1 reads :
  (2 <= length r1)%nat ->
  id_pending (hd [] r1) r1 ->
  exec (create_attendee sheet name email) (r1 :: [] :: reads)
  = ([EvAppend sheet [VStr EmptyString; VStr name; VStr email];
      EvSleep 2000; EvGetAll sheet r1; EvSleep 2000; EvGetAll sheet []],
     Raised IndexError, reads).
Proof.
  intros Hlen H1. unfold create_attendee. rewrite truthy_or_empty.
  cbn [exec hd tl].
  destruct r1 as [|headers [|row rows]]; [cbn in Hlen; lia..|].
  unfold id_pending, blank in H1. cbn [hd] in H1. rewrite H1.
  reflexivity.
Qed.

Lemma create_session_emptied sheet url title date r1 reads :
  (2 <= length r1)%nat ->
  session_id_pending r1 ->
  exec (create_session sheet url title date) (r1 :: [] :: reads)
  = ([EvAppend sheet [VStr EmptyString; VStr url; VStr title; VStr date];
      EvSleep 2000; EvGetAll sheet r1; EvSleep 2000; EvGetAll sheet []],
     Raised IndexError, reads).
Proof.
  intros Hlen H1. unfold create_session. cbn [exec hd tl].
  destruct r1 as [|row1 [|row rows]]; [cbn in Hlen; lia..|].
  unfold session_id_pending in H1. rewrite H1. reflexivity.
Qed.

(** The second re-read indexes the last row without looking at the length:
    when the id is still missing at the first re-read and the sheet comes
    back empty at the second, both functions raise [IndexError].  For an
    attendee [main] counts the participant as skipped and goes on; for the
    session the run ends with the session error. *)
Theorem emptied_sheet_raises_index_error :
  (forall name email snap r1 reads email_mapping session_id names t,
     not_found name email (read_records snap) ->
     (2 <= length r1)%nat -> id_pending (hd [] r1) r1 ->
     default EmptyString (email_mapping !! name) = email ->
     let call := exec (get_or_create_attendee Attendees name email)
                   (snap :: r1 :: [] :: reads) in
     outcome_of call = Raised IndexError
     /\ exec (process_participants email_mapping session_id (name :: names) t)
             (snap :: r1 :: [] :: reads)
        = (let '(tr, o, rest) :=
             exec (process_participants email_mapping session_id names (skipped t))
                  reads in
           (trace_of call ++ tr, o, rest)))
  /\ (forall url title date r1 reads participants email_mapping,
        (2 <= length r1)%nat -> session_id_pending r1 ->
        outcome_of (exec (create_session Sessions url title date) (r1 :: [] :: reads))
        = Raised IndexError
        /\ outcome_of (exec (main_store_phase url title date participants email_mapping)
                         (r1 :: [] :: reads))
           = Returned (SessionError IndexError)).
Proof.
  split.
  - intros name email snap r1 reads email_mapping session_id names t
      Hn Hlen H1 Hem call.
    assert (call = (EvGetAll Attendees snap
                      :: [EvAppend Attendees [VStr EmptyString; VStr name; VStr email];
                          EvSleep 2000; EvGetAll Attendees r1; EvSleep 2000;
                          EvGetAll Attendees []],
                    Raised IndexError, reads)) as Hcall.
    { unfold call. rewrite run_create by done.
      by rewrite create_attendee_emptied. }
    split; [by rewrite Hcall|].
    rewrite skipped_call_in_loop; rewrite Hem; fold call.
    + by rewrite Hcall.
    + right; right. exists IndexError. by rewrite Hcall.
  - intros url title date r1 reads participants email_mapping Hlen H1.
    rewrite main_store_phase_cases, create_session_emptied by done. done.
Qed.

Lemma emptied_sheet_raises_index_error_witness :
  outcome_of (exec (process_participants sample_mapping 7 ["Ana Lee"] (Tally 0 0 0))
                [[attendee_headers];
                 [attendee_headers; [EmptyString; "Ana Lee"; "ana@x.com"]]; []])
  = Returned (Tally 0 0 1)
  /\ outcome_of (exec (main_store_phase "u" "t" "2025-03-03" ["Ana Lee"] sample_mapping)
                   [[["id"; "url"]; [EmptyString; "u"]]; []])
     = Returned (SessionError IndexError).
Proof.
  destruct emptied_sheet_raises_index_error as [Hattendee Hsession]. split.
  - destruct (Hattendee "Ana Lee" "ana@x.com" [attendee_headers]
                [attendee_headers; [EmptyString; "Ana Lee"; "ana@x.com"]] []
                sample_mapping 7 [] (Tally 0 0 0)) as [_ Hrun];
      [vm_compute; done|cbn; lia|vm_compute; reflexivity|vm_compute; reflexivity|].
    refine (eq_trans (f_equal outcome_of Hrun) _). vm_compute. reflexivity.
  - apply (Hsession "u" "t" "2025-03-03" [["id"; "url"]; [EmptyString; "u"]] []
             ["Ana Lee"] sample_mapping); [cbn; lia|vm_compute; reflexivity].
Defined.

(** ** A new attendee *)

(** The run of the creation path when the id is there at the first re-read. *)
Lemma create_attendee_first_read sheet name email r1 reads :
  (2 <= length r1)%nat ->
  let attendee_id := Py.strip (get (make_record (hd [] r1) (List.last r1 [])) "id") in
  Py.truthy attendee_id = true ->
  exec (create_attendee sheet name email) (r1 :: reads)
  = ([EvAppend sheet [VStr EmptyString; VStr name; VStr email];
      EvSleep 2000; EvGetAll sheet r1],
     id_result attendee_id, reads).
Proof.
  intros Hlen attendee_id Ht. unfold create_attendee. rewrite truthy_or_empty.
  cbn [exec hd tl].
  destruct r1 as [|headers [|row rows]]; [cbn in Hlen; lia..|].
  subst attendee_id. cbn [hd] in Ht. rewrite Ht. reflexivity.
Qed.

(** From the append to the log.  When no row matches and the sheet, read
    again, shows the rows it had followed by the new one with the id it
    assigned (columns id, name, email), the call makes its two reads and the
    one append and returns that id; if the id is not 0, [main] appends the
    member id and the session id to the log and counts the participant as
    logged, with an email or without according to the email it has. *)
Theorem new_attendee_is_logged name email snap assigned member_id reads :
  not_found name email (read_records snap) ->
  hd [] snap = attendee_headers ->
  Py.int (Py.strip assigned) = Some member_id ->
  let shown := append_row snap [EmptyString; name; email] assigned in
  let calls :=
    [EvGetAll Attendees snap;
     EvAppend Attendees [VStr EmptyString; VStr name; VStr email];
     EvSleep 2000; EvGetAll Attendees shown] in
  exec (get_or_create_attendee Attendees name email) (snap :: shown :: reads)
  = (calls, Returned (Some member_id), reads)
  /\ (member_id <> 0 ->
      forall email_mapping session_id names t,
        default EmptyString (email_mapping !! name) = email ->
        exec (process_participants email_mapping session_id (name :: names) t)
             (snap :: shown :: reads)
        = (let '(tr, o, rest) :=
             exec (process_participants email_mapping session_id names
                     (if Py.truthy email then logged_with_email t else logged_blank t))
                  reads in
           ((calls ++ [EvAppend AttendanceLog [VInt member_id; VInt session_id]]) ++ tr,
            o, rest))).
Proof.
  intros Hn Hh Hi shown calls.
  assert (exec (get_or_create_attendee Attendees name email) (snap :: shown :: reads)
          = (calls, Returned (Some member_id), reads)) as Hcall.
  { rewrite run_create by done.
    assert (snap <> []) as Hne by (intros ->; done).
    assert (List.last shown [] = [assigned; name; email]) as Hlast
      by (unfold shown, append_row; apply last_last).
    assert (hd [] shown = attendee_headers) as Hhd
      by (unfold shown, append_row; by destruct snap).
    assert (Py.strip (get (make_record (hd [] shown) (List.last shown [])) "id")
            = Py.strip assigned) as Hid.
    { rewrite Hhd, Hlast. by destruct (attendee_record [assigned; name; email]) as [-> _]. }
    rewrite create_attendee_first_read.
    - rewrite Hid. unfold id_result. by rewrite (int_truthy _ _ Hi), Hi.
    - unfold shown, append_row. rewrite length_app. cbn.
      destruct snap; [done|cbn; lia].
    - rewrite Hid. by eapply int_truthy. }
  split; [exact Hcall|].
  intros Hnz email_mapping session_id names t Hem.
  rewrite process_participants_cons, process_participant_cases, Hem, Hcall.
  unfold outcome_of, trace_of, rest_of. cbn [fst snd].
  apply Z.eqb_neq in Hnz. rewrite Hnz. reflexivity.
Qed.

Lemma new_attendee_is_logged_witness :
  exec (process_participants sample_mapping 7 ["Bo Li"] (Tally 0 0 0))
       [sample_attendees; sample_attendees ++ [["2"; "Bo Li"; EmptyString]]]
  = ([EvGetAll Attendees sample_attendees;
      EvAppend Attendees [VStr EmptyString; VStr "Bo Li"; VStr EmptyString];
      EvSleep 2000;
      EvGetAll Attendees (sample_attendees ++ [["2"; "Bo Li"; EmptyString]]);
      EvAppend AttendanceLog [VInt 2; VInt 7]],
     Returned (Tally 0 1 0), []).
Proof.
  destruct (new_attendee_is_logged "Bo Li" EmptyString sample_attendees "2" 2 [])
    as [_ Hmain]; [vm_compute; done|reflexivity|reflexivity|].
  etrans; [apply Hmain; [done|reflexivity]|]. vm_compute. reflexivity.
Defined.

Lemma read_records_bare snap : (length snap <= 1)%nat -> read_records snap = [].
Proof. destruct snap as [|h [|r rs]]; [done..|]. cbn. lia. Qed.

Lemma not_found_nil name email : not_found name email [].
Proof. unfold not_found. by destruct (Py.truthy email). Qed.

(** A sheet without its header row.  When the first read shows at most one
    row there is nothing to search and the row is appended; when the re-read
    again shows at most one row (the attendee just appended to a sheet that
    was empty), the call takes the sheet for one without data and returns
    [None], whatever id that row has received: [main] counts the participant
    as skipped although the row is now in the sheet. *)
Theorem bare_sheet_append_is_reported_as_failure name email snap shown reads :
  (length snap <= 1)%nat ->
  (length shown <= 1)%nat ->
  let call := exec (get_or_create_attendee Attendees name email)
                (snap :: shown :: reads) in
  call = ([EvGetAll Attendees snap;
           EvAppend Attendees [VStr EmptyString; VStr name; VStr email];
           EvSleep 2000; EvGetAll Attendees shown],
          Returned None, reads)
  /\ forall email_mapping session_id names t,
       default EmptyString (email_mapping !! name) = email ->
       exec (process_participants email_mapping session_id (name :: names) t)
            (snap :: shown :: reads)
       = (let '(tr, o, rest) :=
            exec (process_participants email_mapping session_id names (skipped t)) reads in
          (trace_of call ++ tr, o, rest)).
Proof.
  intros Hsnap Hshown call.
  assert (call = ([EvGetAll Attendees snap;
                   EvAppend Attendees [VStr EmptyString; VStr name; VStr email];
                   EvSleep 2000; EvGetAll Attendees shown],
                  Returned None, reads)) as Hcall.
  { unfold call. rewrite run_create
      by (rewrite read_records_bare by done; apply not_found_nil).
    unfold create_attendee. rewrite truthy_or_empty. cbn [exec hd tl].
    destruct shown as [|h [|r rs]]; [done..|]. cbn in Hshown. lia. }
  split; [done|].
  intros email_mapping session_id names t Hem.
  rewrite skipped_call_in_loop; rewrite Hem; fold call.
  - by rewrite Hcall.
  - left. by rewrite Hcall.
Qed.

Lemma bare_sheet_append_is_reported_as_failure_witness :
  exec (process_participants sample_mapping 7 ["Ana Lee"] (Tally 0 0 0))
       [[]; [["1"; "Ana Lee"; "ana@x.com"]]]
  = ([EvGetAll Attendees [];
      EvAppend Attendees [VStr EmptyString; VStr "Ana Lee"; VStr "ana@x.com"];
      EvSleep 2000; EvGetAll Attendees [["1"; "Ana Lee"; "ana@x.com"]]],
     Returned (Tally 0 0 1), []).
Proof.
  destruct (bare_sheet_append_is_reported_as_failure "Ana Lee" "ana@x.com" []
              [["1"; "Ana Lee"; "ana@x.com"]] []) as [_ Hmain]; [cbn; lia..|].
  etrans; [apply Hmain; reflexivity|]. vm_compute. reflexivity.
Defined.

(** ** Names *)

Lemma name_searches_agree name1 name2 (records : list record) :
  Py.lower (Py.strip name1) = Py.lower (Py.strip name2) ->
  list_find (name_matches name1) records = list_find (name_matches name2) records
  /\ list_find (backfill_matches name1) records
     = list_find (backfill_matches name2) records.
Proof.
  intros H. rewrite !lower_strip in H.
  split; apply list_find_ext; intros rec;
    unfold backfill_matches, name_matches; by rewrite H.
Qed.

Lemma create_attendee_run sheet email reads :
  exists tr o rest,
    forall name,
      exec (create_attendee sheet name email) reads
      = (EvAppend sheet [VStr EmptyString; VStr name; VStr email] :: tr, o, rest).
Proof.
  assert (exists k, forall name,
            create_attendee sheet name email
            = AppendRow sheet [VStr EmptyString; VStr name; VStr email] k) as [k Hk].
  { eexists. intros name. unfold create_attendee. rewrite truthy_or_empty.
    reflexivity. }
  destruct (exec k reads) as [[tr o] rest] eqn:Hrun. exists tr, o, rest.
  intros name. rewrite Hk. cbn [exec]. by rewrite Hrun.
Qed.

(** The name is compared without regard to letter case and to the white
    space around it.  Two calls that differ in the name only, by case or by
    surrounding blanks, stop at the same row for the same answers of the
    sheet: they return the same and make the same calls, but for the name in
    the row that is appended when no row matches, which is the name as it was
    given to each. *)
Theorem name_lookup_ignores_case_and_blanks sheet name1 name2 email reads :
  Py.lower (Py.strip name1) = Py.lower (Py.strip name2) ->
  let run1 := exec (get_or_create_attendee sheet name1 email) reads in
  let run2 := exec (get_or_create_attendee sheet name2 email) reads in
  outcome_of run1 = outcome_of run2
  /\ rest_of run1 = rest_of run2
  /\ (trace_of run1 = trace_of run2
      \/ exists tr,
           not_found name1 email (read_records (hd [] reads))
           /\ trace_of run1
              = EvGetAll sheet (hd [] reads)
                  :: EvAppend sheet [VStr EmptyString; VStr name1; VStr email] :: tr
           /\ trace_of run2
              = EvGetAll sheet (hd [] reads)
                  :: EvAppend sheet [VStr EmptyString; VStr name2; VStr email] :: tr).
Proof.
  intros Hnorm run1 run2. subst run1 run2.
  rewrite (call_any_reads sheet name1), (call_any_reads sheet name2).
  set (snap := hd [] reads). set (later := tl reads).
  destruct (name_searches_agree name1 name2 (read_records snap) Hnorm) as [Hname Hback].
  destruct (found_or_not name1 email (read_records snap))
    as [(idx & rec & [He Hf|He Hf Hb|He Hf])|Hn].
  - rewrite !(run_email_found _ _ _ _ _ idx rec) by done. auto.
  - rewrite !(run_backfill _ _ _ _ _ idx rec) by (done || by rewrite <- Hback). auto.
  - rewrite !(run_name_found _ _ _ _ _ idx rec) by (done || by rewrite <- Hname). auto.
  - assert (not_found name2 email (read_records snap)) as Hn2.
    { unfold not_found in *. destruct (Py.truthy email); by rewrite <- ?Hname, <- ?Hback. }
    rewrite !run_create by done.
    destruct (create_attendee_run sheet email later) as (tr & o & rest & Hrun).
    rewrite !Hrun. split_and!; [done..|]. right. by exists tr.
Qed.

Lemma name_lookup_ignores_case_and_blanks_witness :
  outcome_of (exec (get_or_create_attendee Attendees "  ANA lee " EmptyString)
                [sample_attendees])
  = outcome_of (exec (get_or_create_attendee Attendees "Ana Lee" EmptyString)
                  [sample_attendees]).
Proof.
  apply (name_lookup_ignores_case_and_blanks Attendees "  ANA lee " "Ana Lee").
  vm_compute. reflexivity.
Defined.

(** A participant without an email changes no row: the call with an empty
    email writes nothing, or appends one row of an empty id cell, the name
    and an empty email cell; it never updates a cell. *)
Theorem no_email_no_update sheet name reads :
  let tr := trace_of (exec (get_or_create_attendee sheet name EmptyString) reads) in
  writes tr = []
  \/ writes tr = [EvAppend sheet [VStr EmptyString; VStr name; VStr EmptyString]].
Proof.
  intros tr. subst tr. rewrite call_any_reads.
  destruct (writes_of_call sheet name EmptyString (hd [] reads) (tl reads))
    as [H|[(idx & rec & _ & He & _)|[_ H]]]; [by left|done|by right].
Qed.

(** ** [validate_names_with_llm]: the key and the fences *)

(** Without a key nothing is asked: when the environment variable is unset
    or empty and the file is missing, cannot be read or holds white space
    only, the names come back as they were given, whatever the service would
    have answered. *)
Theorem no_key_keeps_names env names :
  getenv_key env = None \/ getenv_key env = Some EmptyString ->
  dotenv_file env = NoFile \/ dotenv_file env = ReadRaises
  \/ (exists text, dotenv_file env = FileContent text /\ blank text) ->
  validate_names_with_llm env names = names_value names.
Proof.
  intros Hkey Hfile. unfold validate_names_with_llm.
  destruct names as [|name names]; [done|].
  assert (find_api_key env = None \/ find_api_key env = Some EmptyString) as Hfind.
  { unfold find_api_key.
    assert (default EmptyString (getenv_key env) = EmptyString) as ->
      by (by destruct Hkey as [-> | ->]).
    cbn [Py.truthy].
    destruct Hfile as [-> | [-> | (text & -> & Hb)]]; [by right|by left|].
    right. unfold blank in Hb. apply truthy_false in Hb. by rewrite Hb. }
  by destruct Hfind as [-> | ->].
Qed.

Lemma no_key_keeps_names_witness :
  validate_names_with_llm
    (LlmEnv None (FileContent "  ") (post inventive_service)
       (json_loads inventive_service)) ["Ana Lee"]
  = names_value ["Ana Lee"].
Proof.
  apply no_key_keeps_names.
  - by left.
  - right; right. exists "  ". split; [reflexivity|]. vm_compute. reflexivity.
Defined.

Lemma split_go_skip sep q : forall cur rest,
  Py.split_go sep (String.length q) cur (q +:+ rest) = Py.split_go sep 0 cur rest.
Proof.
  induction q as [|x q IH]; intros cur rest; [done|].
  rewrite append_cons. cbn [String.length Py.split_go]. apply IH.
Qed.

(** [text.split(sep)]: the piece before the first separator, then the
    pieces of what follows it. *)
Lemma split_cons c sep p rest :
  Py.contains (String c EmptyString) p = false ->
  Py.split (String c sep) (p +:+ String c sep +:+ rest)
  = p :: Py.split (String c sep) rest.
Proof.
  intros Hp. unfold Py.split. rewrite split_go_prefix by done.
  pose proof (startswith_append (String c sep) rest) as Hs.
  rewrite append_cons in Hs |- *. cbn [Py.split_go Py.rev_string].
  rewrite Hs.
  replace (String.length (String c sep) - 1)%nat with (String.length sep)
    by (cbn [String.length]; lia).
  by rewrite split_go_skip, rev_string_involutive.
Qed.

(** What is handed to [json.loads].  A content without a fence is trimmed.
    Of a content with fences the text between the first fence and the next
    one is taken (up to the end when there is no other), a leading "json" is
    dropped and the rest is trimmed; what stands before the first fence and
    after the second is thrown away. *)
Theorem unfence_takes_the_first_block :
  (forall content, Py.contains fence content = false ->
                   unfence content = Py.strip content)
  /\ (forall before block after,
        Py.contains "`" before = false ->
        Py.contains "`" block = false ->
        unfence (before +:+ fence +:+ block +:+ fence +:+ after)
        = Py.strip (if Py.startswith "json" block then Py.drop 4 block else block)
        /\ unfence (before +:+ fence +:+ block)
           = Py.strip (if Py.startswith "json" block then Py.drop 4 block else block)).
Proof.
  split.
  - intros content H. unfold unfence. by rewrite H.
  - intros before block after Hbefore Hblock. unfold unfence, fence.
    rewrite !contains_append.
    rewrite !(split_cons "`" "``" before) by done.
    rewrite (split_cons "`" "``" block) by done.
    rewrite (split_none "`" "``" block) by done.
    done.
Qed.

Lemma unfence_takes_the_first_block_witness :
  unfence ("Here you are: " +:+ fence +:+ "json [1, 2] " +:+ fence +:+ " Bye.")
  = "[1, 2]".
Proof.
  destruct unfence_takes_the_first_block as [_ H].
  destruct (H "Here you are: " "json [1, 2] " " Bye.") as [-> _];
    vm_compute; reflexivity.
Defined.

(** ** Dates: what is accepted and what is not *)

Section date_fields.
Import Strptime.

Lemma space_facts c :
  Py.isspace c = true -> c <> ","%char /\ Py.digit c = None.
Proof. destruct c as [[] [] [] [] [] [] [] []]; vm_compute; intros; by split. Qed.

Lemma lstrip_gap b rest :
  all_space b = true -> Py.lstrip (b +:+ rest) = Py.lstrip rest.
Proof.
  induction b as [|c b IH]; [done|]. cbn [all_space]. intros [Hc Hb]%andb_true_iff.
  rewrite append_cons. cbn [Py.lstrip]. rewrite Hc. by apply IH.
Qed.

Lemma blanks_gap b rest :
  gap b = true -> Py.lstrip rest = rest -> blanks (b +:+ rest) = Some rest.
Proof.
  unfold gap. intros [Ht Hb]%andb_true_iff Hrest.
  destruct b as [|c b]; [done|]. cbn [all_space] in Hb.
  apply andb_true_iff in Hb as [Hc Hb].
  rewrite append_cons. cbn [blanks]. by rewrite Hc, lstrip_gap, Hrest.
Qed.

Lemma gap_no_comma b : all_space b = true -> Py.contains "," b = false.
Proof.
  induction b as [|c b IH]; [done|]. cbn [all_space]. intros [Hc Hb]%andb_true_iff.
  destruct (space_facts c Hc) as [Hne _].
  cbn [Py.contains Py.startswith]. destruct (ascii_dec "," c) as [Heq|_]; [congruence|].
  cbn [orb]. by apply IH.
Qed.

Lemma gap_cons b : gap b = true -> exists c b', b = String c b' /\ Py.isspace c = true.
Proof.
  unfold gap. destruct b as [|c b]; [done|]. cbn [Py.truthy all_space andb].
  intros [Hc _]%andb_true_iff. by exists c, b.
Qed.

Lemma day_of_month_text day text b rest :
  1 <= day <= 31 -> day_text day text -> gap b = true ->
  day_of_month (text +:+ b +:+ rest) = Some (day, b +:+ rest).
Proof.
  intros Hday [->|[Hle ->]] Hb; [by apply day_of_month_pad2|].
  destruct (gap_cons b Hb) as (c & b' & -> & Hc).
  destruct (space_facts c Hc) as [_ Hd].
  rewrite !append_cons, append_nil. unfold day_of_month. rewrite Hd.
  destruct (digit_char_facts day) as (Hdigit & _); [lia|].
  rewrite Hdigit. cbn [mbind option_bind].
  replace (1 <=? day) with true by (symmetry; apply Z.leb_le; lia).
  by destruct (digit_char day).
Qed.

Lemma lstrip_day_text day text rest :
  0 <= day <= 31 -> day_text day text -> Py.lstrip (text +:+ rest) = text +:+ rest.
Proof.
  intros Hday [->|[Hle ->]]; [apply lstrip_pad2|].
  rewrite append_cons. cbn [Py.lstrip].
  by destruct (digit_char_facts day) as (_ & -> & _); [lia|].
Qed.

Lemma contains_comma_day_text day text :
  0 <= day <= 31 -> day_text day text -> Py.contains "," text = false.
Proof.
  intros Hday [->|[Hle ->]]; [apply contains_comma_pad2|].
  by destruct (digit_char_facts day) as (_ & _ & ->); [lia|].
Qed.

(** The fields of a date, with any white space between them. *)
Lemma strptime_fields weekday month day text year b1 b2 b3 i j :
  index_from 0 (Py.lower weekday) a_weekday = Some i ->
  index_from 0 (Py.lower month) a_month = Some j ->
  gap b1 = true -> gap b2 = true -> gap b3 = true ->
  1 <= day <= 31 -> day_text day text -> 0 <= year <= 9999 ->
  let date_part := weekday +:+ b1 +:+ text +:+ b2 +:+ month +:+ b3 +:+ pad4 year in
  strptime date_part
  = (if (1 <=? year) && (day <=? days_in_month year (j + 1))
     then Some (year, j + 1, day) else None)
  /\ Py.contains "," date_part = false
  /\ Py.strip date_part = date_part.
Proof.
  intros Hw Hm H1 H2 H3 Hday Htext Hyear date_part.
  destruct (abbreviation_facts a_weekday weekday i (or_introl eq_refl) Hw)
    as (Hwa & Hwc & Hwl).
  destruct (abbreviation_facts a_month month j (or_intror eq_refl) Hm)
    as (Hma & Hmc & Hml).
  assert (forall b, gap b = true -> all_space b = true) as Hall
    by (unfold gap; by intros b [_ ?]%andb_true_iff).
  split_and!.
  - unfold date_part. rewrite <- (append_empty_r (pad4 year)).
    unfold strptime. rewrite Hwa. cbn [mbind option_bind].
    rewrite blanks_gap by (done || (apply (lstrip_day_text day); [lia|done])).
    cbn [mbind option_bind].
    rewrite (day_of_month_text day) by done. cbn [mbind option_bind].
    rewrite blanks_gap by done. cbn [mbind option_bind].
    rewrite Hma. cbn [mbind option_bind].
    rewrite blanks_gap by (done || apply lstrip_pad4). cbn [mbind option_bind].
    rewrite four_digits_pad4 by lia. cbn [mbind option_bind Py.truthy].
    done.
  - unfold date_part.
    rewrite !contains_char_append, Hwc, Hmc, contains_comma_pad4,
      (contains_comma_day_text day text), !gap_no_comma by (auto || lia).
    reflexivity.
  - unfold Py.strip, date_part. rewrite Hwl.
    rewrite <- !append_assoc. apply rstrip_append; [|apply rstrip_pad4].
    unfold pad4. discriminate.
Qed.

End date_fields.

(** The fields of a date may be separated by any white space, and the day
    may be written without its leading zero: for a day name and a month name
    of three letters in any letter case, a day that exists in that month and
    a year of four digits from 1000 on, the result is the same [YYYY-MM-DD]
    as for the date written with single blanks and two digits. *)
Theorem date_fields_may_be_spaced_and_unpadded
    weekday month day text year b1 b2 b3 suffix i j :
  Strptime.index_from 0 (Py.lower weekday) Strptime.a_weekday = Some i ->
  Strptime.index_from 0 (Py.lower month) Strptime.a_month = Some j ->
  gap b1 = true -> gap b2 = true -> gap b3 = true ->
  day_text day text ->
  1 <= day <= Strptime.days_in_month year (j + 1) ->
  1000 <= year <= 9999 ->
  parse_quiz_date
    ((weekday +:+ b1 +:+ text +:+ b2 +:+ month +:+ b3 +:+ Strptime.pad4 year)
     +:+ "," +:+ suffix)
  = Returned (Strptime.pad4 year +:+ "-" +:+ Strptime.pad2 (j + 1) +:+ "-"
              +:+ Strptime.pad2 day).
Proof.
  intros Hw Hm H1 H2 H3 Htext Hday Hyear.
  pose proof (days_in_month_le year (j + 1)).
  destruct (strptime_fields weekday month day text year b1 b2 b3 i j)
    as (Hparse & Hcomma & Hstrip); [done..|lia|done|lia|].
  rewrite parse_quiz_date_suffix by done.
  unfold parse_quiz_date. rewrite (split_none "," EmptyString) by done.
  cbn [hd]. rewrite Hstrip, Hparse.
  replace (1 <=? year) with true by (symmetry; apply Z.leb_le; lia).
  replace (day <=? Strptime.days_in_month year (j + 1)) with true
    by (symmetry; apply Z.leb_le; lia).
  cbn [andb]. unfold Strptime.strftime. rewrite year_digits_pad4 by lia. reflexivity.
Qed.

Lemma date_fields_may_be_spaced_and_unpadded_witness :
  parse_quiz_date "Mon  3   mar 2025, 10:00 AM" = Returned "2025-03-03".
Proof.
  refine (date_fields_may_be_spaced_and_unpadded "Mon" "mar" 3 "3" 2025
            "  " "   " " " " 10:00 AM" 0 2 eq_refl eq_refl eq_refl eq_refl eq_refl
            _ _ _).
  - right. split; [lia|reflexivity].
  - vm_compute. split; discriminate.
  - lia.
Defined.

(** A date that does not exist is refused: for the same way of writing, a
    day past the end of the month (30 February, 31 April, 29 February of a
    year that is not a leap year) or the year 0000 makes [parse_quiz_date]
    raise [ValueError]. *)
Theorem impossible_date_raises
    weekday month day text year b1 b2 b3 suffix i j :
  Strptime.index_from 0 (Py.lower weekday) Strptime.a_weekday = Some i ->
  Strptime.index_from 0 (Py.lower month) Strptime.a_month = Some j ->
  gap b1 = true -> gap b2 = true -> gap b3 = true ->
  day_text day text ->
  1 <= day <= 31 ->
  0 <= year <= 9999 ->
  year = 0 \/ Strptime.days_in_month year (j + 1) < day ->
  parse_quiz_date
    ((weekday +:+ b1 +:+ text +:+ b2 +:+ month +:+ b3 +:+ Strptime.pad4 year)
     +:+ "," +:+ suffix)
  = Raised ValueError.
Proof.
  intros Hw Hm H1 H2 H3 Htext Hday Hyear Hbad.
  destruct (strptime_fields weekday month day text year b1 b2 b3 i j)
    as (Hparse & Hcomma & Hstrip); [done..|].
  rewrite parse_quiz_date_suffix by done.
  unfold parse_quiz_date. rewrite (split_none "," EmptyString) by done.
  cbn [hd]. rewrite Hstrip, Hparse.
  replace ((1 <=? year) && (day <=? Strptime.days_in_month year (j + 1))) with false;
    [done|].
  symmetry. apply andb_false_iff.
  destruct Hbad as [-> | Hlt]; [by left|right; apply Z.leb_gt; lia].
Qed.

Lemma impossible_date_raises_witness :
  parse_quiz_date "Sat 29 Feb 2025, 10:00 AM" = Raised ValueError.
Proof.
  refine (impossible_date_raises "Sat" "Feb" 29 "29" 2025 " " " " " " " 10:00 AM" 5 1
            eq_refl eq_refl eq_refl eq_refl eq_refl _ _ _ _).
  - by left.
  - lia.
  - lia.
  - right. vm_compute. reflexivity.
Defined.

Section dates_read.
Import Strptime.

Lemma index_from_bounds names : forall k x i,
  index_from k x names = Some i -> k <= i < k + Z.of_nat (length names).
Proof.
  induction names as [|n names IH]; intros k x i H; [done|].
  cbn [index_from length] in *. destruct (decide (n = x)) as [_|_].
  - injection H as <-. lia.
  - apply IH in H. lia.
Qed.

Lemma digit_bounds c d : Py.digit c = Some d -> 0 <= d <= 9.
Proof.
  unfold Py.digit. destruct (_ && _)%N eqn:H; [|done]. intros [= <-].
  apply andb_true_iff in H as [H1 H2]. apply N.leb_le in H1, H2. lia.
Qed.

Lemma abbreviation_bounds names s i rest :
  abbreviation names s = Some (i, rest) -> 0 <= i < Z.of_nat (length names).
Proof.
  unfold abbreviation. destruct s as [|a [|b [|c s]]]; try done.
  destruct (index_from _ _ _) as [k|] eqn:H; [|done]. cbn. intros [= <- _].
  apply index_from_bounds in H. lia.
Qed.

Lemma day_of_month_bounds s day rest :
  day_of_month s = Some (day, rest) -> 1 <= day <= 31.
Proof.
  assert (forall a r,
    (d ← Py.digit a; if 1 <=? d then Some (d, r) else None) = Some (day, rest) ->
    1 <= day <= 31) as Hone.
  { intros a r. destruct (Py.digit a) as [d|] eqn:Hd; [|done]. cbn.
    destruct (1 <=? d) eqn:Hle; [|done]. intros [= <- _].
    apply Z.leb_le in Hle. apply digit_bounds in Hd. lia. }
  unfold day_of_month. destruct s as [|a [|b s]]; [done|apply Hone|].
  remember (d ← Py.digit a; if 1 <=? d then Some (d, String b s) else None)
    as one eqn:Hone_eq.
  assert (one = Some (day, rest) -> 1 <= day <= 31) as Hone'
    by (subst one; apply Hone).
  clear Hone_eq.
  destruct (Py.digit a) as [x|] eqn:Hx; [|exact Hone'].
  destruct (Py.digit b) as [y|] eqn:Hy; [|exact Hone'].
  destruct (_ || _) eqn:Hcase; [|exact Hone'].
  intros [= <- _]. apply digit_bounds in Hx, Hy.
  repeat (apply orb_true_iff in Hcase as [Hcase|Hcase]);
    apply andb_true_iff in Hcase as [H1 H2];
    rewrite ?Z.eqb_eq, ?Z.leb_le in H1, H2; lia.
Qed.

Lemma four_digits_bounds s year rest :
  four_digits s = Some (year, rest) -> 0 <= year <= 9999.
Proof.
  unfold four_digits. destruct s as [|a [|b [|c [|d s]]]]; try done.
  destruct (Py.digit a) as [x3|] eqn:H3; [|done].
  destruct (Py.digit b) as [x2|] eqn:H2; [|done].
  destruct (Py.digit c) as [x1|] eqn:H1; [|done].
  destruct (Py.digit d) as [x0|] eqn:H0; [|done].
  cbn. intros [= <- _]. apply digit_bounds in H3, H2, H1, H0. lia.
Qed.

Lemma strptime_exists s date : strptime s = Some date -> date_exists date.
Proof.
  unfold strptime.
  destruct (abbreviation a_weekday s) as [[i s1]|]; [|done]. cbn [mbind option_bind].
  destruct (blanks s1) as [s2|]; [|done]. cbn [mbind option_bind].
  destruct (day_of_month s2) as [[day s3]|] eqn:Hday; [|done]. cbn [mbind option_bind].
  destruct (blanks s3) as [s4|]; [|done]. cbn [mbind option_bind].
  destruct (abbreviation a_month s4) as [[m s5]|] eqn:Hmonth; [|done].
  cbn [mbind option_bind].
  destruct (blanks s5) as [s6|]; [|done]. cbn [mbind option_bind].
  destruct (four_digits s6) as [[year s7]|] eqn:Hyear; [|done].
  cbn [mbind option_bind].
  destruct (Py.truthy s7); [done|].
  destruct (_ && _) eqn:Hvalid; [|done]. intros [= <-].
  apply andb_true_iff in Hvalid as [Hy Hd]. apply Z.leb_le in Hy, Hd.
  apply day_of_month_bounds in Hday. apply abbreviation_bounds in Hmonth.
  apply four_digits_bounds in Hyear. cbn [a_month length] in Hmonth.
  unfold date_exists. lia.
Qed.

End dates_read.

Lemma length_append a b :
  String.length (a +:+ b) = (String.length a + String.length b)%nat.
Proof.
  induction a as [|c a IH]; [done|]. rewrite append_cons. cbn [String.length].
  by rewrite IH.
Qed.

Lemma year_digits_length year :
  1 <= year -> (String.length (Strptime.year_digits year) = 4%nat <-> 1000 <= year).
Proof.
  intros Hy. unfold Strptime.year_digits.
  destruct (year <? 10) eqn:H1;
    [apply Z.ltb_lt in H1; cbn [String.length]; split; intros; [done|lia]|].
  destruct (year <? 100) eqn:H2;
    [apply Z.ltb_lt in H2; cbn [String.length Strptime.pad2]; split; intros; [done|lia]|].
  destruct (year <? 1000) eqn:H3;
    [apply Z.ltb_lt in H3; cbn [String.length Strptime.pad2]; split; intros; [done|lia]|].
  apply Z.ltb_ge in H3. done.
Qed.

(** Only dates that exist come back, and how they are printed: whenever
    [parse_quiz_date] returns, what stands before the first comma has been
    read as a year from 1 to 9999, a month from 1 to 12 and a day that this
    month has in this year; the result is the year as the C library prints
    it, a hyphen, the month on two digits, a hyphen and the day on two
    digits, which is the year on four digits, and ten characters in all,
    exactly from the year 1000 on (the year 999 gives 999-03-03).  Any other
    text makes it raise [ValueError]. *)
Theorem returned_dates_exist date_string :
  match parse_quiz_date date_string with
  | Returned iso =>
      exists year month day,
        Strptime.strptime (Py.strip (hd EmptyString (Py.split "," date_string)))
        = Some (year, month, day)
        /\ date_exists (year, month, day)
        /\ iso = Strptime.year_digits year +:+ "-" +:+ Strptime.pad2 month +:+ "-"
                 +:+ Strptime.pad2 day
        /\ (1000 <= year ->
            iso = Strptime.pad4 year +:+ "-" +:+ Strptime.pad2 month +:+ "-"
                  +:+ Strptime.pad2 day)
        /\ (String.length iso = 10%nat <-> 1000 <= year)
  | Raised e => e = ValueError
  end.
Proof.
  unfold parse_quiz_date.
  destruct (Strptime.strptime _) as [[[year month] day]|] eqn:H; [|done].
  pose proof (strptime_exists _ _ H) as Hexists.
  exists year, month, day. unfold Strptime.strftime.
  split_and!; [done..| |].
  - intros Hy. by rewrite year_digits_pad4.
  - rewrite !length_append. cbn [String.length Strptime.pad2].
    destruct Hexists as [[Hy _] _].
    destruct (year_digits_length year Hy) as [H1 H2].
    split; intros Hlen; [apply H1; lia|rewrite H2 by done; lia].
Qed.

(** The year 999, read from its four digits, comes back on three. *)
Lemma returned_dates_exist_witness :
  parse_quiz_date "Mon 03 Mar 0999, 10:00 AM" = Returned "999-03-03"
  /\ String.length "999-03-03" <> 10%nat.
Proof.
  split; [vm_compute; reflexivity|].
  pose proof (returned_dates_exist "Mon 03 Mar 0999, 10:00 AM") as H.
  change (parse_quiz_date "Mon 03 Mar 0999, 10:00 AM")
    with (Returned (A := string) "999-03-03") in H.
  cbv beta iota in H.
  destruct H as (year & month & day & Hread & _ & _ & _ & Hlen).
  vm_compute in Hread. injection Hread as <- <- <-.
  intros Hten. apply Hlen in Hten. lia.
Defined.

(** ** [extract_emails]: the row and the columns *)

(** No email question, no mapping: [extract_emails] raises [ValueError]
    exactly when no row has a question that the pattern finds; so it does
    for a sheet without rows and for a sheet without a Question column,
    whose rows all have the empty question. *)
Theorem no_email_question_raises df :
  (extract_emails df = Raised ValueError
   <-> Forall (fun row => email_pattern_search (question_of df row) = false) (rows df))
  /\ (column_index "Question" (columns df) = None ->
      extract_emails df = Raised ValueError).
Proof.
  assert (extract_emails df = Raised ValueError
          <-> Forall (fun row => email_pattern_search (question_of df row) = false)
                (rows df)) as Hiff.
  { unfold extract_emails.
    destruct (list_find _ (rows df)) as [[k email_row]|] eqn:Hfind.
    - split; [done|]. intros Hall.
      apply list_find_Some in Hfind as (Hl & Hm & _).
      apply list_elem_of_lookup_2 in Hl.
      rewrite Forall_forall in Hall. by rewrite (Hall _ Hl) in Hm.
    - split; [|done]. intros _. apply Forall_forall. intros row Hrow.
      eapply list_find_None in Hfind. rewrite Forall_forall in Hfind.
      specialize (Hfind row Hrow). by destruct (email_pattern_search _). }
  split; [exact Hiff|].
  intros Hq. apply Hiff. apply Forall_forall. intros row _.
  unfold question_of. by rewrite Hq.
Qed.

Lemma no_email_question_raises_witness :
  extract_emails (DataFrame ["Jane Doe (jane)"] [["jane@x.com"]]) = Raised ValueError.
Proof. by apply (proj2 (no_email_question_raises _)). Defined.

(** The first email question is the one used: when a row whose question the
    pattern finds comes after rows whose questions it does not find, the
    mapping is read from that row, whatever the rows after it hold. *)
Theorem first_email_row_is_used cols before email_row after :
  Forall (fun row => email_pattern_search (question_of (DataFrame cols []) row) = false)
    before ->
  email_pattern_search (question_of (DataFrame cols []) email_row) = true ->
  extract_emails (DataFrame cols (before ++ email_row :: after))
  = Returned (collect_emails cols email_row ∅).
Proof.
  intros Hbefore Hrow. unfold extract_emails, question_of in *.
  cbn [rows columns] in *.
  rewrite list_find_app_r.
  - cbn [list_find]. rewrite decide_True by done. done.
  - apply list_find_None. eapply Forall_impl; [exact Hbefore|].
    cbn. intros row ->. done.
Qed.

Lemma first_email_row_is_used_witness :
  extract_emails
    (DataFrame ["Question"; "Jane Doe (jane)"]
       [["Your name"; "Jane"]; ["Your e-mail"; "jane@x.com"]; ["Email again"; "j@y.org"]])
  = Returned {["Jane Doe" := "jane@x.com"]}.
Proof.
  etrans.
  - apply (first_email_row_is_used ["Question"; "Jane Doe (jane)"]
             [["Your name"; "Jane"]] ["Your e-mail"; "jane@x.com"]
             [["Email again"; "j@y.org"]]).
    + repeat constructor.
    + vm_compute. reflexivity.
  - vm_compute. reflexivity.
Defined.

Lemma collect_emails_app cols1 : forall cells1 cols2 cells2 acc,
  length cells1 = length cols1 ->
  collect_emails (cols1 ++ cols2) (cells1 ++ cells2) acc
  = collect_emails cols2 cells2 (collect_emails cols1 cells1 acc).
Proof.
  induction cols1 as [|col cols1 IH]; intros [|cell cells1] cols2 cells2 acc Hlen;
    try done.
  cbn [app collect_emails hd tl]. apply IH. by injection Hlen.
Qed.

(** Columns that give no accepted address for a name leave its entry. *)
Lemma collect_emails_keeps full_name cols : forall cells acc,
  (forall k col, cols !! k = Some col ->
                 col = "Question" \/ column_name col <> Some full_name
                 \/ acceptable (email_candidate (nth k cells "nan")) = false) ->
  collect_emails cols cells acc !! full_name = acc !! full_name.
Proof.
  induction cols as [|col cols IH]; intros cells acc Hno; [done|].
  cbn [collect_emails]. rewrite IH.
  - destruct (Hno 0%nat col eq_refl) as [->|[Hn|Ha]].
    + by rewrite decide_True.
    + destruct (decide (col = "Question")); [done|].
      destruct (column_name col) as [other|]; [|done].
      destruct (acceptable _); [|done].
      rewrite lookup_insert_ne; [done|]. congruence.
    + destruct (decide (col = "Question")); [done|].
      destruct (column_name col) as [other|]; [|done].
      replace (hd "nan" cells) with (nth 0 cells "nan") by (by destruct cells).
      by rewrite Ha.
  - intros k col' Hk. destruct (Hno (S k) col' Hk) as [?|[?|Ha]]; auto.
    right; right. destruct cells as [|c cells]; [by destruct k|exact Ha].
Qed.

(** Two columns for one name: the later address wins.  The entry of a name
    is the address of the last column of that name whose cell gives an
    accepted address; columns of the name further right whose cells give
    none leave it in place. *)
Theorem last_accepted_column_wins
    before col after cells_before cell cells_after full_name :
  length cells_before = length before ->
  col <> "Question" ->
  column_name col = Some full_name ->
  acceptable (email_candidate cell) = true ->
  (forall k col', after !! k = Some col' ->
                  col' = "Question" \/ column_name col' <> Some full_name
                  \/ acceptable (email_candidate (nth k cells_after "nan")) = false) ->
  collect_emails (before ++ col :: after) (cells_before ++ cell :: cells_after) ∅
    !! full_name
  = Some (email_candidate cell).
Proof.
  intros Hlen Hq Hn Ha Hafter.
  rewrite collect_emails_app by done. cbn [collect_emails hd tl].
  rewrite collect_emails_keeps by done.
  rewrite decide_False by done. rewrite Hn, Ha. apply lookup_insert_eq.
Qed.

Lemma last_accepted_column_wins_witness :
  extract_emails
    (DataFrame ["Question"; "Jane Doe (jane1)"; "Jane Doe (jane2)"; "Jane Doe (jane3)"]
       [["Your email"; "jane@x.com"; "doe@y.org"; "none"]])
  = Returned {["Jane Doe" := "doe@y.org"]}
  /\ collect_emails
       ["Question"; "Jane Doe (jane1)"; "Jane Doe (jane2)"; "Jane Doe (jane3)"]
       ["Your email"; "jane@x.com"; "doe@y.org"; "none"] ∅ !! "Jane Doe"
     = Some (email_candidate "doe@y.org").
Proof.
  split; [vm_compute; reflexivity|].
  apply (last_accepted_column_wins ["Question"; "Jane Doe (jane1)"] "Jane Doe (jane2)"
           ["Jane Doe (jane3)"] ["Your email"; "jane@x.com"] "doe@y.org" ["none"]
           "Jane Doe"); [reflexivity|discriminate|vm_compute; reflexivity..|].
  intros [|k] col' Hk; [|done]. injection Hk as <-.
  right; right. vm_compute. reflexivity.
Defined.

(** ** [extract_participant_data] *)

(** The loop with the set read off the list. *)
Lemma collect_participants_seen df rows : forall participants seen_names,
  (forall x, x ∈ seen_names <-> x ∈ participants) ->
  collect_participants df rows participants seen_names
  = collect_participants df rows participants (list_to_set participants).
Proof.
  intros participants seen_names H.
  assert (seen_names = list_to_set participants) as ->; [|done].
  apply set_eq. intros x. rewrite H. by rewrite elem_of_list_to_set.
Qed.

Lemma collect_participants_cons df row rows participants :
  collect_participants df (row :: rows) participants (list_to_set participants)
  = match participant_name df row with
    | Some full_name =>
        if decide (full_name ∈ participants)
        then collect_participants df rows participants (list_to_set participants)
        else collect_participants df rows (participants ++ [full_name])
               (list_to_set (participants ++ [full_name]))
    | None => collect_participants df rows participants (list_to_set participants)
    end.
Proof.
  cbn [collect_participants]. destruct (participant_name df row) as [x|]; [|done].
  destruct (decide (x ∈ participants)) as [Hin|Hout].
  - rewrite decide_True; [done|]. by apply elem_of_list_to_set.
  - rewrite decide_False by (by rewrite elem_of_list_to_set).
    apply collect_participants_seen. intros y.
    rewrite elem_of_union, elem_of_singleton, elem_of_list_to_set, elem_of_app,
      list_elem_of_singleton. tauto.
Qed.

Lemma collect_participants_spec df rows : forall participants,
  NoDup participants ->
  let result := collect_participants df rows participants (list_to_set participants) in
  NoDup result
  /\ (forall x, x ∈ result
                <-> x ∈ participants
                    \/ exists row, row ∈ rows /\ participant_name df row = Some x).
Proof.
  induction rows as [|row rows IH]; intros participants Hnd result.
  { split; [done|]. intros x. split; [by left|]. intros [?|(row & Hin & _)]; [done|].
    by apply elem_of_nil in Hin. }
  subst result. rewrite collect_participants_cons.
  assert (forall x, (exists r, r ∈ row :: rows /\ participant_name df r = Some x)
                    <-> participant_name df row = Some x
                        \/ exists r, r ∈ rows /\ participant_name df r = Some x) as Hex.
  { intros x. split.
    - intros (r & [->|Hin]%elem_of_cons & Hr); [by left|right; by exists r].
    - intros [Hr|(r & Hin & Hr)]; [exists row|exists r]; split; try done;
        apply elem_of_cons; auto. }
  destruct (participant_name df row) as [name|] eqn:Hname.
  - destruct (decide (name ∈ participants)) as [Hin|Hout].
    + destruct (IH participants Hnd) as [Hnd' Hmem]. split; [done|].
      intros x. rewrite Hmem, Hex. split; [tauto|].
      intros [?|[[= <-]|?]]; auto.
    + assert (NoDup (participants ++ [name])) as Hnd2.
      { apply NoDup_app. split_and!; [done| |apply NoDup_singleton].
        intros y Hy ->%list_elem_of_singleton. done. }
      destruct (IH _ Hnd2) as [Hnd' Hmem]. split; [done|].
      intros x. rewrite Hmem, Hex, elem_of_app, list_elem_of_singleton. split.
      * intros [[? | ->] | ?]; auto.
      * intros [?|[[= <-]|?]]; auto.
  - destruct (IH participants Hnd) as [Hnd' Hmem]. split; [done|].
    intros x. rewrite Hmem, Hex. split; [tauto|]. intros [?|[?|?]]; auto. done.
Qed.

(** Each participant once: the list has no name twice, and it holds exactly
    the names that the rows give (the trimmed first name, followed by a blank
    and the trimmed last name when there is one), a row without a first name
    giving none. *)
Theorem participants_are_listed_once df :
  NoDup (extract_participant_data df)
  /\ forall full_name,
       full_name ∈ extract_participant_data df
       <-> exists row, row ∈ rows df /\ participant_name df row = Some full_name.
Proof.
  destruct (collect_participants_spec df (rows df) [] (NoDup_nil_2)) as [Hnd Hmem].
  split; [exact Hnd|]. intros x. unfold extract_participant_data.
  change (∅ : gset string) with (list_to_set (C := gset string) (@nil string)).
  rewrite Hmem. split; [|by right]. intros [Hin|?]; [|done].
  by apply elem_of_nil in Hin.
Qed.

Lemma collect_participants_app df rows1 : forall rows2 participants,
  collect_participants df (rows1 ++ rows2) participants (list_to_set participants)
  = let found := collect_participants df rows1 participants (list_to_set participants) in
    collect_participants df rows2 found (list_to_set found).
Proof.
  induction rows1 as [|row rows1 IH]; intros rows2 participants; [done|].
  cbn [app]. rewrite !collect_participants_cons.
  destruct (participant_name df row) as [x|]; [|apply IH].
  destruct (decide (x ∈ participants)); apply IH.
Qed.

Lemma collect_participants_from df rows : forall participants,
  collect_participants df rows participants (list_to_set participants)
  = participants
    ++ filter (fun x => x ∉ participants) (collect_participants df rows [] ∅).
Proof.
  change (∅ : gset string) with (list_to_set (C := gset string) (@nil string)).
  induction rows as [|row rows IH]; intros participants.
  { cbn. by rewrite app_nil_r. }
  rewrite !collect_participants_cons.
  destruct (participant_name df row) as [x|]; [|apply IH].
  rewrite (decide_False (P := x ∈ [])) by apply not_elem_of_nil. cbn [app].
  rewrite (IH [x]).
  destruct (decide (x ∈ participants)) as [Hin|Hout].
  - rewrite IH. f_equal. cbn [app].
    rewrite filter_cons_False by (intros H; by apply H).
    symmetry. apply list_filter_filter_l.
    intros y Hy ->%list_elem_of_singleton. done.
  - rewrite IH, <- app_assoc. f_equal. cbn [app].
    rewrite filter_cons_True by done. f_equal.
    rewrite list_filter_filter. apply list_filter_iff. intros y.
    rewrite elem_of_app. tauto.
Qed.

Lemma collect_participants_columns df df' rows :
  columns df = columns df' ->
  forall participants seen_names,
    collect_participants df rows participants seen_names
    = collect_participants df' rows participants seen_names.
Proof.
  intros Hcols. induction rows as [|row rows IH]; intros participants seen_names;
    [done|].
  cbn [collect_participants].
  assert (participant_name df row = participant_name df' row) as ->
    by (unfold participant_name, row_get; by rewrite Hcols).
  destruct (participant_name df' row) as [x|]; [|apply IH].
  destruct (decide (x ∈ seen_names)); apply IH.
Qed.

(** The order is that of first appearance, and the list grows with the
    sheet: the participants of a sheet continued by further rows are those
    of the sheet as it was, in the same order, followed by those of the
    further rows that are not among them. *)
Theorem participants_keep_first_appearance cols rows1 rows2 :
  let first := extract_participant_data (DataFrame cols rows1) in
  extract_participant_data (DataFrame cols (rows1 ++ rows2))
  = first
    ++ filter (fun x => x ∉ first) (extract_participant_data (DataFrame cols rows2)).
Proof.
  intros first. subst first. unfold extract_participant_data. cbn [rows].
  rewrite (collect_participants_columns _ (DataFrame cols []) (rows1 ++ rows2)),
    (collect_participants_columns _ (DataFrame cols []) rows1),
    (collect_participants_columns _ (DataFrame cols []) rows2) by done.
  change (∅ : gset string) with (list_to_set (C := gset string) (@nil string)).
  rewrite collect_participants_app. cbn zeta.
  apply collect_participants_from.
Qed.

(** ** Names without white space around them *)

Lemma rstrip_idemp s : Py.rstrip (Py.rstrip s) = Py.rstrip s.
Proof.
  induction s as [|c s IH]; [done|]. cbn [Py.rstrip].
  destruct (Py.rstrip s) as [|d r] eqn:Hr.
  - destruct (Py.isspace c) eqn:Hc; [done|]. cbn [Py.rstrip]. by rewrite Hc.
  - cbn [Py.rstrip] in *. by rewrite IH.
Qed.

Lemma lstrip_head s :
  Py.lstrip s = EmptyString
  \/ exists c s', Py.lstrip s = String c s' /\ Py.isspace c = false.
Proof.
  induction s as [|c s IH]; [by left|]. cbn [Py.lstrip].
  destruct (Py.isspace c) eqn:Hc; [done|]. right. by exists c, s.
Qed.

Lemma rstrip_head c s :
  Py.isspace c = false -> exists s', Py.rstrip (String c s) = String c s'.
Proof.
  intros Hc. cbn [Py.rstrip]. destruct (Py.rstrip s) as [|d r].
  - rewrite Hc. by eexists.
  - by eexists.
Qed.

Lemma strip_facts s :
  Py.rstrip (Py.strip s) = Py.strip s
  /\ (Py.strip s = EmptyString
      \/ exists c s', Py.strip s = String c s' /\ Py.isspace c = false).
Proof.
  unfold Py.strip. split; [apply rstrip_idemp|].
  destruct (lstrip_head s) as [->|(c & s' & -> & Hc)]; [by left|].
  right. destruct (rstrip_head c s' Hc) as [s'' ->]. by exists c, s''.
Qed.

Lemma full_name_trimmed first_field last_field full_name :
  full_name_of (Py.strip first_field) (Py.strip last_field) = Some full_name ->
  full_name <> EmptyString /\ full_name <> "nan" /\ Py.strip full_name = full_name.
Proof.
  unfold full_name_of.
  destruct (strip_facts first_field) as [Hr1 [->|(c & f & Hf & Hc)]]; [done|].
  destruct (Py.truthy (Py.strip first_field) && _) eqn:Hfirst; [|done].
  apply andb_true_iff in Hfirst as [_ Hnan]. apply negb_true_iff in Hnan.
  apply bool_decide_eq_false in Hnan.
  destruct (strip_facts last_field) as [Hr2 Hl].
  destruct (Py.truthy (Py.strip last_field) && _) eqn:Hlast; intros [= <-].
  - apply andb_true_iff in Hlast as [Ht _].
    destruct (Py.strip last_field) as [|l1 l] eqn:Hlf; [done|].
    rewrite Hf. split_and!.
    + by rewrite append_cons.
    + destruct f as [|f1 [|f2 [|f3 f]]]; rewrite ?append_cons, ?append_nil; congruence.
    + unfold Py.strip. rewrite (append_cons c f). cbn [Py.lstrip]. rewrite Hc.
      rewrite <- (append_cons c f), <- append_assoc.
      by apply rstrip_append.
  - split_and!; [by rewrite Hf|done|].
    unfold Py.strip at 1. rewrite Hf at 1. cbn [Py.lstrip]. rewrite Hc, <- Hf.
    exact Hr1.
Qed.

(** No participant is the empty text or the text of an empty cell, and no
    name has white space at either end: every name of the list is other than
    the empty text and than nan, and trimming it changes nothing. *)
Theorem participant_names_are_trimmed df full_name :
  full_name ∈ extract_participant_data df ->
  full_name <> EmptyString /\ full_name <> "nan" /\ Py.strip full_name = full_name.
Proof.
  intros Hin. unfold extract_participant_data in Hin.
  change (∅ : gset string) with (list_to_set (C := gset string) (@nil string)) in Hin.
  apply (collect_participants_spec df (rows df) [] (NoDup_nil_2)) in Hin
    as [Hin|(row & _ & Hname)]; [by apply elem_of_nil in Hin|].
  by eapply full_name_trimmed.
Qed.

Lemma participant_names_are_trimmed_witness :
  "Ana Lee" <> EmptyString /\ "Ana Lee" <> "nan" /\ Py.strip "Ana Lee" = "Ana Lee".
Proof.
  apply (participant_names_are_trimmed
           (DataFrame ["First Name"; "Last Name"] [["  Ana "; " Lee"]; ["nan"; "Li"]])).
  vm_compute. by left.
Defined.

(** A sheet without the column of first names has no participant; one
    without the column of last names has the trimmed first names. *)
Theorem missing_name_columns df :
  (column_index "First Name" (columns df) = None -> extract_participant_data df = [])
  /\ (column_index "Last Name" (columns df) = None ->
      forall full_name,
        full_name ∈ extract_participant_data df ->
        exists row,
          row ∈ rows df /\ full_name = Py.strip (row_get df row "First Name")).
Proof.
  split.
  - intros Hcol. unfold extract_participant_data.
    generalize (∅ : gset string). induction (rows df) as [|row rows IH]; [done|].
    intros seen. cbn [collect_participants].
    unfold participant_name at 1, row_get at 1. rewrite Hcol. cbn. apply IH.
  - intros Hcol full_name Hin. unfold extract_participant_data in Hin.
    change (∅ : gset string) with (list_to_set (C := gset string) (@nil string)) in Hin.
    apply (collect_participants_spec df (rows df) [] (NoDup_nil_2)) in Hin
      as [Hin|(row & Hrow & Hname)]; [by apply elem_of_nil in Hin|].
    exists row. split; [done|].
    assert (row_get df row "Last Name" = EmptyString) as Hlast
      by (unfold row_get; by rewrite Hcol).
    unfold participant_name, full_name_of in Hname. rewrite Hlast in Hname.
    cbn [Py.strip Py.lstrip Py.rstrip Py.truthy andb] in Hname.
    destruct (Py.truthy _ && _); [|done]. by injection Hname.
Qed.

Lemma missing_name_columns_witness :
  extract_participant_data (DataFrame ["Name"; "Score"] [["Ana Lee"; "3"]]) = [].
Proof. by apply (proj1 (missing_name_columns _)). Defined.

(** ** The row the new id is read from *)

(** The id is read from the last row of the sheet as it is read again, be it
    the row just appended or not: when no row matches and the re-read shows
    at least two rows under the columns id, name, email, the last of which
    has a number in its first cell, that number is returned; so if someone
    else has appended a row in between, it is that row's id which comes
    back. *)
Theorem new_id_is_read_from_the_last_row name email snap shown reads member_id :
  not_found name email (read_records snap) ->
  (2 <= length shown)%nat ->
  hd [] shown = attendee_headers ->
  Py.int (Py.strip (nth 0 (List.last shown []) EmptyString)) = Some member_id ->
  exec (get_or_create_attendee Attendees name email) (snap :: shown :: reads)
  = ([EvGetAll Attendees snap;
      EvAppend Attendees [VStr EmptyString; VStr name; VStr email];
      EvSleep 2000; EvGetAll Attendees shown],
     Returned (Some member_id), reads).
Proof.
  intros Hn Hlen Hh Hi. rewrite run_create by done.
  assert (Py.strip (get (make_record (hd [] shown) (List.last shown [])) "id")
          = Py.strip (nth 0 (List.last shown []) EmptyString)) as Hid.
  { rewrite Hh. by destruct (attendee_record (List.last shown [])) as [-> _]. }
  rewrite create_attendee_first_read by (done || (rewrite Hid; by eapply int_truthy)).
  rewrite Hid. unfold id_result. by rewrite (int_truthy _ _ Hi), Hi.
Qed.

Lemma new_id_is_read_from_the_last_row_witness :
  outcome_of
    (exec (get_or_create_attendee Attendees "Bo Li" EmptyString)
       [sample_attendees;
        sample_attendees ++ [["2"; "Bo Li"; EmptyString]; ["3"; "Cy Ng"; "cy@x.com"]]])
  = Returned (Some 3).
Proof.
  rewrite (new_id_is_read_from_the_last_row "Bo Li" EmptyString sample_attendees
             (sample_attendees ++ [["2"; "Bo Li"; EmptyString]; ["3"; "Cy Ng"; "cy@x.com"]])
             [] 3); [reflexivity|vm_compute; done|cbn; lia|reflexivity|reflexivity].
Defined.

(** ** The name in a column label *)

Lemma rev_string_app s : forall acc,
  Py.rev_string acc s = Py.rev_string EmptyString s +:+ acc.
Proof.
  induction s as [|c s IH]; intros acc; [done|]. cbn [Py.rev_string].
  rewrite IH, (IH (String c EmptyString)), append_assoc. done.
Qed.

Lemma lstrip_all_space w : all_space w = true -> Py.lstrip w = EmptyString.
Proof.
  induction w as [|c w IH]; [done|]. cbn [all_space Py.lstrip].
  intros [-> Hw]%andb_true_iff. by apply IH.
Qed.

Lemma rstrip_all_space w : all_space w = true -> Py.rstrip w = EmptyString.
Proof.
  induction w as [|c w IH]; [done|]. cbn [all_space Py.rstrip].
  intros [-> Hw]%andb_true_iff. by rewrite IH.
Qed.

Lemma rstrip_app_space y w : all_space w = true -> Py.rstrip (y +:+ w) = Py.rstrip y.
Proof.
  intros Hw. induction y as [|c y IH]; [by apply rstrip_all_space|].
  rewrite append_cons. cbn [Py.rstrip]. by rewrite IH.
Qed.

Lemma strip_app_space x w : all_space w = true -> Py.strip (x +:+ w) = Py.strip x.
Proof.
  intros Hw. unfold Py.strip. induction x as [|c x IH].
  - by rewrite append_nil, lstrip_all_space.
  - rewrite append_cons. cbn [Py.lstrip]. destruct (Py.isspace c); [exact IH|].
    rewrite <- append_cons. by apply rstrip_app_space.
Qed.

Section column_labels.
Context (b rest : string) (Hgap : gap b = true).

Let tail_of (t : string) : string := t +:+ b +:+ "(" +:+ rest.

Lemma paren_after_gap : Py.startswith "(" (Py.lstrip (tail_of EmptyString)) = true.
Proof.
  unfold tail_of. rewrite append_nil.
  apply andb_true_iff in Hgap as [_ Hall]. by rewrite lstrip_gap.
Qed.

Lemma paren_after_blanks t :
  Py.contains "(" t = false ->
  Py.startswith "(" (Py.lstrip (tail_of t)) = true -> all_space t = true.
Proof.
  unfold tail_of. induction t as [|x t IH]; [done|]. intros Hp.
  apply contains_char_cons in Hp as [Hne Hp].
  rewrite append_cons. cbn [Py.lstrip all_space].
  destruct (Py.isspace x); [by apply IH|].
  cbn [Py.startswith]. by destruct (ascii_dec "(" x).
Qed.

Lemma name_group_spec : forall t taken,
  Py.contains "(" t = false ->
  Py.contains (String line_feed EmptyString) t = false ->
  exists p w,
    t = p +:+ w /\ all_space w = true
    /\ name_group taken (tail_of t) = Some (Py.rev_string EmptyString taken +:+ p).
Proof.
  induction t as [|x t IH]; intros taken Hp Hlf.
  - exists EmptyString, EmptyString. split_and!; [done..|].
    pose proof paren_after_gap as Hparen. unfold tail_of in *.
    rewrite append_nil in *.
    destruct (gap_cons b Hgap) as (c & b' & -> & Hc).
    rewrite append_cons in *. cbn [name_group blanks_then_paren].
    cbn [Py.lstrip] in Hparen. rewrite Hc in Hparen.
    by rewrite Hc, Hparen, append_empty_r.
  - apply contains_char_cons in Hp as [Hne Hp].
    apply contains_char_cons in Hlf as [Hnl Hlf].
    unfold tail_of. rewrite append_cons. cbn [name_group blanks_then_paren].
    fold (tail_of t).
    destruct (Py.isspace x && Py.startswith "(" (Py.lstrip (tail_of t))) eqn:Hstop.
    + apply andb_true_iff in Hstop as [Hx Hparen].
      exists EmptyString, (String x t). split_and!; [done| |by rewrite append_empty_r].
      cbn [all_space]. rewrite Hx. by apply paren_after_blanks.
    + rewrite decide_False by congruence.
      destruct (IH (String x taken) Hp Hlf) as (p & w & -> & Hw & ->).
      exists (String x p), w. split_and!; [done..|].
      cbn [Py.rev_string]. rewrite (rev_string_app taken), append_assoc. done.
Qed.

End column_labels.

(** A column label made of a name, white space and a parenthesis gives the
    name, trimmed: for every name that is not empty and holds no opening
    parenthesis and no line feed, whatever follows the parenthesis. *)
Theorem column_label_gives_the_name name b rest :
  name <> EmptyString ->
  Py.contains "(" name = false ->
  Py.contains (String line_feed EmptyString) name = false ->
  gap b = true ->
  column_name (name +:+ b +:+ "(" +:+ rest) = Some (Py.strip name).
Proof.
  intros Hne Hp Hlf Hb. destruct name as [|c t]; [done|].
  apply contains_char_cons in Hp as [_ Hp].
  apply contains_char_cons in Hlf as [Hnl Hlf].
  rewrite append_cons. cbn [column_name]. rewrite decide_False by congruence.
  destruct (name_group_spec b rest Hb t (String c EmptyString) Hp Hlf)
    as (p & w & -> & Hw & ->).
  cbn [fmap option_fmap option_map Py.rev_string]. rewrite append_cons, append_nil.
  rewrite <- (append_cons c p w). by rewrite strip_app_space.
Qed.

Lemma column_label_gives_the_name_witness :
  column_name "Jane Doe  (jane_d)" = Some "Jane Doe".
Proof.
  apply (column_label_gives_the_name "Jane Doe" "  " "jane_d)");
    [discriminate|reflexivity..].
Defined.

(** ** Which question is the email question *)

Lemma email_pattern_search_app before s :
  email_pattern_at s = true -> email_pattern_search (before +:+ s) = true.
Proof.
  intros Hs. induction before as [|x before IH].
  - rewrite append_nil. destruct s; [done|]. cbn [email_pattern_search]. by rewrite Hs.
  - rewrite append_cons. cbn [email_pattern_search]. rewrite IH. apply orb_true_r.
Qed.

Lemma startswith_nocase_mai mai after :
  Py.lower mai = "mai" -> startswith_nocase "mai" (mai +:+ after) = true.
Proof.
  intros Hmai. destruct mai as [|m [|a [|i [|x mai]]]]; try done.
  unfold startswith_nocase. rewrite !append_cons, append_nil.
  cbn [String.length substring].
  replace (substring 0 0 after) with EmptyString by (by destruct after).
  by rewrite Hmai.
Qed.

(** The pattern asks for an e, at most one hyphen or white-space character,
    and the letters m, a, i, in any letter case and anywhere in the
    question; the l of mail is not needed.  So Email, E-Mail and e mail are
    found, and so is every question in which the letters emai occur, as in
    Remaining. *)
Theorem email_question_spellings before e sep mai after :
  Py.lower_char e = "e"%char ->
  sep = EmptyString \/ sep = "-"
  \/ (exists c, sep = String c EmptyString /\ Py.isspace c = true) ->
  Py.lower mai = "mai" ->
  email_pattern_search (before +:+ String e (sep +:+ mai +:+ after)) = true.
Proof.
  intros He Hsep Hmai. apply email_pattern_search_app.
  pose proof (startswith_nocase_mai mai after Hmai) as Hstart.
  cbn [email_pattern_at]. rewrite bool_decide_eq_true_2 by done. cbn [andb].
  destruct Hsep as [->|[->|(c & -> & Hc)]].
  - by rewrite append_nil, Hstart.
  - rewrite append_cons, append_nil, Hstart.
    rewrite bool_decide_eq_true_2 by done. apply orb_true_r.
  - rewrite append_cons, append_nil, Hstart, Hc.
    rewrite (orb_true_r (bool_decide _)). cbn [andb]. apply orb_true_r.
Qed.

Lemma email_question_spellings_witness :
  email_pattern_search "Your E-Mail address" = true
  /\ email_pattern_search "Remaining time" = true.
Proof.
  split.
  - apply (email_question_spellings "Your " "E" "-" "Mai" "l address");
      [reflexivity|by right; left|reflexivity].
  - apply (email_question_spellings "R" "e" EmptyString "mai" "ning time");
      [reflexivity|by left|reflexivity].
Defined.

(** ** Ids and names over many calls *)

Lemma sheet_after_call_frame t c :
  let after := sheet_after_call t c in
  (length t <= length after <= length t + 1)%nat
  /\ forall row col, (1 <= row <= length t)%nat -> (1 <= col)%nat -> col <> 3%nat ->
                     cell after row col = cell t row col.
Proof.
  intros after. subst after. unfold sheet_after_call.
  destruct (sheet_after_cases Attendees (call_name c) (call_email c) t (later_reads c)
              (assigned c))
    as [-> | [(idx & rec & Hb & ->) | ->]].
  - split; [lia|done].
  - apply list_find_Some in Hb as (Hl & _ & _).
    apply read_records_lookup in Hl as [Hlen _].
    rewrite length_update_cell by lia. split; [lia|].
    intros row col Hrow Hcol Hne. rewrite cell_update_cell by lia.
    rewrite decide_False; [done|]. by intros [_ ?].
  - rewrite length_app. cbn [length]. split; [lia|].
    intros row col Hrow _ _. by apply cell_app.
Qed.

(** Ids and names stay, and no row goes: after any sequence of calls, each
    reading the sheet as the calls before it left it, every cell outside the
    email column of every row that was there is what it was, and the sheet
    has grown by one row per call at most. *)
Theorem ids_and_names_never_change calls : forall t row col,
  (1 <= row <= length t)%nat -> (1 <= col)%nat -> col <> 3%nat ->
  cell (sheet_after_calls t calls) row col = cell t row col
  /\ (length t <= length (sheet_after_calls t calls) <= length t + length calls)%nat.
Proof.
  induction calls as [|c calls IH]; intros t row col Hrow Hcol Hne.
  { cbn. split; [done|lia]. }
  unfold sheet_after_calls in *. cbn [foldl length].
  destruct (sheet_after_call_frame t c) as [Hlen Hcells].
  destruct (IH (sheet_after_call t c) row col) as [Hcell Hlen']; [lia|done..|].
  rewrite Hcell, Hcells by done. split; [done|lia].
Qed.

Lemma ids_and_names_never_change_witness :
  cell (sheet_after_calls sample_attendees
          [Call "ana lee" "new@x.com" [] "9"; Call "Bo Li" EmptyString [] "2"]) 2 2
  = "Ana Lee".
Proof.
  destruct (ids_and_names_never_change
              [Call "ana lee" "new@x.com" [] "9"; Call "Bo Li" EmptyString [] "2"]
              sample_attendees 2 2) as [-> _]; [cbn; lia|lia|lia|reflexivity].
Defined.

(** ** [extract_quiz_date] *)

(** The date is that of the first row named Game Started On: whatever rows
    come after it, the text in its Value cell is handed to [parse_quiz_date],
    whose result or exception is what comes back; the name is compared as it
    stands, letter case and blanks included. *)
Theorem quiz_date_is_read_from_the_first_row df before after values date_value :
  xl_column "Name" df = Some (before ++ XText "Game Started On" :: after) ->
  XText "Game Started On" ∉ before ->
  xl_column "Value" df = Some values ->
  values !! length before = Some (XText date_value) ->
  extract_quiz_date df
  = match parse_quiz_date date_value with
    | Returned iso => DateRead iso
    | Raised e => ReadRaised (OfProgram e)
    end.
Proof.
  intros Hnames Hbefore Hvalues Hcell. unfold extract_quiz_date.
  rewrite Hnames, list_find_app_r.
  - cbn [list_find]. rewrite decide_True by done. cbn [fmap option_fmap option_map].
    unfold prod_map. cbn [fst snd Nat.add]. rewrite Hvalues.
    by rewrite (nth_lookup_Some _ _ XOther _ Hcell).
  - apply list_find_None. apply Forall_forall. by intros v Hv ->.
Qed.

Lemma quiz_date_is_read_from_the_first_row_witness :
  extract_quiz_date
    [("Name", [XText "Quiz Name"; XText "Game Started On"; XText "Game Started On"]);
     ("Value", [XText "AI 101"; XText "Mon 03 Mar 2025, 10:00 AM"; XOther])]
  = DateRead "2025-03-03".
Proof.
  apply (quiz_date_is_read_from_the_first_row _ [XText "Quiz Name"]
           [XText "Game Started On"]
           [XText "AI 101"; XText "Mon 03 Mar 2025, 10:00 AM"; XOther]
           "Mon 03 Mar 2025, 10:00 AM"); [reflexivity| |reflexivity..].
  intros H. apply list_elem_of_singleton in H. discriminate H.
Defined.

(** What [extract_quiz_date] raises before any date is parsed: [KeyError]
    without a Name column; [ValueError] when no row is named Game Started On,
    with or without a Value column; [KeyError] when there is such a row and no
    Value column; [AttributeError] when the Value cell of the row is not a
    text. *)
Theorem quiz_date_lookup_errors df :
  (xl_column "Name" df = None -> extract_quiz_date df = ReadRaised KeyError)
  /\ (forall names,
        xl_column "Name" df = Some names ->
        XText "Game Started On" ∉ names ->
        extract_quiz_date df = ReadRaised (OfProgram ValueError))
  /\ (forall names,
        xl_column "Name" df = Some names ->
        XText "Game Started On" ∈ names ->
        xl_column "Value" df = None ->
        extract_quiz_date df = ReadRaised KeyError)
  /\ (forall names values i,
        xl_column "Name" df = Some names ->
        xl_column "Value" df = Some values ->
        list_find (fun v => v = XText "Game Started On") names
        = Some (i, XText "Game Started On") ->
        nth i values XOther = XOther ->
        extract_quiz_date df = ReadRaised AttributeError).
Proof.
  unfold extract_quiz_date. split_and!.
  - by intros ->.
  - intros names -> Hno.
    assert (list_find (fun v => v = XText "Game Started On") names = None) as ->; [|done].
    apply list_find_None. apply Forall_forall. by intros v Hv ->.
  - intros names -> Hin ->.
    destruct (list_find _ names) as [[i v]|] eqn:Hfind; [done|].
    eapply list_find_None in Hfind. rewrite Forall_forall in Hfind.
    by destruct (Hfind _ Hin).
  - by intros names values i -> -> -> ->.
Qed.

Lemma quiz_date_lookup_errors_witness :
  extract_quiz_date [("Name", [XText "game started on"]); ("Value", [XText "x"])]
  = ReadRaised (OfProgram ValueError).
Proof.
  apply (proj1 (proj2 (quiz_date_lookup_errors _)) [XText "game started on"]);
    [reflexivity|].
  intros H. apply list_elem_of_singleton in H. discriminate H.
Defined.
